(** * KC-Chain-M2 data transformation scripts: a shallow embedding

    The Python scripts under [data_transformation/] clean six CSV datasets:
    they load a file, parse unit strings with regular expressions, convert
    temperatures, assign device identifiers, encode timestamps and assemble
    a fixed output schema.  This file embeds the functions that carry that
    logic, one module per script, and states the properties of the
    specification over them.  The script
    [scripts/create_wallet_device_mapping.py], which spreads the device
    identifiers over wallets, is embedded in the same way.

    Modelling conventions.
    - A Python [str] is a [string] of 8-bit characters (code points 0..255).
    - A cell of a parsed column is missing or text ([cell]).
    - A float of the unit parsers ([pyfloat]) is [np.nan], an infinity or
      a finite binary64 number, held as the rational it denotes; the two
      zeros, which compare equal, are one value.  [float(...)] rounds the
      numeral to the nearest binary64 number, ties to even, and a division
      rounds the exact quotient likewise.  The temperature conversion is
      embedded on the primitive binary64 floats.
    - A pandas [Series] is the list of its values in index order; a
      [DataFrame] is its column labels and its rows.
    - The generator of the [random] module is the Mersenne Twister of
      CPython, its state passed explicitly.
    - A load step is a function of the outcomes of the reads it may
      attempt, and returns the encodings it tried with its outcome. *)

From Stdlib Require Import Bool Arith ZArith QArith List Ascii String Lia.
From Stdlib Require Import Floats DecimalString.
From Stdlib Require Import Qround Qpower Qabs.
From Stdlib Require Import Permutation Sorted DecimalZ DecimalPos.
Import ListNotations.

Local Open Scope string_scope.

(** ** Strings *)

Module Str.

(** [forallb] on the characters of a string. *)
Fixpoint all (p : ascii -> bool) (s : string) : bool :=
  match s with
  | EmptyString => true
  | String c s' => p c && all p s'
  end.

(** Does the first character, when there is one, satisfy [p]? *)
Definition head_is (p : ascii -> bool) (s : string) : bool :=
  match s with
  | EmptyString => false
  | String c _ => p c
  end.

(** [s[:n]] *)
Fixpoint take (n : nat) (s : string) : string :=
  match n, s with
  | S n', String c s' => String c (take n' s')
  | _, _ => EmptyString
  end.

Fixpoint map (f : ascii -> ascii) (s : string) : string :=
  match s with
  | EmptyString => EmptyString
  | String c s' => String (f c) (map f s')
  end.

Fixpoint filter (p : ascii -> bool) (s : string) : string :=
  match s with
  | EmptyString => EmptyString
  | String c s' => if p c then String c (filter p s') else filter p s'
  end.

(** Each character replaced by a piece of text. *)
Fixpoint flat_map (f : ascii -> string) (s : string) : string :=
  match s with
  | EmptyString => EmptyString
  | String c s' => f c ++ flat_map f s'
  end.

End Str.

(** ** Character classes of Python's [re] on [str] patterns

    Restricted to code points below 256: [\d] is [0-9]; [\s] is what
    [str.isspace] accepts, i.e. TAB..CR, FS..US, SPACE, NEL and NBSP. *)

Definition code (c : ascii) : N := N_of_ascii c.

Definition is_digit (c : ascii) : bool :=
  ((48 <=? code c) && (code c <=? 57))%N.

Definition is_space (c : ascii) : bool :=
  (((9 <=? code c) && (code c <=? 13)) || ((28 <=? code c) && (code c <=? 32))
   || (code c =? 133) || (code c =? 160))%N.

(** ** A backtracking matcher for the regular expressions of the scripts

    The fragment used by the unit parsers: literal characters, the classes
    [\d] and [\s], greedy repetition of a class, concatenation, a greedy
    optional group and the empty expression.  [rmatch r s k] matches [r] at
    the start of [s] and hands the remaining text to the continuation [k];
    alternatives are tried in the priority order of Python's engine (greedy
    first), and the first success wins. *)

Inductive regex : Type :=
| Chr (c : ascii)
| Cls (p : ascii -> bool)
| Star (p : ascii -> bool)
| Cat (r1 r2 : regex)
| Opt (r : regex)
| Eps.

Fixpoint star_k {A} (p : ascii -> bool) (s : string)
         (k : string -> option A) : option A :=
  match s with
  | String c s' =>
      if p c then
        match star_k p s' k with
        | Some a => Some a
        | None => k s
        end
      else k s
  | EmptyString => k s
  end.

Fixpoint rmatch {A} (r : regex) (s : string)
         (k : string -> option A) : option A :=
  match r with
  | Chr c =>
      match s with
      | String c' s' => if Ascii.eqb c c' then k s' else None
      | EmptyString => None
      end
  | Cls p =>
      match s with
      | String c' s' => if p c' then k s' else None
      | EmptyString => None
      end
  | Star p => star_k p s k
  | Cat r1 r2 => rmatch r1 s (fun s1 => rmatch r2 s1 k)
  | Opt r1 =>
      match rmatch r1 s k with
      | Some a => Some a
      | None => k s
      end
  | Eps => k s
  end.

(** The literal text [u] as a regex. *)
Fixpoint lit (u : string) : regex :=
  match u with
  | EmptyString => Eps
  | String c u' => Cat (Chr c) (lit u')
  end.

(** [\d+] *)
Definition digits1 : regex := Cat (Cls is_digit) (Star is_digit).

(** [\d+(?:\.\d+)?] *)
Definition unsigned_numeral_re : regex :=
  Cat digits1 (Opt (Cat (Chr ".") digits1)).

(** [-?\d+(?:\.\d+)?] *)
Definition signed_numeral_re : regex :=
  Cat (Opt (Chr "-")) unsigned_numeral_re.

(** A pattern of the shape [(group1)rest], with one capturing group at its
    start, as every pattern of the unit parsers is. *)
Record pattern : Type := { group1 : regex; rest : regex }.

(** Match at the start of [s]; the result is [match.group(1)]. *)
Definition match_at (pat : pattern) (s : string) : option string :=
  rmatch (group1 pat) s (fun s1 =>
    rmatch (rest pat) s1 (fun _ =>
      Some (Str.take (String.length s - String.length s1) s))).

(** [re.search(pat, s)]: the leftmost position with a match. *)
Fixpoint re_search (pat : pattern) (s : string) : option string :=
  match match_at pat s with
  | Some g => Some g
  | None =>
      match s with
      | String _ s' => re_search pat s'
      | EmptyString => None
      end
  end.

(** [r'(\d+(?:\.\d+)?)\s*<unit>'] and, signed, [r'(-?\d+(?:\.\d+)?)\s*<unit>'] *)
Definition unit_pattern (signed : bool) (unit : string) : pattern :=
  {| group1 := if signed then signed_numeral_re else unsigned_numeral_re;
     rest := Cat (Star is_space) (lit unit) |}.

(** ** Values *)

(** A cell handed to a parser by [Series.apply]: the columns parsed hold
    text, or are missing. *)
Inductive cell : Type :=
| NA
| Text (s : string).

(** [pd.isna(value)] *)
Definition isna (value : cell) : bool :=
  match value with NA => true | Text _ => false end.

(** [str(value)] *)
Definition str (value : cell) : string :=
  match value with NA => "nan" | Text s => s end.

(** The floats of the unit parsers: [np.nan], an infinity, or a finite
    binary64 number held as the rational it denotes. *)
Inductive pyfloat : Type :=
| NaN
| Inf (negative : bool)
| Num (q : Q).

Definition digit_val (c : ascii) : Z := Z.of_N (code c) - 48.

(** Reads the digits of a numeral left to right: the mantissa and the number
    of digits after the decimal point. *)
Fixpoint scan_decimal (s : string) (m : Z) (dot : bool) (e : nat) : Z * nat :=
  match s with
  | EmptyString => (m, e)
  | String c s' =>
      if is_digit c
      then scan_decimal s' (10 * m + digit_val c) dot (if dot then S e else e)
      else scan_decimal s' m true e
  end.

Definition decimal_value (s : string) : Q :=
  let (m, e) := scan_decimal s 0 false 0 in
  Qmake m (Z.to_pos (10 ^ Z.of_nat e)).

(** The rational that a captured numeral [-?\d+(\.\d+)?] denotes. *)
Definition numeral_value (s : string) : Q :=
  match s with
  | String "-" s' => Qopp (decimal_value s')
  | _ => decimal_value s
  end.

(** ** Binary64

    Numbers of 53 significant bits whose last place has an exponent from
    -1074 to 971.  Conversion from a decimal numeral and division are
    correctly rounded in Python: the result is the binary64 number
    nearest to the exact value, the one with an even last bit when two
    are equally near, and an infinity when that number would reach
    2^1024. *)

(** [floor(log2 x)] for [x > 0]. *)
Definition ilog2 (x : Q) : Z :=
  let l := (Z.log2 (Qnum x) - Z.log2 (Zpos (Qden x)))%Z in
  if Qle_bool (2 ^ l) x then l else (l - 1)%Z.

(** The integer nearest to [x >= 0], the even one of two that are equally
    near. *)
Definition round_half_even (x : Q) : Z :=
  let m := Qfloor x in
  match Qcompare (x - inject_Z m) (1 # 2) with
  | Lt => m
  | Gt => (m + 1)%Z
  | Eq => if Z.even m then m else (m + 1)%Z
  end.

(** The exponent of the last place of the binary64 numbers around
    [x > 0]: that of the leading bit of [x] less 52, and not below the
    exponent of the subnormal numbers. *)
Definition last_place (x : Q) : Z := Z.max (ilog2 x - 52) (-1074).

(** The binary64 number nearest to [x > 0]; [None] is overflow. *)
Definition round64_pos (x : Q) : option Q :=
  let r := inject_Z (round_half_even (x / 2 ^ last_place x))
           * 2 ^ last_place x in
  if Qle_bool (2 ^ 1024) r then None else Some (Qred r).

Definition round64 (x : Q) : pyfloat :=
  match Qcompare x 0 with
  | Eq => Num 0
  | Gt =>
      match round64_pos x with
      | Some r => Num r
      | None => Inf false
      end
  | Lt =>
      match round64_pos (- x) with
      | Some r => Num (- r)
      | None => Inf true
      end
  end.

(** [float(s)] on a captured numeral. *)
Definition float_of (s : string) : pyfloat := round64 (numeral_value s).

(** [x / y] on floats, for a finite divisor [y] other than zero. *)
Definition float_div (x : pyfloat) (y : Q) : pyfloat :=
  match x with
  | NaN => NaN
  | Inf negative => Inf (xorb negative (Qle_bool y 0))
  | Num q => round64 (q / y)
  end.

(** [str(n)] for an integer, as an f-string renders it. *)
Definition str_int (z : Z) : string := NilZero.string_of_int (Z.to_int z).

(** [x >= c] on floats, for a finite [c]: false when [x] is NaN. *)
Definition float_ge (x : pyfloat) (c : Q) : bool :=
  match x with
  | NaN => false
  | Inf negative => negb negative
  | Num q => Qle_bool c q
  end.

(** [for i, row in df.iterrows()], the index being 0, 1, 2, ... as
    [read_csv] builds it. *)
Fixpoint iterrows_from {A B} (f : Z -> A -> B) (i : Z) (rows : list A) : list B :=
  match rows with
  | [] => []
  | r :: rows' => f i r :: iterrows_from f (i + 1) rows'
  end.

(** ** Data frames

    A frame is its ordered column labels and its rows; the index is
    0, 1, 2, ... as [read_csv] builds it, so [len(df)] is the number of
    rows. *)

Inductive value : Type :=
| VNaN
| VStr (s : string)
| VInt (z : Z)
| VFloat (q : Q).

Definition Series : Type := list value.

Record DataFrame : Type := { columns : list string; rows : list (list value) }.

Definition len (df : DataFrame) : nat := List.length (rows df).

Fixpoint column_index (name : string) (cols : list string) : option nat :=
  match cols with
  | [] => None
  | c :: cols' =>
      if String.eqb c name then Some O
      else option_map S (column_index name cols')
  end.

(** [df[name]]: [None] stands for [KeyError]. *)
Definition getitem (df : DataFrame) (name : string) : option Series :=
  match column_index name (columns df) with
  | Some j => Some (map (fun r => nth j r VNaN) (rows df))
  | None => None
  end.

(** A value of the dict given to [pd.DataFrame]: a series or a scalar. *)
Inductive entry : Type :=
| Col (s : Series)
| Scalar (v : value).

(** [df.get(name, default)] *)
Definition get (df : DataFrame) (name : string) (default : value) : entry :=
  match getitem df name with
  | Some s => Col s
  | None => Scalar default
  end.

Definition entry_len (e : entry) : option nat :=
  match e with
  | Col s => Some (List.length s)
  | Scalar _ => None
  end.

(** The length of the union of the series' indexes; [None] when the dict
    holds scalars only ([ValueError]). *)
Fixpoint index_len (data : list (string * entry)) : option nat :=
  match data with
  | [] => None
  | (_, e) :: data' =>
      match entry_len e, index_len data' with
      | Some n, Some m => Some (Nat.max n m)
      | Some n, None => Some n
      | None, r => r
      end
  end.

Definition entry_at (i : nat) (e : entry) : value :=
  match e with
  | Col s => nth i s VNaN
  | Scalar v => v
  end.

(** [pd.DataFrame({...})]: series are aligned on the index (a shorter one
    is padded with NaN), scalars are repeated on every row. *)
Definition pd_DataFrame (data : list (string * entry)) : option DataFrame :=
  match index_len data with
  | None => None
  | Some n =>
      Some {| columns := map fst data;
              rows := map (fun i => map (fun kv => entry_at i (snd kv)) data)
                          (seq 0 n) |}
  end.

Definition obind {A B} (o : option A) (f : A -> option B) : option B :=
  match o with
  | Some a => f a
  | None => None
  end.

Notation "x <- e ;; k" := (obind e (fun x => k))
  (at level 61, e at next level, right associativity).

(** An empty frame, [pd.DataFrame()]. *)
Definition empty_frame : DataFrame := {| columns := []; rows := [] |}.

Fixpoint set_nth {A} (j : nat) (v : A) (l : list A) : list A :=
  match l, j with
  | [], _ => []
  | _ :: t, O => v :: t
  | h :: t, S j' => h :: set_nth j' v t
  end.

(** Row [i] of [df] with the value of [e] under the label [name]: in the
    place of that column when the frame has it, at the end otherwise. *)
Definition row_with (df : DataFrame) (name : string) (e : entry)
           (i : nat) (r : list value) : list value :=
  match column_index name (columns df) with
  | Some j => set_nth j (entry_at i e) r
  | None => (r ++ [entry_at i e])%list
  end.

Fixpoint mapi_from {A B} (f : nat -> A -> B) (i : nat) (l : list A) : list B :=
  match l with
  | [] => []
  | x :: l' => f i x :: mapi_from f (S i) l'
  end.

(** [df[name] = e].  A frame whose index is still empty takes the index of
    a series assigned to it, its earlier columns being NaN on every row;
    otherwise the series is aligned on the index of the frame and a scalar
    is repeated on every row. *)
Definition setitem (df : DataFrame) (name : string) (e : entry) : DataFrame :=
  {| columns :=
       match column_index name (columns df) with
       | Some _ => columns df
       | None => (columns df ++ [name])%list
       end;
     rows :=
       match rows df, e with
       | [], Col s =>
           mapi_from (row_with df name e) 0
             (List.map (fun _ => List.map (fun _ => VNaN) (columns df)) s)
       | rs, _ => mapi_from (row_with df name e) 0 rs
       end |}.

(** [df.reindex(columns=labels)]: the columns named, in that order; a
    label the frame does not have gives a column of NaN. *)
Definition reindex_columns (df : DataFrame) (labels : list string) : DataFrame :=
  {| columns := labels;
     rows := List.map
               (fun r => List.map
                           (fun c => match column_index c (columns df) with
                                     | Some j => nth j r VNaN
                                     | None => VNaN
                                     end) labels)
               (rows df) |}.

(** [pd.concat([a, b], ignore_index=True)] for two frames with the same
    columns. *)
Definition concat (a b : DataFrame) : DataFrame :=
  {| columns := columns a; rows := (rows a ++ rows b)%list |}.

(** The order of [sort_values] on a column of timestamps, each held as
    its count of nanoseconds ([VInt]): ascending, anything else last. *)
Definition value_leb (x y : value) : bool :=
  match x, y with
  | VInt a, VInt b => (a <=? b)%Z
  | VInt _, _ => true
  | _, VInt _ => false
  | _, _ => true
  end.

Fixpoint insert_row (j : nat) (r : list value) (sorted : list (list value))
  : list (list value) :=
  match sorted with
  | [] => [r]
  | r' :: rest =>
      if value_leb (nth j r VNaN) (nth j r' VNaN)
      then r :: sorted
      else r' :: insert_row j r rest
  end.

(** [df.sort_values(by).reset_index(drop=True)]; [None] stands for
    [KeyError].  Rows with equal keys keep their order here; pandas does
    not promise theirs. *)
Definition sort_values (df : DataFrame) (by_ : string) : option DataFrame :=
  match column_index by_ (columns df) with
  | Some j =>
      Some {| columns := columns df;
              rows := fold_right (insert_row j) [] (rows df) |}
  | None => None
  end.

(** [name in df.columns] *)
Definition has_column (df : DataFrame) (name : string) : bool :=
  existsb (String.eqb name) (columns df).

(** The elements of [l] at the places where the mask holds [true]. *)
Fixpoint select {A} (mask : list bool) (l : list A) : list A :=
  match mask, l with
  | b :: mask', x :: l' =>
      if b then x :: select mask' l' else select mask' l'
  | _, _ => []
  end.

(** The columns that stay when [labels] are dropped. *)
Definition keep_mask (labels cols : list string) : list bool :=
  List.map (fun c => negb (existsb (String.eqb c) labels)) cols.

(** [df.drop(columns=labels, errors='ignore')]: every column bearing one
    of the labels goes, with its values. *)
Definition drop_ignore (df : DataFrame) (labels : list string) : DataFrame :=
  {| columns := select (keep_mask labels (columns df)) (columns df);
     rows := List.map (select (keep_mask labels (columns df))) (rows df) |}.

(** [df.drop(columns=labels)]; [None] stands for the [KeyError] raised
    when one of the labels is not a column of the frame. *)
Definition drop (df : DataFrame) (labels : list string) : option DataFrame :=
  if forallb (has_column df) labels then Some (drop_ignore df labels)
  else None.

(** The loop [for col in labels: if col in df.columns: df = df.drop(columns=[col])]
    of the privacy steps. *)
Fixpoint drop_each_present (labels : list string) (df : DataFrame)
  : option DataFrame :=
  match labels with
  | [] => Some df
  | col :: labels' =>
      if has_column df col
      then df' <- drop df [col] ;; drop_each_present labels' df'
      else drop_each_present labels' df
  end.

(** A dict with string keys, in insertion order. *)
Definition dict (V : Type) : Type := list (string * V).

Fixpoint dict_get {V} (d : dict V) (k : string) : option V :=
  match d with
  | [] => None
  | (k', v) :: d' => if String.eqb k' k then Some v else dict_get d' k
  end.

(** [d[k] = v]: a key already present keeps its place. *)
Fixpoint dict_set {V} (d : dict V) (k : string) (v : V) : dict V :=
  match d with
  | [] => [(k, v)]
  | (k', v') :: d' =>
      if String.eqb k' k then (k', v) :: d' else (k', v') :: dict_set d' k v
  end.

(** [df.rename(columns=mapping)]: a label that is a key of the dict is
    replaced by its value. *)
Definition rename (df : DataFrame) (mapping : dict string) : DataFrame :=
  {| columns := List.map (fun c => match dict_get mapping c with
                                   | Some c' => c'
                                   | None => c
                                   end) (columns df);
     rows := rows df |}.

(** [Series.unique()] on a column of integers: the values in order of
    first appearance. *)
Fixpoint unique (l : list Z) : list Z :=
  match l with
  | [] => []
  | x :: l' => x :: List.filter (fun y => negb (y =? x)%Z) (unique l')
  end.

Fixpoint insert_sorted (x : Z) (l : list Z) : list Z :=
  match l with
  | [] => [x]
  | y :: l' => if (x <=? y)%Z then x :: l else y :: insert_sorted x l'
  end.

(** [sorted(l)] on integers. *)
Definition sorted (l : list Z) : list Z := fold_right insert_sorted [] l.

(** A loop that appends the result of a step which may raise. *)
Fixpoint mapM {A B} (f : A -> option B) (l : list A) : option (list B) :=
  match l with
  | [] => Some []
  | x :: l' => y <- f x ;; ys <- mapM f l' ;; Some (y :: ys)
  end.

(** [Series.diff()] on a column of integers (timestamps, in
    nanoseconds), without its leading missing value. *)
Fixpoint diff (l : list Z) : list Z :=
  match l with
  | x :: (y :: _) as l' => (y - x)%Z :: diff l'
  | _ => []
  end.

Definition count (v : Z) (l : list Z) : nat :=
  List.length (List.filter (Z.eqb v) l).

(** [y] comes before [best] among the modes of [l]: it is more frequent,
    or as frequent and smaller. *)
Definition before_in_mode (l : list Z) (y best : Z) : bool :=
  (count best l <? count y l)%nat
  || ((count best l =? count y l)%nat && (y <? best)%Z).

(** [Series.mode()[0]]: the smallest of the most frequent values;
    [None] stands for the [KeyError] on the empty result. *)
Definition mode_first (l : list Z) : option Z :=
  match l with
  | [] => None
  | x :: l' =>
      Some (fold_left (fun best y => if before_in_mode l y best then y else best)
                      l' x)
  end.

(** [Series.min()] on a column that is not empty. *)
Definition minimum (x : Z) (l : list Z) : Z := fold_left Z.min l x.

(** ** Python string methods used by the identity generators *)

(** [c.lower()] on a code point below 256: A-Z and the upper-case letters
    of Latin-1 (0xC0..0xDE but the multiplication sign) move up by 32. *)
Definition lower_char (c : ascii) : ascii :=
  let n := code c in
  if (((65 <=? n) && (n <=? 90))
      || ((192 <=? n) && (n <=? 222) && negb (n =? 215)))%N
  then ascii_of_N (n + 32)
  else c.

Fixpoint lower (s : string) : string :=
  match s with
  | EmptyString => EmptyString
  | String c s' => String (lower_char c) (lower s')
  end.

(** [s.replace(old, new)] for a non-empty [old]: occurrences are replaced
    left to right without overlap.  [skip] counts the characters of a
    replaced occurrence still to pass over. *)
Fixpoint replace_from (old new s : string) (skip : nat) : string :=
  match s with
  | EmptyString => EmptyString
  | String c s' =>
      match skip with
      | S k => replace_from old new s' k
      | O =>
          if String.prefix old s
          then new ++ replace_from old new s' (String.length old - 1)
          else String c (replace_from old new s' 0)
      end
  end.

Definition replace (old new s : string) : string := replace_from old new s 0.


(** [sub in s] on strings. *)
Fixpoint contains (sub s : string) : bool :=
  String.prefix sub s ||
  match s with
  | EmptyString => false
  | String _ s' => contains sub s'
  end.

Fixpoint repeat_char (c : ascii) (n : nat) : string :=
  match n with
  | O => EmptyString
  | S n' => String c (repeat_char c n')
  end.

(** [f"{n:03d}"] for [n >= 0]: the decimal numeral, padded with zeros on
    the left to three characters. *)
Definition format_03d (n : Z) : string :=
  let s := str_int n in
  repeat_char "0" (3 - String.length s) ++ s.

(** ** The Mersenne Twister behind Python's [random] module

    [random.seed(42)] and [random.randint(1, 3)] of the retail script run
    CPython's MT19937; the state is the vector of 624 words and the
    position in it.  Words are kept below 2^32 by an explicit mask where C
    relies on [uint32_t]. *)

Module MT19937.
Local Open Scope Z_scope.

Definition N : nat := 624.
Definition M : nat := 397.
Definition MATRIX_A : Z := 0x9908b0df.
Definition UPPER_MASK : Z := 0x80000000.
Definition LOWER_MASK : Z := 0x7fffffff.

Definition u32 (x : Z) : Z := Z.land x 0xffffffff.

Record state : Type := { mt : list Z; index : nat }.

Definition word (l : list Z) (i : nat) : Z := nth i l 0.

Fixpoint set_word (l : list Z) (i : nat) (v : Z) : list Z :=
  match l, i with
  | [], _ => []
  | _ :: t, O => v :: t
  | h :: t, S i' => h :: set_word t i' v
  end.

(** [init_genrand]:
    [mt[i] = 1812433253 * (mt[i-1] ^ (mt[i-1] >> 30)) + i] *)
Fixpoint init_loop (n : nat) (i : Z) (prev : Z) : list Z :=
  match n with
  | O => []
  | S n' =>
      let x := u32 (1812433253 * Z.lxor prev (Z.shiftr prev 30) + i) in
      x :: init_loop n' (i + 1) x
  end.

Definition init_genrand (s : Z) : state :=
  {| mt := u32 s :: init_loop (N - 1) 1 (u32 s); index := N |}.

(** The first loop of [init_by_array], [k] iterations left. *)
Fixpoint key_loop (k : nat) (key mt : list Z) (i j : nat) : list Z * nat :=
  match k with
  | O => (mt, i)
  | S k' =>
      let p := word mt (i - 1) in
      let v := u32 (Z.lxor (word mt i) (Z.lxor p (Z.shiftr p 30) * 1664525)
                    + word key j + Z.of_nat j) in
      let mt := set_word mt i v in
      let i := S i in
      let j := S j in
      let '(mt, i) := if (N <=? i)%nat
                      then (set_word mt 0 (word mt (N - 1)), 1%nat)
                      else (mt, i) in
      let j := if (List.length key <=? j)%nat then O else j in
      key_loop k' key mt i j
  end.

(** The second loop of [init_by_array]. *)
Fixpoint mix_loop (k : nat) (mt : list Z) (i : nat) : list Z :=
  match k with
  | O => mt
  | S k' =>
      let p := word mt (i - 1) in
      let v := u32 (Z.lxor (word mt i) (Z.lxor p (Z.shiftr p 30) * 1566083941)
                    - Z.of_nat i) in
      let mt := set_word mt i v in
      let i := S i in
      let '(mt, i) := if (N <=? i)%nat
                      then (set_word mt 0 (word mt (N - 1)), 1%nat)
                      else (mt, i) in
      mix_loop k' mt i
  end.

Definition init_by_array (key : list Z) : state :=
  let st := init_genrand 19650218 in
  let '(mt1, i) := key_loop (Nat.max N (List.length key)) key (mt st) 1 0 in
  let mt2 := mix_loop (N - 1) mt1 i in
  {| mt := set_word mt2 0 0x80000000; index := N |}.

Definition twist_word (a b c : Z) : Z :=
  let y := Z.lor (Z.land a UPPER_MASK) (Z.land b LOWER_MASK) in
  Z.lxor (Z.lxor c (Z.shiftr y 1)) (if Z.testbit y 0 then MATRIX_A else 0).

(** Regeneration of the whole vector, word [kk] onwards. *)
Fixpoint twist_loop (n kk : nat) (mt : list Z) : list Z :=
  match n with
  | O => mt
  | S n' =>
      let v := twist_word (word mt kk) (word mt ((kk + 1) mod N))
                          (word mt ((kk + M) mod N)) in
      twist_loop n' (S kk) (set_word mt kk v)
  end.

Definition temper (y : Z) : Z :=
  let y := Z.lxor y (Z.shiftr y 11) in
  let y := Z.lxor y (Z.land (Z.shiftl y 7) 0x9d2c5680) in
  let y := Z.lxor y (Z.land (Z.shiftl y 15) 0xefc60000) in
  Z.lxor y (Z.shiftr y 18).

Definition genrand_uint32 (st : state) : Z * state :=
  let st := if (N <=? index st)%nat
            then {| mt := twist_loop N 0 (mt st); index := 0 |}
            else st in
  (u32 (temper (word (mt st) (index st))),
   {| mt := mt st; index := S (index st) |}).

End MT19937.

(** The functions of [random] the scripts call, on the hidden generator
    of the module, whose state is passed explicitly. *)
Module Random.
Import MT19937.
Local Open Scope Z_scope.

(** The 32-bit words of [abs(a)], least significant first. *)
Fixpoint key_words (n : nat) (a : Z) : list Z :=
  match n with
  | O => []
  | S n' => a mod 2 ^ 32 :: key_words n' (a / 2 ^ 32)
  end.

Definition key_of_int (a : Z) : list Z :=
  let n := Z.abs a in
  key_words (Z.to_nat (Z.log2 n / 32 + 1)) n.

(** [random.seed(a)] for an integer [a]: the previous state is
    discarded. *)
Definition seed (a : Z) (_ : state) : state := init_by_array (key_of_int a).

(** [getrandbits(k)] for [0 < k <= 32]. *)
Definition getrandbits (k : Z) (st : state) : Z * state :=
  let (y, st') := genrand_uint32 st in (Z.shiftr y (32 - k), st').

Definition bit_length (n : Z) : Z := if n =? 0 then 0 else Z.log2 n + 1.

(** [_randbelow_with_getrandbits(n)] for [0 < n < 2^32]: rejection
    sampling.  [fuel] bounds the number of draws; [None] is a loop that
    has not ended within the bound. *)
Fixpoint randbelow (fuel : nat) (n : Z) (st : state) : option (Z * state) :=
  match fuel with
  | O => None
  | S fuel' =>
      let (r, st') := getrandbits (bit_length n) st in
      if r <? n then Some (r, st') else randbelow fuel' n st'
  end.

(** [randint(a, b)] is [randrange(a, b + 1)], i.e.
    [a + _randbelow(b + 1 - a)]. *)
Definition randint (fuel : nat) (a b : Z) (st : state) : option (Z * state) :=
  match randbelow fuel (b + 1 - a) st with
  | Some (r, st') => Some (a + r, st')
  | None => None
  end.

(** [x[i], x[j] = x[j], x[i]]; both indexes are within the list where
    [shuffle] swaps. *)
Definition swap {A} (i j : nat) (x : list A) : list A :=
  match nth_error x i, nth_error x j with
  | Some xi, Some xj => set_nth j xi (set_nth i xj x)
  | _, _ => x
  end.

(** The loop of [shuffle], [i] running down to 1. *)
Fixpoint shuffle_loop {A} (fuel : nat) (i : nat) (x : list A) (st : state)
  : option (list A * state) :=
  match i with
  | O => Some (x, st)
  | S i' =>
      match randbelow fuel (Z.of_nat i + 1) st with
      | Some (j, st') => shuffle_loop fuel i' (swap i (Z.to_nat j) x) st'
      | None => None
      end
  end.

(** [random.shuffle(x)]:
    [for i in reversed(range(1, len(x))): j = randbelow(i + 1); swap]. *)
Definition shuffle {A} (fuel : nat) (x : list A) (st : state)
  : option (list A * state) :=
  shuffle_loop fuel (List.length x - 1) x st.

End Random.

(** ** Loading: text encodings and the fallback chain *)

Inductive encoding : Type := utf_8 | latin_1 | cp1252.

(** The errors that [pd.read_csv] raises on a file: it is absent, its
    bytes are not text in the encoding, it holds no columns, or its text
    does not parse as a table. *)
Inductive exn : Type :=
| FileNotFoundError
| UnicodeDecodeError
| EmptyDataError
| ParserError.

Inductive outcome (T : Type) : Type :=
| Ok (t : T)
| Raise (e : exn).
Arguments Ok {T} t.
Arguments Raise {T} e.

(** * The scripts *)

(** The expression [pd.to_datetime(col).astype(int) // 10**9] of every
    [convert_timestamps], on one element.  A parsed date/time is the
    [datetime64[ns]] value pandas holds for it: the signed count of
    nanoseconds since the Unix epoch. *)
Definition timestamp_unix (ns : Z) : Z := (ns / 10 ^ 9)%Z.

(** The expression [pd.to_datetime(col, unit='s')] of the validation
    steps, on one element: whole seconds to nanoseconds. *)
Definition to_datetime_s (seconds : Z) : Z := (seconds * 10 ^ 9)%Z.

(** The last time that [datetime64[ns]] holds, a signed 64-bit count of
    nanoseconds: 2262-04-11 23:47:16.854775807. *)
Definition datetime64_max : Z := (2 ^ 63 - 1)%Z.

(** ** Python's [datetime]

    Naive date/times of the proleptic Gregorian calendar.  A [datetime] is
    held as the count of microseconds since the midnight that starts day 1
    (0001-01-01 is day 1), on which the arithmetic of the module is
    exact. *)
Module Datetime.
Local Open Scope Z_scope.

(** [_is_leap(year)] *)
Definition is_leap (year : Z) : bool :=
  (year mod 4 =? 0) && (negb (year mod 100 =? 0) || (year mod 400 =? 0)).

(** [_days_before_year(year)] *)
Definition days_before_year (year : Z) : Z :=
  let y := year - 1 in
  y * 365 + y / 4 - y / 100 + y / 400.

(** [_DAYS_BEFORE_MONTH[1:]] *)
Definition DAYS_BEFORE_MONTH : list Z :=
  [0; 31; 59; 90; 120; 151; 181; 212; 243; 273; 304; 334].

(** [_days_before_month(year, month)] for [1 <= month <= 12]. *)
Definition days_before_month (year month : Z) : Z :=
  nth (Z.to_nat (month - 1)) DAYS_BEFORE_MONTH 0
  + (if (2 <? month) && is_leap year then 1 else 0).

(** [_ymd2ord(year, month, day)] *)
Definition ymd2ord (year month day : Z) : Z :=
  days_before_year year + days_before_month year month + day.

Definition microseconds_per_day : Z := 86400 * 10 ^ 6.

(** [datetime(year, month, day)], at midnight. *)
Definition datetime (year month day : Z) : Z :=
  (ymd2ord year month day - 1) * microseconds_per_day.

(** [timedelta(hours=h)] *)
Definition timedelta_hours (h : Z) : Z := h * 3600 * 10 ^ 6.

(** The [datetime64[ns]] value pandas holds for a naive [datetime]:
    nanoseconds since 1970-01-01. *)
Definition to_datetime64 (dt : Z) : Z := (dt - datetime 1970 1 1) * 1000.

End Datetime.

(** ** network_performance_parsing.py *)

Module Network.

(** [pd.read_csv('data/Quality of Service 5G.csv')]: UTF-8, the default.
    A load step returns the encodings it tried, in order, and its
    outcome. *)
Definition load_dataset {T} (read_csv : encoding -> outcome T)
  : list encoding * outcome T :=
  ([utf_8], read_csv utf_8).

Definition extract_signal_strength (value : cell) : pyfloat :=
  if isna value then NaN
  else
    match re_search (unit_pattern true "dBm") (str value) with
    | Some g => float_of g
    | None => NaN
    end.

Definition extract_latency (value : cell) : pyfloat :=
  if isna value then NaN
  else
    match re_search (unit_pattern false "ms") (str value) with
    | Some g => float_of g
    | None => NaN
    end.

Definition extract_bandwidth (value : cell) : pyfloat :=
  if isna value then NaN
  else
    match re_search (unit_pattern false "Mbps") (str value) with
    | Some g => float_of g
    | None =>
        match re_search (unit_pattern false "Kbps") (str value) with
        | Some g => float_div (float_of g) 1000
        | None => NaN
        end
    end.

Definition extract_percentage (value : cell) : pyfloat :=
  if isna value then NaN
  else
    match re_search (unit_pattern false "%") (str value) with
    | Some g => float_of g
    | None => NaN
    end.

(** The body of the loop of [create_cell_tower_device_ids]: [i] is the
    index label of the row. *)
Definition cell_tower_device_id (i : Z) (signal_strength_dbm : pyfloat) : string :=
  let tower_id :=
    if float_ge signal_strength_dbm (-70) then "tower-" ++ str_int (i mod 3 + 1)
    else if float_ge signal_strength_dbm (-85) then "tower-" ++ str_int (i mod 3 + 4)
    else "tower-" ++ str_int (i mod 3 + 7) in
  "did:lcore:cell-tower-" ++ tower_id.

Definition create_cell_tower_device_ids (signal_strength_dbm : list pyfloat)
  : list string :=
  iterrows_from cell_tower_device_id 0 signal_strength_dbm.

Definition convert_timestamps (Timestamp : list Z) : list Z :=
  List.map timestamp_unix Timestamp.

Definition create_schema_compliant_format (raw_data : DataFrame)
  : option DataFrame :=
  device_id <- getitem raw_data "device_id" ;;
  timestamp <- getitem raw_data "timestamp_unix" ;;
  application_type <- getitem raw_data "Application_Type" ;;
  signal_strength_dbm <- getitem raw_data "signal_strength_dbm" ;;
  latency_ms <- getitem raw_data "latency_ms" ;;
  required_bandwidth_mbps <- getitem raw_data "required_bandwidth_mbps" ;;
  allocated_bandwidth_mbps <- getitem raw_data "allocated_bandwidth_mbps" ;;
  resource_utilization <- getitem raw_data "resource_utilization" ;;
  pd_DataFrame
    [ ("device_id", Col device_id);
      ("owner_address", Scalar (VStr "PLACEHOLDER_FOR_CARTESI"));
      ("timestamp", Col timestamp);
      ("application_type", Col application_type);
      ("signal_strength_dbm", Col signal_strength_dbm);
      ("latency_ms", Col latency_ms);
      ("required_bandwidth_mbps", Col required_bandwidth_mbps);
      ("allocated_bandwidth_mbps", Col allocated_bandwidth_mbps);
      ("resource_utilization", Col resource_utilization);
      ("encrypted_data", Scalar (VStr "CARTESI_GENERATED"));
      ("data_hash", Scalar (VStr "CARTESI_GENERATED")) ].

(** The columns of the working table that the step reads with [[...]]. *)
Definition required_columns : list string :=
  [ "device_id"; "timestamp_unix"; "Application_Type"; "signal_strength_dbm";
    "latency_ms"; "required_bandwidth_mbps"; "allocated_bandwidth_mbps";
    "resource_utilization" ].

(** The keys of the dict, in order. *)
Definition output_columns : list string :=
  [ "device_id"; "owner_address"; "timestamp"; "application_type";
    "signal_strength_dbm"; "latency_ms"; "required_bandwidth_mbps";
    "allocated_bandwidth_mbps"; "resource_utilization"; "encrypted_data";
    "data_hash" ].

(** [if 'User_ID' in columns: drop(columns=['User_ID'])] *)
Definition remove_user_ids (raw_data : DataFrame) : option DataFrame :=
  if has_column raw_data "User_ID" then drop raw_data ["User_ID"]
  else Some raw_data.

(** The [Series.apply] of each parsing step, on the column it reads. *)
Definition parse_signal_strength (Signal_Strength : list cell) : list pyfloat :=
  List.map extract_signal_strength Signal_Strength.

Definition parse_latency (Latency : list cell) : list pyfloat :=
  List.map extract_latency Latency.

Definition parse_bandwidth (Bandwidth : list cell) : list pyfloat :=
  List.map extract_bandwidth Bandwidth.

Definition parse_resource_allocation (Resource_Allocation : list cell)
  : list pyfloat :=
  List.map extract_percentage Resource_Allocation.

End Network.

(** ** weather_unit_conversion.py *)

Module Weather.

Definition load_dataset {T} (read_csv : encoding -> outcome T)
  : list encoding * outcome T :=
  ([utf_8], read_csv utf_8).

(** On binary64, as the [temp] columns are. *)
Definition fahrenheit_to_celsius (fahrenheit : float) : float :=
  if PrimFloat.is_nan fahrenheit then nan
  else ((fahrenheit - 32) * 5 / 9)%float.

(** [self.raw_data[field].apply(fahrenheit_to_celsius)] *)
Definition convert_fahrenheit_to_celsius (column : list float) : list float :=
  List.map fahrenheit_to_celsius column.

Definition convert_timestamps (datetime : list Z) : list Z :=
  List.map timestamp_unix datetime.

Definition create_schema_compliant_format (raw_data : DataFrame)
  : option DataFrame :=
  device_id <- getitem raw_data "device_id" ;;
  timestamp <- getitem raw_data "timestamp_unix" ;;
  let temperature_celsius := get raw_data "temp_celsius" VNaN in
  let feels_like_celsius := get raw_data "feelslike_celsius" VNaN in
  let dew_point_celsius := get raw_data "dew_celsius" VNaN in
  humidity <- getitem raw_data "humidity" ;;
  precip <- getitem raw_data "precip" ;;
  windspeed <- getitem raw_data "windspeed" ;;
  winddir <- getitem raw_data "winddir" ;;
  visibility <- getitem raw_data "visibility" ;;
  conditions <- getitem raw_data "conditions" ;;
  pd_DataFrame
    [ ("device_id", Col device_id);
      ("owner_address", Scalar (VStr "PLACEHOLDER_FOR_CARTESI"));
      ("timestamp", Col timestamp);
      ("temperature_celsius", temperature_celsius);
      ("feels_like_celsius", feels_like_celsius);
      ("dew_point_celsius", dew_point_celsius);
      ("humidity_percent", Col humidity);
      ("precipitation_mm", Col precip);
      ("wind_speed_kmh", Col windspeed);
      ("wind_direction_degrees", Col winddir);
      ("visibility_km", Col visibility);
      ("conditions", Col conditions);
      ("encrypted_data", Scalar (VStr "CARTESI_GENERATED"));
      ("data_hash", Scalar (VStr "CARTESI_GENERATED")) ].

(** The columns of the working table that the step reads with [[...]];
    the three Celsius columns are read with [get] and default to NaN. *)
Definition required_columns : list string :=
  [ "device_id"; "timestamp_unix"; "humidity"; "precip"; "windspeed";
    "winddir"; "visibility"; "conditions" ].

Definition output_columns : list string :=
  [ "device_id"; "owner_address"; "timestamp"; "temperature_celsius";
    "feels_like_celsius"; "dew_point_celsius"; "humidity_percent";
    "precipitation_mm"; "wind_speed_kmh"; "wind_direction_degrees";
    "visibility_km"; "conditions"; "encrypted_data"; "data_hash" ].

Definition privacy_fields : list string := [ "name"; "stations" ].

Definition remove_location_identifiers (raw_data : DataFrame)
  : option DataFrame :=
  drop_each_present privacy_fields raw_data.

Definition num_stations : Z := 5.

(** The body of the loop of [create_weather_station_device_ids]. *)
Definition station_device_id (i : nat) : string :=
  let station_num := (Z.of_nat i mod num_stations + 1)%Z in
  "did:lcore:weather-station-oakland-" ++ str_int station_num.

(** [for i in range(len(self.raw_data))] *)
Definition create_weather_station_device_ids (raw_data : DataFrame)
  : list string :=
  List.map station_device_id (seq 0 (len raw_data)).

End Weather.

(** ** agriculture_transformation.py *)

Module Agriculture.

(** [try: pd.read_csv(...) / except Exception: print; raise] *)
Definition load_dataset {T} (read_csv : encoding -> outcome T)
  : list encoding * outcome T :=
  ([utf_8], read_csv utf_8).

(** [f"did:lcore:agri-{row['plot_id']}"] *)
Definition device_id (plot_id : string) : string :=
  "did:lcore:agri-" ++ plot_id.

Definition create_device_ids (plot_id : list string) : list string :=
  List.map device_id plot_id.

(** The output table is built column by column from an empty frame. *)
Definition create_schema_compliant_format (raw_data : DataFrame)
  : option DataFrame :=
  let transformed_data := empty_frame in
  device_id <- getitem raw_data "device_id" ;;
  let transformed_data := setitem transformed_data "device_id" (Col device_id) in
  let transformed_data :=
    setitem transformed_data "owner_address"
            (Scalar (VStr "PLACEHOLDER_FOR_CARTESI")) in
  timestamp_unix <- getitem raw_data "timestamp_unix" ;;
  let transformed_data := setitem transformed_data "timestamp" (Col timestamp_unix) in
  let copy (name : string) (default : value) (t : DataFrame) :=
    setitem t name (get raw_data name default) in
  let transformed_data := copy "chlorophyll_avg" VNaN transformed_data in
  let transformed_data := copy "height_rate" VNaN transformed_data in
  let transformed_data := copy "wet_weight_vegetative" VNaN transformed_data in
  let transformed_data := copy "leaf_area_avg" VNaN transformed_data in
  let transformed_data := copy "leaf_count_avg" VNaN transformed_data in
  let transformed_data := copy "root_diameter_avg" VNaN transformed_data in
  let transformed_data := copy "root_dry_weight" VNaN transformed_data in
  let transformed_data := copy "dry_matter_vegetative" VNaN transformed_data in
  let transformed_data := copy "root_length_avg" VNaN transformed_data in
  let transformed_data := copy "plant_class" (VStr "unknown") transformed_data in
  let transformed_data :=
    setitem transformed_data "encrypted_data" (Scalar (VStr "CARTESI_GENERATED")) in
  let transformed_data :=
    setitem transformed_data "data_hash" (Scalar (VStr "CARTESI_GENERATED")) in
  Some transformed_data.

Definition required_columns : list string := [ "device_id"; "timestamp_unix" ].

Definition output_columns : list string :=
  [ "device_id"; "owner_address"; "timestamp"; "chlorophyll_avg";
    "height_rate"; "wet_weight_vegetative"; "leaf_area_avg";
    "leaf_count_avg"; "root_diameter_avg"; "root_dry_weight";
    "dry_matter_vegetative"; "root_length_avg"; "plant_class";
    "encrypted_data"; "data_hash" ].

Definition discard_columns : list string :=
  [ "Average wet weight of the root (AWWR)";
    "Average dry weight of vegetative plants (ADWV)";
    "Percentage of dry matter for root growth (PDMRG)" ].

(** The condition of the list comprehension; it does not mention the
    loop variable. *)
Definition matches_discard (c : string) : bool :=
  contains "wet weight of the root" c
  || contains "dry weight of vegetative" c
  || contains "root growth" c.

Definition remove_redundant_variables (raw_data : DataFrame) : DataFrame :=
  let existing_discard :=
    List.flat_map (fun _ => List.filter matches_discard (columns raw_data))
                  discard_columns in
  match existing_discard with
  | [] => raw_data
  | _ => drop_ignore raw_data existing_discard
  end.

Definition column_mapping : dict string :=
  [ ("Random", "plot_id");
    ("Average  of chlorophyll in the plant (ACHP)", "chlorophyll_avg");
    ("Plant height rate (PHR)", "height_rate");
    ("Average wet weight of the growth vegetative (AWWGV)",
     "wet_weight_vegetative");
    ("Average leaf area of the plant (ALAP)", "leaf_area_avg");
    ("Average number of plant leaves (ANPL)", "leaf_count_avg");
    ("Average root diameter (ARD)", "root_diameter_avg");
    ("Average dry weight of the root (ADWR)", "root_dry_weight");
    ("Percentage of dry matter for vegetative growth (PDMVG)",
     "dry_matter_vegetative");
    ("Average root length (ARL)", "root_length_avg");
    ("Class", "plant_class") ].

(** The loop that builds [actual_mapping]: a name the frame has maps
    itself; otherwise the first column containing the first 20 characters
    of the name, when there is one, is mapped. *)
Fixpoint actual_mapping_loop (items : dict string) (cols : list string)
         (actual_mapping : dict string) : dict string :=
  match items with
  | [] => actual_mapping
  | (old_name, new_name) :: items' =>
      let actual_mapping :=
        if existsb (String.eqb old_name) cols
        then dict_set actual_mapping old_name new_name
        else
          match List.filter (contains (Str.take 20 old_name)) cols with
          | col :: _ => dict_set actual_mapping col new_name
          | [] => actual_mapping
          end in
      actual_mapping_loop items' cols actual_mapping
  end.

Definition standardize_column_names (raw_data : DataFrame) : DataFrame :=
  let actual_mapping := actual_mapping_loop column_mapping (columns raw_data) [] in
  rename raw_data actual_mapping.

Definition measurement_interval_hours : Z := 6.

Definition start_date : Z := Datetime.datetime 2024 3 1.

(** The timestamp of row [i], and its encoding in Unix seconds. *)
Definition iot_timestamp (i : nat) : Z :=
  (start_date + Datetime.timedelta_hours (Z.of_nat i * measurement_interval_hours))%Z.

(** The column [timestamp_unix] that [generate_iot_timestamps] assigns.
    [None] stands for the errors of the method: [pd.to_datetime] raises
    OutOfBoundsDatetime on a time that [datetime64[ns]] does not hold,
    and the closing [print] raises IndexError at [timestamps[0]] when the
    table has no rows. *)
Definition generate_iot_timestamps (raw_data : DataFrame) : option (list Z) :=
  let timestamps := List.map iot_timestamp (seq 0 (len raw_data)) in
  let parsed := List.map Datetime.to_datetime64 timestamps in
  if forallb (fun ns => ns <=? datetime64_max)%Z parsed
  then
    match timestamps with
    | [] => None
    | _ :: _ => Some (List.map timestamp_unix parsed)
    end
  else None.

End Agriculture.

(** ** health_privacy_protection.py *)

Module Health.

Definition load_dataset {T} (read_csv : encoding -> outcome T)
  : list encoding * outcome T :=
  ([utf_8], read_csv utf_8).

(** [lambda x: f"did:lcore:health-tracker-{x.replace('Device_', '')}"] *)
Definition device_id (x : string) : string :=
  "did:lcore:health-tracker-" ++ replace "Device_" "" x.

Definition convert_device_ids (Device_ID : list string) : list string :=
  List.map device_id Device_ID.

Definition create_schema_compliant_format (raw_data : DataFrame)
  : option DataFrame :=
  device_id <- getitem raw_data "device_id" ;;
  timestamp <- getitem raw_data "timestamp_unix" ;;
  steps <- getitem raw_data "Steps" ;;
  heart_rate <- getitem raw_data "Heart_Rate" ;;
  calories_burned <- getitem raw_data "Calories_Burned" ;;
  exercise_duration <- getitem raw_data "Exercise_Duration" ;;
  activity_label <- getitem raw_data "Activity_Label" ;;
  activity_confidence <- getitem raw_data "Activity_Confidence" ;;
  temperature <- getitem raw_data "Temperature" ;;
  pd_DataFrame
    [ ("device_id", Col device_id);
      ("owner_address", Scalar (VStr "PLACEHOLDER_FOR_CARTESI"));
      ("timestamp", Col timestamp);
      ("steps_count", Col steps);
      ("heart_rate", Col heart_rate);
      ("calories_burned", Col calories_burned);
      ("exercise_duration", Col exercise_duration);
      ("activity_type", Col activity_label);
      ("activity_confidence", Col activity_confidence);
      ("ambient_temperature", Col temperature);
      ("encrypted_data", Scalar (VStr "CARTESI_GENERATED"));
      ("data_hash", Scalar (VStr "CARTESI_GENERATED")) ].

Definition required_columns : list string :=
  [ "device_id"; "timestamp_unix"; "Steps"; "Heart_Rate"; "Calories_Burned";
    "Exercise_Duration"; "Activity_Label"; "Activity_Confidence";
    "Temperature" ].

(** [if 'Location' in columns: drop(columns=['Location'])] *)
Definition remove_location_data (raw_data : DataFrame) : option DataFrame :=
  if has_column raw_data "Location" then drop raw_data ["Location"]
  else Some raw_data.

End Health.

(** ** retail_pii_anonymization.py *)

Module Retail.
Import MT19937.

(** [try: utf-8 / except UnicodeDecodeError: try: latin-1 /
    except: cp1252] *)
Definition load_dataset {T} (read_csv : encoding -> outcome T)
  : list encoding * outcome T :=
  match read_csv utf_8 with
  | Ok raw_data => ([utf_8], Ok raw_data)
  | Raise UnicodeDecodeError =>
      match read_csv latin_1 with
      | Ok raw_data => ([utf_8; latin_1], Ok raw_data)
      | Raise _ => ([utf_8; latin_1; cp1252], read_csv cp1252)
      end
  | Raise e => ([utf_8], Raise e)
  end.

Definition region_clean (region : string) : string :=
  replace "&" "and" (replace " " "-" (lower region)).

(** [fuel] bounds the draws of [random.randint]; [st] is the state of the
    generator of the [random] module. *)
Definition create_store_device_id (fuel : nat) (region : string) (st : state)
  : option (string * state) :=
  match Random.randint fuel 1 3 st with
  | Some (store_num, st') =>
      Some ("did:lcore:retail-" ++ region_clean region ++ "-store-"
              ++ str_int store_num, st')
  | None => None
  end.

(** [Series.apply(f)] for an [f] that uses the generator: one call per
    element, in index order. *)
Fixpoint apply_st {A B} (f : A -> state -> option (B * state))
         (col : list A) (st : state) : option (list B * state) :=
  match col with
  | [] => Some ([], st)
  | x :: col' =>
      match f x st with
      | Some (y, st') =>
          match apply_st f col' st' with
          | Some (ys, st'') => Some (y :: ys, st'')
          | None => None
          end
      | None => None
      end
  end.

(** [random.seed(42)] then the [apply]; [st] is the state of the
    generator when the method is entered. *)
Definition create_retail_device_ids (fuel : nat) (store_region : list string)
           (st : state) : option (list string * state) :=
  let st := Random.seed 42 st in
  apply_st (create_store_device_id fuel) store_region st.

Definition create_schema_compliant_format (raw_data : DataFrame)
  : option DataFrame :=
  device_id <- getitem raw_data "device_id" ;;
  timestamp <- getitem raw_data "timestamp_unix" ;;
  ordernumber <- getitem raw_data "ORDERNUMBER" ;;
  quantityordered <- getitem raw_data "QUANTITYORDERED" ;;
  priceeach <- getitem raw_data "PRICEEACH" ;;
  sales <- getitem raw_data "SALES" ;;
  productline <- getitem raw_data "PRODUCTLINE" ;;
  store_region <- getitem raw_data "store_region" ;;
  dealsize <- getitem raw_data "DEALSIZE" ;;
  pd_DataFrame
    [ ("device_id", Col device_id);
      ("owner_address", Scalar (VStr "PLACEHOLDER_FOR_CARTESI"));
      ("timestamp", Col timestamp);
      ("transaction_id", Col ordernumber);
      ("quantity_sold", Col quantityordered);
      ("unit_price", Col priceeach);
      ("total_sales", Col sales);
      ("product_category", Col productline);
      ("store_region", Col store_region);
      ("store_country", Scalar (VStr "USA"));
      ("transaction_size", Col dealsize);
      ("encrypted_data", Scalar (VStr "CARTESI_GENERATED"));
      ("data_hash", Scalar (VStr "CARTESI_GENERATED")) ].

Definition required_columns : list string :=
  [ "device_id"; "timestamp_unix"; "ORDERNUMBER"; "QUANTITYORDERED";
    "PRICEEACH"; "SALES"; "PRODUCTLINE"; "store_region"; "DEALSIZE" ].

Definition pii_columns_to_remove : list string :=
  [ "CUSTOMERNAME"; "PHONE"; "ADDRESSLINE1"; "ADDRESSLINE2";
    "CONTACTLASTNAME"; "CONTACTFIRSTNAME" ].

Definition remove_all_pii (raw_data : DataFrame) : option DataFrame :=
  drop_each_present pii_columns_to_remove raw_data.

Definition kc_neighborhoods : list string :=
  [ "Crossroads Arts District"; "Westport"; "Country Club Plaza";
    "Crown Center"; "River Market"; "Power & Light District"; "Brookside";
    "Midtown"; "West Bottoms"; "39th Street District" ].

End Retail.

(** ** environmental_fusion.py *)

Module Environmental.

(** The air data are read as UTF-8; then the water data with the chain
    of the retail script.  The result holds the encodings tried on each
    file. *)
Definition load_datasets {T} (read_air read_water : encoding -> outcome T)
  : list encoding * list encoding * outcome (T * T) :=
  match read_air utf_8 with
  | Raise e => ([utf_8], [], Raise e)
  | Ok air_data =>
      match read_water utf_8 with
      | Ok water_data => ([utf_8], [utf_8], Ok (air_data, water_data))
      | Raise UnicodeDecodeError =>
          match read_water latin_1 with
          | Ok water_data =>
              ([utf_8], [utf_8; latin_1], Ok (air_data, water_data))
          | Raise _ =>
              ([utf_8], [utf_8; latin_1; cp1252],
               match read_water cp1252 with
               | Ok water_data => Ok (air_data, water_data)
               | Raise e => Raise e
               end)
          end
      | Raise e => ([utf_8], [utf_8], Raise e)
      end
  end.

Definition common_columns : list string :=
  [ "device_id"; "timestamp"; "location_id"; "sensor_type";
    "temperature_celsius"; "humidity_percent"; "air_quality_index";
    "noise_level_db"; "lighting_lux"; "crowd_density";
    "water_temperature"; "ph_level"; "turbidity_ntu";
    "bod_mgl"; "dissolved_oxygen_mgl"; "conductivity" ].

(** [None], the value assigned to the columns a sensor type lacks, is
    held as a missing value. *)
Definition combine_datasets (air_data water_data : DataFrame)
  : option DataFrame :=
  let none := Scalar VNaN in
  let air_combined := air_data in
  let air_combined := setitem air_combined "water_temperature" none in
  let air_combined := setitem air_combined "ph_level" none in
  let air_combined := setitem air_combined "turbidity_ntu" none in
  let air_combined := setitem air_combined "bod_mgl" none in
  let air_combined := setitem air_combined "dissolved_oxygen_mgl" none in
  let air_combined := setitem air_combined "conductivity" none in
  let water_combined := water_data in
  water_temperature <- getitem water_combined "water_temperature" ;;
  let water_combined :=
    setitem water_combined "temperature_celsius" (Col water_temperature) in
  let water_combined := setitem water_combined "humidity_percent" none in
  let water_combined := setitem water_combined "air_quality_index" none in
  let water_combined := setitem water_combined "noise_level_db" none in
  let water_combined := setitem water_combined "lighting_lux" none in
  let water_combined := setitem water_combined "crowd_density" none in
  let air_combined := reindex_columns air_combined common_columns in
  let water_combined := reindex_columns water_combined common_columns in
  let combined_data := concat air_combined water_combined in
  sort_values combined_data "timestamp".

Definition pii_columns : list string :=
  [ "stress_level"; "sleep_hours"; "mood_score"; "mental_health_status" ].

Definition water_discard : list string :=
  [ "Fecal Coliform (MPN/100ml)"; "NITRATENAN N+ NITRITENANN (mg/l)" ].

(** The air columns are dropped without a guard; of the water columns
    those that exist are dropped. *)
Definition remove_pii_data (air_data water_data : DataFrame)
  : option (DataFrame * DataFrame) :=
  air_data <- drop air_data pii_columns ;;
  let existing_discard := List.filter (has_column water_data) water_discard in
  water_data <-
    match existing_discard with
    | [] => Some water_data
    | _ => drop water_data existing_discard
    end ;;
  Some (air_data, water_data).

(** [air_locations[i % len(air_locations)]]; [None] stands for the
    [ZeroDivisionError] of [i % 0]. *)
Definition location_at (air_locations : list Z) (i : nat) : option Z :=
  match air_locations with
  | [] => None
  | _ => nth_error air_locations (i mod List.length air_locations)
  end.

(** The column [location_id] assigned to the water data: the locations
    of the air data, sorted, in turn.  Location identifiers are integers,
    as in the data set. *)
Definition assign_water_sensors_to_locations (air_location_id : list Z)
           (water_data : DataFrame) : option (list Z) :=
  let air_locations := sorted (unique air_location_id) in
  mapM (location_at air_locations) (seq 0 (len water_data)).

Definition air_device_id (location_id : Z) : string :=
  "did:lcore:env-" ++ str_int location_id ++ "-air".

Definition water_device_id (location_id : Z) : string :=
  "did:lcore:env-" ++ str_int location_id ++ "-water".

(** The two [device_id] columns, from the two [location_id] columns. *)
Definition create_device_ids (air_location_id water_location_id : list Z)
  : list string * list string :=
  (List.map air_device_id air_location_id,
   List.map water_device_id water_location_id).

(** The timestamps given to the water rows: from the earliest air
    timestamp, in steps of the most common difference between consecutive
    air timestamps.  Timestamps are held in nanoseconds; [None] stands
    for the [KeyError] of [mode()[0]] when there is no difference, which
    is also the only case where the air data have no minimum. *)
Definition generate_timestamps_for_water (air_timestamp : list Z)
           (water_data : DataFrame) : option (list Z) :=
  let start_time :=
    match air_timestamp with
    | [] => 0%Z
    | t :: ts => minimum t ts
    end in
  time_interval <- mode_first (diff air_timestamp) ;;
  Some (List.map (fun i => (start_time + Z.of_nat i * time_interval)%Z)
                 (seq 0 (len water_data))).

(** The two comprehensions of [validate_fusion_results] on the device
    identifiers: those that contain "air", and those that contain
    "water". *)
Definition air_dids (device_ids : list string) : list string :=
  List.filter (contains "air") device_ids.

Definition water_dids (device_ids : list string) : list string :=
  List.filter (contains "water") device_ids.

End Environmental.

(** ** create_wallet_device_mapping.py *)

Module Wallet.
Import MT19937.

(** [_get_actual_device_ids()]: the roster, per category. *)
Definition get_actual_device_ids : dict (list string) :=
  [
    ("agricultural",
      [ "did:lcore:agri-R1";
        "did:lcore:agri-R2";
        "did:lcore:agri-R3" ]);
    ("environmental",
      [ "did:lcore:env-101-air";
        "did:lcore:env-101-water";
        "did:lcore:env-102-air";
        "did:lcore:env-102-water";
        "did:lcore:env-103-air";
        "did:lcore:env-103-water";
        "did:lcore:env-104-air";
        "did:lcore:env-104-water";
        "did:lcore:env-105-air";
        "did:lcore:env-105-water" ]);
    ("health",
      [ "did:lcore:health-tracker-1";
        "did:lcore:health-tracker-2";
        "did:lcore:health-tracker-3";
        "did:lcore:health-tracker-4";
        "did:lcore:health-tracker-5";
        "did:lcore:health-tracker-6";
        "did:lcore:health-tracker-7";
        "did:lcore:health-tracker-8";
        "did:lcore:health-tracker-9";
        "did:lcore:health-tracker-10" ]);
    ("network",
      [ "did:lcore:cell-tower-tower-1";
        "did:lcore:cell-tower-tower-2";
        "did:lcore:cell-tower-tower-3";
        "did:lcore:cell-tower-tower-4";
        "did:lcore:cell-tower-tower-5";
        "did:lcore:cell-tower-tower-6";
        "did:lcore:cell-tower-tower-7";
        "did:lcore:cell-tower-tower-8";
        "did:lcore:cell-tower-tower-9" ]);
    ("retail",
      [ "did:lcore:retail-39th-street-district-store-1";
        "did:lcore:retail-39th-street-district-store-2";
        "did:lcore:retail-39th-street-district-store-3";
        "did:lcore:retail-brookside-store-1";
        "did:lcore:retail-brookside-store-2";
        "did:lcore:retail-brookside-store-3";
        "did:lcore:retail-country-club-plaza-store-1";
        "did:lcore:retail-country-club-plaza-store-2";
        "did:lcore:retail-country-club-plaza-store-3";
        "did:lcore:retail-crossroads-arts-district-store-1";
        "did:lcore:retail-crossroads-arts-district-store-2";
        "did:lcore:retail-crossroads-arts-district-store-3";
        "did:lcore:retail-crown-center-store-1";
        "did:lcore:retail-crown-center-store-2";
        "did:lcore:retail-crown-center-store-3";
        "did:lcore:retail-midtown-store-1";
        "did:lcore:retail-midtown-store-2";
        "did:lcore:retail-midtown-store-3";
        "did:lcore:retail-power-and-light-district-store-1";
        "did:lcore:retail-power-and-light-district-store-2";
        "did:lcore:retail-power-and-light-district-store-3";
        "did:lcore:retail-river-market-store-1";
        "did:lcore:retail-river-market-store-2";
        "did:lcore:retail-river-market-store-3";
        "did:lcore:retail-west-bottoms-store-1";
        "did:lcore:retail-west-bottoms-store-2";
        "did:lcore:retail-west-bottoms-store-3";
        "did:lcore:retail-westport-store-1";
        "did:lcore:retail-westport-store-2";
        "did:lcore:retail-westport-store-3" ]);
    ("weather",
      [ "did:lcore:weather-station-oakland-1";
        "did:lcore:weather-station-oakland-2";
        "did:lcore:weather-station-oakland-3";
        "did:lcore:weather-station-oakland-4";
        "did:lcore:weather-station-oakland-5" ]) ].

(** [f"wallet_{i + 1:03d}"] *)
Definition wallet_id (i : nat) : string :=
  "wallet_" ++ format_03d (Z.of_nat i + 1).

Record wallet : Type :=
  { id : string; address : string; private_key : string }.

(** [generate_wallets(count)].  The private key is drawn from [secrets]
    and the address derived from it; [account i] stands for the pair of
    wallet number [i]. *)
Definition generate_wallets (account : nat -> string * string) (count : nat)
  : list wallet :=
  List.map (fun i => {| id := wallet_id i;
                        address := fst (account i);
                        private_key := snd (account i) |})
           (seq 0 count).

(** The loop [for i, device_id in enumerate(all_devices)]. *)
Fixpoint assign_from (i : nat) (all_devices : list string)
         (assignments : dict (list string)) : dict (list string) :=
  match all_devices with
  | [] => assignments
  | device_id :: all_devices' =>
      assign_from (S i) all_devices'
                  (dict_set assignments (wallet_id i) [device_id])
  end.

(** [fuel] bounds the draws of each [randbelow] of the shuffle. *)
Definition distribute_devices_across_all_wallets (fuel : nat)
           (actual_device_ids : dict (list string)) (st : state)
  : option (dict (list string) * state) :=
  let all_devices := List.flat_map snd actual_device_ids in
  match Random.shuffle fuel all_devices st with
  | Some (all_devices, st') => Some (assign_from 0 all_devices [], st')
  | None => None
  end.

Record mapping_row : Type :=
  { row_wallet_id : string;
    wallet_address : string;
    row_private_key : string;
    device_id : string;
    device_category : string;
    devices_owned : nat }.

(** The first category whose list holds the device, or "unknown". *)
Fixpoint category_of (actual_device_ids : dict (list string))
         (device : string) : string :=
  match actual_device_ids with
  | [] => "unknown"
  | (cat, devices) :: rest =>
      if existsb (String.eqb device) devices then cat
      else category_of rest device
  end.

(** The rows of the mapping file for one wallet: one per device owned,
    or one with empty device fields. *)
Definition wallet_rows (actual_device_ids : dict (list string))
           (device_assignments : dict (list string)) (w : wallet)
  : list mapping_row :=
  let wallet_devices :=
    match dict_get device_assignments (id w) with
    | Some devices => devices
    | None => []
    end in
  match wallet_devices with
  | [] =>
      [ {| row_wallet_id := id w;
           wallet_address := address w;
           row_private_key := private_key w;
           device_id := "";
           device_category := "";
           devices_owned := 0 |} ]
  | _ =>
      List.map (fun device =>
                  {| row_wallet_id := id w;
                     wallet_address := address w;
                     row_private_key := private_key w;
                     device_id := device;
                     device_category := category_of actual_device_ids device;
                     devices_owned := List.length wallet_devices |})
               wallet_devices
  end.

(** The rows that [create_mapping_csv] writes to the mapping file. *)
Definition create_mapping_csv (fuel : nat) (account : nat -> string * string)
           (actual_device_ids : dict (list string)) (st : state)
  : option (list mapping_row * state) :=
  let wallets := generate_wallets account 100 in
  match distribute_devices_across_all_wallets fuel actual_device_ids st with
  | Some (device_assignments, st') =>
      Some (List.flat_map (wallet_rows actual_device_ids device_assignments)
                          wallets, st')
  | None => None
  end.

(** [random.seed(42)], then the mapping for the roster. *)
Definition main (fuel : nat) (account : nat -> string * string) (st : state)
  : option (list mapping_row * state) :=
  create_mapping_csv fuel account get_actual_device_ids (Random.seed 42 st).

End Wallet.

(** ** Vocabulary of the statements *)

(** A non-empty run of decimal digits. *)
Definition is_digits (s : string) : bool :=
  negb (String.eqb s "") && Str.all is_digit s.

(** The numerals [\d+(\.\d+)?]. *)
Inductive unsigned_numeral : string -> Prop :=
| numeral_int (i : string) :
    is_digits i = true -> unsigned_numeral i
| numeral_dec (i f : string) :
    is_digits i = true -> is_digits f = true ->
    unsigned_numeral (i ++ "." ++ f).

(** The numerals [-?\d+(\.\d+)?]. *)
Inductive signed_numeral : string -> Prop :=
| numeral_pos (n : string) : unsigned_numeral n -> signed_numeral n
| numeral_neg (n : string) : unsigned_numeral n -> signed_numeral ("-" ++ n).

Definition whitespace (w : string) : bool := Str.all is_space w.

Definition no_digit (s : string) : bool :=
  Str.all (fun c => negb (is_digit c)) s.

(** Text that can follow a numeral and its spacing without being read as
    part of either: it is empty, or its first character is no digit, no
    white space and no decimal point. *)
Definition unit_start (r : string) : bool :=
  negb (Str.head_is (fun c => is_digit c || is_space c || Ascii.eqb c ".") r).

(** First character a digit or a decimal point. *)
Definition numeric_head (t : string) : bool :=
  Str.head_is (fun c => is_digit c || Ascii.eqb c ".") t.

(** A unit literal of a pattern: not empty, and it starts as [unit_start]
    asks; "dBm", "ms", "Mbps", "Kbps" and "%" all do. *)
Definition unit_ok (u : string) : bool :=
  negb (String.eqb u "") && unit_start u.

(** An optional minus sign. *)
Definition sign_text (sign : bool) : string := if sign then "-" else "".

(** A unit token: some text without digits that starts as above. *)
Definition unit_token (u : string) : bool := no_digit u && unit_start u.

(** Every digit of the numeral is 0, as in 0, 00, 0.0 or -0. *)
Definition zero_numeral (g : string) : bool :=
  Str.all (fun c => negb (is_digit c) || Ascii.eqb c "0") g.

(** The store numbers that the retail generator draws on a table of [n]
    rows: [random.randint(1, 3)], once for each row. *)
Definition store_numbers (fuel n : nat) (st : MT19937.state)
  : option (list Z * MT19937.state) :=
  Retail.apply_st (fun _ : unit => Random.randint fuel 1 3)
                  (List.repeat tt n) st.

(** [-x] on floats. *)
Definition float_neg (x : pyfloat) : pyfloat :=
  match x with
  | NaN => NaN
  | Inf negative => Inf (negb negative)
  | Num q => Num (- q)
  end.

(** [x * y] on floats, for a finite [y] other than zero: the product
    that checks a parsed value against its numeral. *)
Definition float_mul (x : pyfloat) (y : Q) : pyfloat :=
  match x with
  | NaN => NaN
  | Inf negative => Inf (xorb negative (Qle_bool y 0))
  | Num q => round64 (q * y)
  end.

(** A float that is at least [c]: a number from [c] on, or plus
    infinity.  NaN is not. *)
Definition at_least (c : Q) (x : pyfloat) : Prop :=
  match x with
  | NaN => False
  | Inf negative => negative = false
  | Num q => (c <= q)%Q
  end.

(** A float that is below [c]: a number less than [c], or minus
    infinity.  NaN is not. *)
Definition below (c : Q) (x : pyfloat) : Prop :=
  match x with
  | NaN => False
  | Inf negative => negative = true
  | Num q => (q < c)%Q
  end.


(** ASCII capital letters. *)
Definition is_upper (c : ascii) : bool := ((65 <=? code c) && (code c <=? 90))%N.

(** The nine identifiers of the network dataset. *)
Definition cell_towers : list string :=
  [ "did:lcore:cell-tower-tower-1"; "did:lcore:cell-tower-tower-2";
    "did:lcore:cell-tower-tower-3"; "did:lcore:cell-tower-tower-4";
    "did:lcore:cell-tower-tower-5"; "did:lcore:cell-tower-tower-6";
    "did:lcore:cell-tower-tower-7"; "did:lcore:cell-tower-tower-8";
    "did:lcore:cell-tower-tower-9" ].

Definition low_signal_towers : list string :=
  [ "did:lcore:cell-tower-tower-7"; "did:lcore:cell-tower-tower-8";
    "did:lcore:cell-tower-tower-9" ].

(** The tolerance of the conformance check, the binary64 value that the
    literal 1e-9 denotes. *)
Definition tolerance : float := 0x1.12e0be826d695p-30%float.

(** The encoding of timestamps as the specification words it, for
    comparison with [timestamp_unix]: truncation toward zero to whole
    seconds. *)
Definition truncated_seconds (ns : Z) : Z := Z.quot ns (10 ^ 9).

(** What [region_clean] does to one character of a region name. *)
Definition clean_char (c : ascii) : string :=
  if Ascii.eqb c " " then "-"
  else if Ascii.eqb c "&" then "and"
  else String (lower_char c) "".

(** The normalisation of the key part as section 4.3 of the specification
    words it, for comparison with the generators: lowercase, white space
    to hyphens, and the characters outside a safe charset stripped.  The
    charset is taken as a-z, 0-9, hyphen and underscore. *)
Definition safe_char (c : ascii) : bool :=
  (((97 <=? code c) && (code c <=? 122)) || is_digit c
   || Ascii.eqb c "-" || Ascii.eqb c "_")%N.

Definition spec_normalize (key : string) : string :=
  Str.filter safe_char
    (Str.map (fun c => if is_space c then "-"%char else c) (lower key)).

(** A working table of the network script with two rows, and one of the
    weather script without the optional Celsius columns. *)
Definition sample_network_table : DataFrame :=
  {| columns := Network.required_columns ++ ["Note"];
     rows :=
       [ [ VStr "did:lcore:cell-tower-tower-4"; VInt 1693526400;
           VStr "Video_Call"; VFloat (-75); VFloat 30; VFloat 10;
           VFloat 15; VFloat 70; VStr "a" ];
         [ VStr "did:lcore:cell-tower-tower-8"; VInt 1693526460;
           VStr "Streaming"; VNaN; VFloat 20; VFloat 0.1;
           VFloat 0.2; VFloat 80; VNaN ] ] |}.

Definition sample_weather_table : DataFrame :=
  {| columns := Weather.required_columns;
     rows :=
       [ [ VStr "did:lcore:weather-station-oakland-1"; VInt 1640995200;
           VFloat 80; VFloat 0; VFloat 5; VFloat 270; VFloat 10;
           VStr "Clear" ] ] |}.

(** Files, each given by what [pd.read_csv] does on it in the three
    encodings.  A file of ASCII text is read in each of them. *)
Definition ascii_file (enc : encoding) : outcome DataFrame :=
  Ok {| columns := ["name"]; rows := [[VStr "cafe"]] |}.

(** A file in Latin-1 that is not UTF-8: the header "caf" and an e with
    acute accent (the byte 0xE9), then one row.  The UTF-8 read raises
    UnicodeDecodeError; the legacy encodings read the table. *)
Definition latin1_file (enc : encoding) : outcome DataFrame :=
  match enc with
  | utf_8 => Raise UnicodeDecodeError
  | latin_1 | cp1252 =>
      Ok {| columns := [String "c" (String "a" (String "f"
                          (String (ascii_of_N 233) "")))];
            rows := [[VInt 1]] |}
  end.

(** A file in Latin-1 whose header holds a byte that is not UTF-8 and
    one of whose rows has a field too many: the UTF-8 read raises
    UnicodeDecodeError on the header, the legacy encodings decode the
    file and raise ParserError on the row. *)
Definition unparsable_file (enc : encoding) : outcome DataFrame :=
  match enc with
  | utf_8 => Raise UnicodeDecodeError
  | latin_1 | cp1252 => Raise ParserError
  end.

(** No file at the path. *)
Definition missing_file (enc : encoding) : outcome DataFrame :=
  Raise FileNotFoundError.

Definition is_ok {T} (o : outcome T) : bool :=
  match o with Ok _ => true | Raise _ => false end.

(** What a frame keeps when columns are removed from it: its rows, and
    every column outside [labels]; no column of [labels] is left. *)
Definition removed (labels : list string) (df out : DataFrame) : Prop :=
  len out = len df
  /\ (forall name, has_column out name
                   = has_column df name
                     && negb (existsb (String.eqb name) labels))
  /\ (forall name, existsb (String.eqb name) labels = false ->
                   getitem out name = getitem df name).


(** The identifiers of the three signal bands of the network dataset. *)
Definition high_signal_towers : list string :=
  [ "did:lcore:cell-tower-tower-1"; "did:lcore:cell-tower-tower-2";
    "did:lcore:cell-tower-tower-3" ].

Definition medium_signal_towers : list string :=
  [ "did:lcore:cell-tower-tower-4"; "did:lcore:cell-tower-tower-5";
    "did:lcore:cell-tower-tower-6" ].

(** The five identifiers of the weather dataset. *)
Definition weather_stations : list string :=
  [ "did:lcore:weather-station-oakland-1";
    "did:lcore:weather-station-oakland-2";
    "did:lcore:weather-station-oakland-3";
    "did:lcore:weather-station-oakland-4";
    "did:lcore:weather-station-oakland-5" ].

(** The row of the mapping file for wallet number [i]: with the device it
    owns, or with empty device fields. *)
Definition mapping_row_of (account : nat -> string * string)
           (actual_device_ids : dict (list string)) (i : nat)
           (device : option string) : Wallet.mapping_row :=
  match device with
  | Some d =>
      {| Wallet.row_wallet_id := Wallet.wallet_id i;
         Wallet.wallet_address := fst (account i);
         Wallet.row_private_key := snd (account i);
         Wallet.device_id := d;
         Wallet.device_category := Wallet.category_of actual_device_ids d;
         Wallet.devices_owned := 1 |}
  | None =>
      {| Wallet.row_wallet_id := Wallet.wallet_id i;
         Wallet.wallet_address := fst (account i);
         Wallet.row_private_key := snd (account i);
         Wallet.device_id := "";
         Wallet.device_category := "";
         Wallet.devices_owned := 0 |}
  end.

Definition is_some {A} (o : option A) : bool :=
  match o with Some _ => true | None => false end.

(** Every row of the frame has one value per column. *)
Definition rectangular (df : DataFrame) : Prop :=
  Forall (fun r => List.length r = List.length (columns df)) (rows df).

(** The column that an entry of a dict, or the right-hand side of an
    assignment, gives on [n] rows. *)
Definition broadcast (n : nat) (e : entry) : Series :=
  List.map (fun i => entry_at i e) (seq 0 n).

(** The column [name] of the frame, or a column of [default]. *)
Definition column_or (df : DataFrame) (name : string) (default : value)
  : Series :=
  match getitem df name with
  | Some s => s
  | None => repeat default (len df)
  end.

(** A series with [n] values, or a scalar. *)
Definition fits (n : nat) (e : entry) : Prop :=
  entry_len e = Some n \/ entry_len e = None.

(** Each output column named holds the values of an input column, row by
    row. *)
Definition copies (out raw : DataFrame) (pairs : list (string * string))
  : Prop :=
  forall o i, In (o, i) pairs -> getitem out o = getitem raw i.

(** Each output column named holds one value on every row. *)
Definition constant (out : DataFrame) (n : nat) (cols : list (string * value))
  : Prop :=
  forall o v, In (o, v) cols -> getitem out o = Some (repeat v n).

(** Each output column named holds the values of an input column when the
    input has it, and the default on every row otherwise. *)
Definition copies_or (out raw : DataFrame)
           (triples : list (string * string * value)) : Prop :=
  forall o i d, In (o, i, d) triples ->
                getitem out o = Some (column_or raw i d).

(** A rectangular frame of [n] rows whose columns read as [f] says. *)
Definition reads (n : nat) (df : DataFrame) (f : string -> option Series)
  : Prop :=
  rectangular df /\ len df = n
  /\ forall name, getitem df name = f name.

(** The character of an identifier after "did:lcore:". *)
Definition dataset_letter (id : string) : option ascii := String.get 10 id.

(** * Properties *)

(** ** Strings *)

Module StrFacts.
Import Str.

Lemma append_nil_r (s : string) : s ++ "" = s.
Proof. induction s as [|c s IH]; simpl; [reflexivity | now rewrite IH]. Qed.

Lemma append_assoc (a b c : string) : (a ++ b) ++ c = a ++ (b ++ c).
Proof. induction a as [|x a IH]; simpl; [reflexivity | now rewrite IH]. Qed.

Lemma length_append (a b : string) :
  String.length (a ++ b) = (String.length a + String.length b)%nat.
Proof. induction a as [|x a IH]; simpl; [reflexivity | now rewrite IH]. Qed.

Lemma all_append p a b : all p (a ++ b) = all p a && all p b.
Proof.
  induction a as [|x a IH]; simpl; [reflexivity|].
  now rewrite IH, andb_assoc.
Qed.

Lemma take_length_append (a b : string) :
  take (String.length (a ++ b) - String.length b) (a ++ b) = a.
Proof.
  rewrite length_append.
  replace (String.length a + String.length b - String.length b)%nat
    with (String.length a) by lia.
  induction a as [|x a IH]; simpl.
  - destruct b; reflexivity.
  - now rewrite IH.
Qed.

Lemma prefix_append (u t : string) : String.prefix u (u ++ t) = true.
Proof.
  induction u as [|c u IH]; simpl.
  - destruct t; reflexivity.
  - destruct (ascii_dec c c); [exact IH | congruence].
Qed.

Lemma prefix_inv (u s : string) :
  String.prefix u s = true -> exists t, s = u ++ t.
Proof.
  revert s; induction u as [|c u IH]; intros s H.
  - exists s; reflexivity.
  - destruct s as [|c' s]; simpl in H; [discriminate|].
    destruct (ascii_dec c c'); [|discriminate].
    destruct (IH _ H) as [t ->]; subst; now exists t.
Qed.

Lemma head_is_append p a b :
  a <> "" -> head_is p (a ++ b) = head_is p a.
Proof. destruct a; [congruence | reflexivity]. Qed.

End StrFacts.

(** ** The matcher *)

Module RegexFacts.
Import Str StrFacts.

Lemma digit_not_space c : is_digit c = true -> is_space c = false.
Proof.
  destruct c as [[] [] [] [] [] [] [] []]; vm_compute; congruence.
Qed.

Lemma digit_not_dot c : is_digit c = true -> Ascii.eqb c "." = false.
Proof.
  destruct c as [[] [] [] [] [] [] [] []]; vm_compute; congruence.
Qed.

Lemma digit_not_minus c : is_digit c = true -> Ascii.eqb "-" c = false.
Proof.
  destruct c as [[] [] [] [] [] [] [] []]; vm_compute; congruence.
Qed.

Section Continuations.
Context {A : Type}.
Implicit Types (k : string -> option A) (s t r d : string).

(** Greedy repetition takes the whole run when what follows the run is
    refused everywhere inside it. *)
Lemma star_k_greedy p d r k :
  all p d = true -> head_is p r = false ->
  (forall t, head_is p t = true -> k t = None) ->
  star_k p (d ++ r) k = k r.
Proof.
  intros Hd Hr Hk. induction d as [|c d IH]; simpl in *.
  - destruct r as [|c r]; simpl in *; [reflexivity | now rewrite Hr].
  - apply andb_true_iff in Hd as [Hc Hd]. rewrite Hc, (IH Hd).
    destruct (k r) eqn:E; [reflexivity|].
    apply Hk; exact Hc.
Qed.

Lemma star_k_sound p s k a :
  star_k p s k = Some a ->
  exists d r, s = d ++ r /\ all p d = true /\ k r = Some a.
Proof.
  induction s as [|c s IH]; simpl; intros H.
  - exists "", ""; auto.
  - destruct (p c) eqn:Hc.
    + destruct (star_k p s k) eqn:E.
      * destruct (IH H) as (d & r & -> & Hd & Hk).
        exists (String c d), r; simpl; rewrite Hc; auto.
      * exists "", (String c s); auto.
    + exists "", (String c s); auto.
Qed.

Lemma rmatch_lit u t k : rmatch (lit u) (u ++ t) k = k t.
Proof.
  induction u as [|c u IH]; simpl; [reflexivity|].
  now rewrite Ascii.eqb_refl.
Qed.

Lemma rmatch_lit_sound u s k a :
  rmatch (lit u) s k = Some a -> exists t, s = u ++ t /\ k t = Some a.
Proof.
  revert s; induction u as [|c u IH]; simpl; intros s H.
  - now exists s.
  - destruct s as [|c' s]; [discriminate|].
    destruct (Ascii.eqb_spec c c') as [<-|]; [|discriminate].
    destruct (IH _ H) as (t & -> & Hk). now exists t.
Qed.

Lemma rmatch_lit_not_prefix u s k :
  String.prefix u s = false -> rmatch (lit u) s k = None.
Proof.
  intros P. destruct (rmatch (lit u) s k) eqn:E; [|reflexivity].
  destruct (rmatch_lit_sound _ _ _ _ E) as (t & -> & _).
  now rewrite prefix_append in P.
Qed.

(** [\d+] on a run of digits. *)
Lemma digits1_greedy d r k :
  is_digits d = true -> head_is is_digit r = false ->
  (forall t, head_is is_digit t = true -> k t = None) ->
  rmatch digits1 (d ++ r) k = k r.
Proof.
  unfold is_digits. intros Hd Hr Hk.
  destruct d as [|c d]; simpl in *; [discriminate|].
  apply andb_true_iff in Hd as [Hc Hd]. rewrite Hc.
  now apply star_k_greedy.
Qed.

Lemma digits1_sound s k a :
  rmatch digits1 s k = Some a ->
  exists d r, s = d ++ r /\ is_digits d = true /\ k r = Some a.
Proof.
  simpl. destruct s as [|c s]; [discriminate|].
  destruct (is_digit c) eqn:Hc; [|discriminate]. intros H.
  destruct (star_k_sound _ _ _ _ H) as (d & r & -> & Hd & Hk).
  exists (String c d), r. unfold is_digits; simpl. rewrite Hc, Hd. auto.
Qed.

Lemma digits1_head s k :
  head_is is_digit s = false -> rmatch digits1 s k = None.
Proof.
  destruct s as [|c s]; simpl; [reflexivity|]. now intros ->.
Qed.

End Continuations.
End RegexFacts.

(** ** The patterns of the unit parsers *)

Module UnitPatternFacts.
Import Str StrFacts RegexFacts.

Lemma numeric_head_digit t : head_is is_digit t = true -> numeric_head t = true.
Proof. destruct t; simpl; [congruence | now intros ->]. Qed.

Lemma not_numeric_head_digit t :
  numeric_head t = false -> head_is is_digit t = false.
Proof.
  destruct t as [|c t]; simpl; [reflexivity|].
  now intros H%orb_false_iff.
Qed.

Lemma not_numeric_head_dot {A} t (k : string -> option A) :
  numeric_head t = false -> rmatch (Cat (Chr ".") digits1) t k = None.
Proof.
  destruct t as [|c t]; [reflexivity|]. cbn -[digits1 Ascii.eqb].
  intros [_ H]%orb_false_iff. rewrite Ascii.eqb_sym in H. now rewrite H.
Qed.

Lemma unit_start_not_numeric r : unit_start r = true -> numeric_head r = false.
Proof.
  unfold unit_start. destruct r as [|c r]; simpl; [reflexivity|].
  intros H%negb_true_iff. apply orb_false_iff in H as [H Hd].
  apply orb_false_iff in H as [H _]. now rewrite H, Hd.
Qed.

Lemma unit_start_not_space r : unit_start r = true -> head_is is_space r = false.
Proof.
  unfold unit_start. destruct r as [|c r]; simpl; [reflexivity|].
  intros H%negb_true_iff. apply orb_false_iff in H as [H _].
  now apply orb_false_iff in H as [_ H].
Qed.

Lemma spaces_then_unit_start ws r :
  whitespace ws = true -> unit_start r = true -> numeric_head (ws ++ r) = false.
Proof.
  intros Hw Hr. destruct ws as [|c ws]; simpl.
  - now apply unit_start_not_numeric.
  - simpl in Hw. apply andb_true_iff in Hw as [Hc _].
    destruct (is_digit c) eqn:D.
    + apply digit_not_space in D. congruence.
    + destruct (Ascii.eqb_spec c "."); [subst; discriminate | reflexivity].
Qed.

Section Numerals.
Context {A : Type}.
Implicit Types (k : string -> option A).

(** [\d+(?:\.\d+)?] takes a whole numeral when the text after it does
    not continue the numeral and the continuation refuses to resume
    inside it. *)
Lemma unsigned_numeral_greedy n r k :
  unsigned_numeral n -> numeric_head r = false ->
  (forall t, numeric_head t = true -> k t = None) ->
  rmatch unsigned_numeral_re (n ++ r) k = k r.
Proof.
  intros Hn Hr Hk.
  set (k' := fun s1 => rmatch (Opt (Cat (Chr ".") digits1)) s1 k).
  assert (Hk' : forall t, head_is is_digit t = true -> k' t = None).
  { intros t Ht. unfold k'. cbn -[digits1 Ascii.eqb].
    destruct t as [|c t]; [discriminate|]. cbn -[digits1 Ascii.eqb] in *.
    rewrite Ascii.eqb_sym, (digit_not_dot _ Ht).
    apply Hk. simpl. now rewrite Ht. }
  change (rmatch unsigned_numeral_re (n ++ r) k)
    with (rmatch digits1 (n ++ r) k').
  destruct Hn as [i Hi | i f Hi Hf].
  - rewrite digits1_greedy;
      [| assumption | now apply not_numeric_head_digit | assumption].
    unfold k'. change (rmatch (Opt ?x) r k)
      with (match rmatch x r k with Some a => Some a | None => k r end).
    now rewrite not_numeric_head_dot.
  - rewrite append_assoc.
    rewrite digits1_greedy; [| assumption | reflexivity | assumption].
    unfold k'. cbn -[digits1 Ascii.eqb].
    rewrite digits1_greedy;
      [| assumption | now apply not_numeric_head_digit
       | intros t Ht; apply Hk; now apply numeric_head_digit].
    destruct (k r); [reflexivity|]. now apply Hk.
Qed.

Lemma unsigned_numeral_sound s k a :
  rmatch unsigned_numeral_re s k = Some a ->
  exists n r, s = n ++ r /\ unsigned_numeral n /\ k r = Some a.
Proof.
  change (rmatch unsigned_numeral_re s k)
    with (rmatch digits1 s
            (fun s1 => rmatch (Opt (Cat (Chr ".") digits1)) s1 k)).
  intros H. apply digits1_sound in H as (d & r & -> & Hd & H).
  change (rmatch (Opt ?x) r k)
    with (match rmatch x r k with Some a => Some a | None => k r end) in H.
  destruct (rmatch (Cat (Chr ".") digits1) r k) eqn:E.
  - injection H as ->. cbn -[digits1 Ascii.eqb] in E.
    destruct r as [|c r]; [discriminate|].
    destruct (Ascii.eqb_spec "." c) as [<-|]; [|discriminate].
    apply digits1_sound in E as (f & r' & -> & Hf & E).
    exists (d ++ "." ++ f), r'. split; [|split].
    + now rewrite append_assoc.
    + now constructor.
    + exact E.
  - exists d, r. split; [reflexivity|]. split; [now constructor | exact H].
Qed.

Lemma unsigned_numeral_head s k :
  head_is is_digit s = false -> rmatch unsigned_numeral_re s k = None.
Proof. intros H. now apply digits1_head. Qed.

Lemma numeral_head_digit n r :
  unsigned_numeral n -> head_is is_digit (n ++ r) = true.
Proof.
  intros [i Hi | i f Hi Hf]; unfold is_digits in Hi;
    (destruct i as [|c i]; [discriminate|]);
    simpl in Hi; apply andb_true_iff in Hi as [Hc _]; exact Hc.
Qed.

Lemma signed_numeral_greedy (sign : bool) n r k :
  unsigned_numeral n -> numeric_head r = false ->
  (forall t, numeric_head t = true -> k t = None) ->
  rmatch signed_numeral_re ((if sign then "-" else "") ++ n ++ r) k = k r.
Proof.
  intros Hn Hr Hk.
  change (rmatch signed_numeral_re ?s k)
    with (match rmatch (Chr "-") s
                  (fun s1 => rmatch unsigned_numeral_re s1 k) with
          | Some a => Some a
          | None => rmatch unsigned_numeral_re s k
          end).
  destruct sign.
  - cbn -[unsigned_numeral_re Ascii.eqb].
    rewrite unsigned_numeral_greedy by assumption.
    destruct (k r); [reflexivity|].
    now apply unsigned_numeral_head.
  - pose proof (numeral_head_digit n r Hn) as Hd.
    cbn -[unsigned_numeral_re Ascii.eqb].
    destruct (n ++ r) as [|c t] eqn:E; [discriminate|].
    simpl in Hd. rewrite (digit_not_minus _ Hd).
    rewrite <- E. now apply unsigned_numeral_greedy.
Qed.

Lemma signed_numeral_sound s k a :
  rmatch signed_numeral_re s k = Some a ->
  exists n r, s = n ++ r /\ signed_numeral n /\ k r = Some a.
Proof.
  change (rmatch signed_numeral_re s k)
    with (match rmatch (Chr "-") s
                  (fun s1 => rmatch unsigned_numeral_re s1 k) with
          | Some a => Some a
          | None => rmatch unsigned_numeral_re s k
          end).
  destruct (rmatch (Chr "-") s _) eqn:E; intros H.
  - injection H as ->. cbn -[unsigned_numeral_re Ascii.eqb] in E.
    destruct s as [|c s]; [discriminate|].
    destruct (Ascii.eqb_spec "-" c) as [<-|]; [|discriminate].
    apply unsigned_numeral_sound in E as (n & r & -> & Hn & E).
    exists ("-" ++ n), r. split; [reflexivity|].
    split; [now constructor | exact E].
  - apply unsigned_numeral_sound in H as (n & r & -> & Hn & H).
    exists n, r. split; [reflexivity|]. split; [now constructor | exact H].
Qed.

Lemma signed_numeral_head s k :
  head_is (fun c => is_digit c || Ascii.eqb c "-") s = false ->
  rmatch signed_numeral_re s k = None.
Proof.
  intros H.
  change (rmatch signed_numeral_re s k)
    with (match rmatch (Chr "-") s
                  (fun s1 => rmatch unsigned_numeral_re s1 k) with
          | Some a => Some a
          | None => rmatch unsigned_numeral_re s k
          end).
  destruct s as [|c s]; [reflexivity|]. simpl in H.
  apply orb_false_iff in H as [Hd Hm].
  cbn -[unsigned_numeral_re Ascii.eqb]. rewrite Ascii.eqb_sym, Hm.
  apply unsigned_numeral_head. exact Hd.
Qed.

(** What follows the group: [\s*] and the unit literal. *)
Lemma rest_refuses_numeric u t k :
  unit_ok u = true -> numeric_head t = true ->
  rmatch (Cat (Star is_space) (lit u)) t k = None.
Proof.
  unfold unit_ok, unit_start. intros Hu Ht.
  destruct u as [|u0 u]; [discriminate|]. simpl in Hu.
  destruct t as [|c t]; [discriminate|]. simpl in Ht.
  apply negb_true_iff, orb_false_iff in Hu as [Hu Hdot].
  apply orb_false_iff in Hu as [Hdig Hsp].
  assert (Hc : is_space c = false).
  { apply orb_true_iff in Ht as [Ht|Ht]; [now apply digit_not_space|].
    apply Ascii.eqb_eq in Ht. now subst. }
  assert (Hne : Ascii.eqb u0 c = false).
  { destruct (Ascii.eqb_spec u0 c) as [->|]; [|reflexivity].
    rewrite Hdig, Hdot in Ht. discriminate. }
  cbn -[Ascii.eqb]. now rewrite Hc, Hne.
Qed.

Lemma rest_skips_spaces u ws r k :
  unit_ok u = true -> whitespace ws = true -> unit_start r = true ->
  rmatch (Cat (Star is_space) (lit u)) (ws ++ r) k = rmatch (lit u) r k.
Proof.
  intros Hu Hw Hr.
  change (rmatch (Cat (Star is_space) (lit u)) (ws ++ r) k)
    with (star_k is_space (ws ++ r) (fun s1 => rmatch (lit u) s1 k)).
  apply (star_k_greedy is_space ws r (fun s1 => rmatch (lit u) s1 k));
    [exact Hw | now apply unit_start_not_space |].
  intros t Ht. unfold unit_ok, unit_start in Hu.
  destruct u as [|u0 u]; [discriminate|]. simpl in Hu.
  destruct t as [|c t]; [discriminate|]. simpl in Ht.
  apply negb_true_iff, orb_false_iff in Hu as [Hu _].
  apply orb_false_iff in Hu as [_ Hsp].
  cbn -[Ascii.eqb]. destruct (Ascii.eqb_spec u0 c) as [->|]; [congruence | reflexivity].
Qed.

End Numerals.
End UnitPatternFacts.

(** ** [re.search] on the unit patterns *)

Module SearchFacts.
Import Str StrFacts RegexFacts UnitPatternFacts.

Lemma re_search_unfold pat s :
  re_search pat s =
  match match_at pat s with
  | Some g => Some g
  | None =>
      match s with
      | String _ s' => re_search pat s'
      | EmptyString => None
      end
  end.
Proof. destruct s; reflexivity. Qed.

(** A numeral, spacing and then text that starts like a unit: the match
    at the numeral succeeds exactly when that text starts with the unit
    of the pattern, and captures the numeral. *)
Lemma match_at_numeral sg u (sign : bool) n ws r :
  unit_ok u = true -> (sign = true -> sg = true) ->
  unsigned_numeral n -> whitespace ws = true -> unit_start r = true ->
  match_at (unit_pattern sg u) (sign_text sign ++ n ++ ws ++ r)
  = if String.prefix u r then Some (sign_text sign ++ n) else None.
Proof.
  intros Hu Hsg Hn Hw Hr. unfold match_at.
  set (s := sign_text sign ++ n ++ ws ++ r).
  set (k := fun s1 : string =>
              rmatch (rest (unit_pattern sg u)) s1
                (fun _ => Some (take (String.length s - String.length s1) s))).
  assert (Hk : forall t, numeric_head t = true -> k t = None).
  { intros t Ht. unfold k. now apply rest_refuses_numeric. }
  assert (Hg : rmatch (group1 (unit_pattern sg u)) s k = k (ws ++ r)).
  { pose proof (spaces_then_unit_start ws r Hw Hr) as Hh. subst s.
    destruct sg; simpl group1.
    - now apply (signed_numeral_greedy sign n (ws ++ r) k).
    - destruct sign; [now discriminate Hsg|].
      now apply (unsigned_numeral_greedy n (ws ++ r) k). }
  rewrite Hg. unfold k. simpl rest.
  rewrite rest_skips_spaces by assumption.
  destruct (String.prefix u r) eqn:P.
  - destruct (prefix_inv _ _ P) as [t ->]. rewrite rmatch_lit. f_equal.
    subst s.
    replace (sign_text sign ++ n ++ ws ++ u ++ t)
      with ((sign_text sign ++ n) ++ (ws ++ u ++ t))
      by now rewrite append_assoc.
    apply take_length_append.
  - now apply rmatch_lit_not_prefix.
Qed.

Lemma match_at_head sg u s :
  head_is (fun c => is_digit c || (sg && Ascii.eqb c "-")) s = false ->
  match_at (unit_pattern sg u) s = None.
Proof.
  intros H. unfold match_at. destruct sg; simpl group1.
  - apply signed_numeral_head. destruct s; [reflexivity | exact H].
  - apply unsigned_numeral_head. destruct s as [|c s]; [reflexivity|].
    simpl in *. now apply orb_false_iff in H as [H _].
Qed.

Lemma match_at_sound sg u s g :
  match_at (unit_pattern sg u) s = Some g ->
  signed_numeral g /\ (sg = false -> unsigned_numeral g) /\
  exists w t, s = g ++ w ++ u ++ t /\ whitespace w = true.
Proof.
  unfold match_at. intros H.
  assert (exists n r, s = n ++ r /\ signed_numeral n /\
                      (sg = false -> unsigned_numeral n) /\
                      rmatch (rest (unit_pattern sg u)) r
                        (fun _ => Some (take (String.length s - String.length r) s))
                      = Some g) as (n & r & -> & Hn & Hu & Hk).
  { destruct sg; simpl group1 in H.
    - apply signed_numeral_sound in H as (n & r & -> & Hn & H).
      exists n, r. repeat split; auto. discriminate.
    - apply unsigned_numeral_sound in H as (n & r & -> & Hn & H).
      exists n, r. repeat split; auto. now constructor. }
  simpl rest in Hk.
  change (rmatch (Cat (Star is_space) (lit u)) r ?k)
    with (star_k is_space r (fun s1 => rmatch (lit u) s1 k)) in Hk.
  apply star_k_sound in Hk as (w & r' & -> & Hw & Hk).
  apply rmatch_lit_sound in Hk as (t & -> & Hk).
  injection Hk as <-. rewrite take_length_append.
  repeat split; auto. now exists w, t.
Qed.

Lemma re_search_sound sg u s g :
  re_search (unit_pattern sg u) s = Some g ->
  signed_numeral g /\ (sg = false -> unsigned_numeral g) /\
  exists pre w t, s = pre ++ g ++ w ++ u ++ t /\ whitespace w = true.
Proof.
  induction s as [|c s IH]; rewrite re_search_unfold;
    destruct (match_at _ _) eqn:E.
  - intros [= <-]. apply match_at_sound in E as (? & ? & w & t & ? & ?).
    repeat split; auto. now exists "", w, t.
  - discriminate.
  - intros [= <-]. apply match_at_sound in E as (? & ? & w & t & ? & ?).
    repeat split; auto. now exists "", w, t.
  - intros H. apply IH in H as (? & ? & pre & w & t & -> & ?).
    repeat split; auto. now exists (String c pre), w, t.
Qed.

Lemma space_not_digit_minus sg c :
  is_space c = true -> is_digit c || (sg && Ascii.eqb c "-") = false.
Proof.
  destruct sg, c as [[] [] [] [] [] [] [] []]; vm_compute; congruence.
Qed.

Lemma re_search_skip_spaces sg u ws r :
  whitespace ws = true ->
  re_search (unit_pattern sg u) (ws ++ r) = re_search (unit_pattern sg u) r.
Proof.
  induction ws as [|c ws IH]; simpl append; [reflexivity|].
  intros [Hc Hw]%andb_true_iff. rewrite re_search_unfold.
  rewrite match_at_head; [now apply IH|].
  simpl. now apply space_not_digit_minus.
Qed.

Section Skipping.
Variables (sg : bool) (u ws r : string).
Hypothesis Hu : unit_ok u = true.
Hypothesis Hw : whitespace ws = true.
Hypothesis Hr : unit_start r = true.
Hypothesis Hp : String.prefix u r = false.

Let pat := unit_pattern sg u.

Lemma re_search_skip_digits d :
  all is_digit d = true ->
  re_search pat (d ++ ws ++ r) = re_search pat r.
Proof.
  induction d as [|c d IH]; intros Hd.
  - exact (re_search_skip_spaces sg u ws r Hw).
  - rewrite re_search_unfold.
    pose proof (match_at_numeral sg u false (String c d) ws r Hu) as M.
    simpl sign_text in M. unfold pat. simpl append in M |- *.
    rewrite M; auto; try discriminate.
    + rewrite Hp. apply IH. simpl in Hd.
      now apply andb_true_iff in Hd as [_ Hd].
    + constructor. unfold is_digits. exact Hd.
Qed.

Lemma re_search_skip_decimal d f :
  all is_digit d = true -> is_digits f = true ->
  re_search pat (d ++ "." ++ f ++ ws ++ r) = re_search pat r.
Proof.
  intros Hd Hf. induction d as [|c d IH].
  - simpl append. rewrite re_search_unfold.
    unfold pat. rewrite match_at_head.
    + apply re_search_skip_digits. unfold is_digits in Hf.
      now apply andb_true_iff in Hf as [_ Hf].
    + simpl. now destruct sg.
  - rewrite re_search_unfold.
    pose proof (match_at_numeral sg u false (String c d ++ "." ++ f)
                  ws r Hu) as M.
    simpl sign_text in M. rewrite append_assoc in M.
    unfold pat. simpl append in M |- *.
    rewrite M; auto; try discriminate.
    + rewrite Hp. apply IH. simpl in Hd.
      now apply andb_true_iff in Hd as [_ Hd].
    + apply (numeral_dec (String c d) f); [exact Hd | exact Hf].
Qed.

Lemma re_search_skip_numeral n :
  unsigned_numeral n ->
  re_search pat (n ++ ws ++ r) = re_search pat r.
Proof.
  intros [i Hi | i f Hi Hf].
  - apply re_search_skip_digits. unfold is_digits in Hi.
    now apply andb_true_iff in Hi as [_ Hi].
  - rewrite append_assoc. apply re_search_skip_decimal; [|exact Hf].
    unfold is_digits in Hi. now apply andb_true_iff in Hi as [_ Hi].
Qed.
End Skipping.

(** The search on sign, numeral, spacing and then text that starts like
    a unit.  An unsigned pattern steps over the sign. *)
Lemma re_search_numeral sg u (sign : bool) n ws r :
  unit_ok u = true ->
  unsigned_numeral n -> whitespace ws = true -> unit_start r = true ->
  re_search (unit_pattern sg u) (sign_text sign ++ n ++ ws ++ r)
  = if String.prefix u r then Some (sign_text (sign && sg) ++ n)
    else re_search (unit_pattern sg u) r.
Proof.
  intros Hu Hn Hw Hr.
  assert (H0 : re_search (unit_pattern sg u) (n ++ ws ++ r)
               = if String.prefix u r then Some n
                 else re_search (unit_pattern sg u) r).
  { rewrite re_search_unfold.
    pose proof (match_at_numeral sg u false n ws r Hu) as M.
    simpl sign_text in M. simpl append in M.
    rewrite M; auto; try discriminate.
    destruct (String.prefix u r) eqn:P; [reflexivity|].
    pose proof (re_search_skip_numeral sg u ws r Hu Hw Hr P n Hn) as S.
    rewrite re_search_unfold, M in S by (auto; discriminate).
    exact S. }
  destruct sign; [|exact H0]. destruct sg.
  - rewrite re_search_unfold.
    rewrite (match_at_numeral true u true n ws r) by auto.
    destruct (String.prefix u r) eqn:P; [reflexivity | exact H0].
  - rewrite re_search_unfold. rewrite match_at_head by reflexivity.
    exact H0.
Qed.

Lemma numeral_has_digit g : signed_numeral g -> no_digit g = false.
Proof.
  assert (U : forall n r, unsigned_numeral n -> no_digit (n ++ r) = false).
  { intros n r Hn. pose proof (numeral_head_digit n r Hn) as H.
    destruct (n ++ r) as [|c t]; [discriminate|].
    unfold no_digit; simpl in *. now rewrite H. }
  intros [n Hn | n Hn].
  - rewrite <- (append_nil_r n). now apply U.
  - unfold no_digit. simpl. rewrite <- (append_nil_r n). now apply U.
Qed.

Lemma re_search_no_digit sg u s :
  no_digit s = true -> re_search (unit_pattern sg u) s = None.
Proof.
  intros H. destruct (re_search _ s) as [g|] eqn:E; [|reflexivity].
  apply re_search_sound in E as (Hg & _ & pre & w & t & -> & _).
  unfold no_digit in H. rewrite !all_append in H.
  apply andb_true_iff in H as [_ H]. apply andb_true_iff in H as [H _].
  apply numeral_has_digit in Hg. unfold no_digit in Hg. congruence.
Qed.

End SearchFacts.

(** ** Binary64 rounding *)

Module Binary64Facts.
Local Open Scope Q_scope.

Lemma some_eq {A} (a b : A) : Some a = Some b -> a = b.
Proof. congruence. Qed.

Lemma num_eq a b : Num a = Num b -> a = b.
Proof. congruence. Qed.

Lemma two_pos : 0 < 2.
Proof. reflexivity. Qed.

Lemma pow2_pos e : 0 < 2 ^ e.
Proof. apply Qpower_0_lt, two_pos. Qed.

Lemma pow2_nonzero e : ~ 2 ^ e == 0.
Proof. intros H. pose proof (pow2_pos e) as P. rewrite H in P. discriminate. Qed.

Lemma pow2_le a b : (a <= b)%Z -> 2 ^ a <= 2 ^ b.
Proof. intros H. apply Qpower_le_compat_l; [exact H | discriminate]. Qed.

Lemma pow2_lt a b : (a < b)%Z -> 2 ^ a < 2 ^ b.
Proof. intros H. apply Qpower_lt_compat_l; [exact H | reflexivity]. Qed.


Lemma pow2_lt_inv a b : 2 ^ a < 2 ^ b -> (a < b)%Z.
Proof. intros H. apply (Qpower_lt_compat_l_inv 2); [exact H | reflexivity]. Qed.

Lemma pow2_add a b : 2 ^ (a + b) == 2 ^ a * 2 ^ b.
Proof. apply Qpower_plus. discriminate. Qed.

Lemma pow2_Z n : (0 <= n)%Z -> 2 ^ n == inject_Z (2 ^ n).
Proof. intros H. now rewrite (Zpower_Qpower 2 n H). Qed.

(** [ilog2] is the floor of the binary logarithm. *)
Lemma ilog2_spec x : 0 < x -> 2 ^ ilog2 x <= x /\ x < 2 ^ (ilog2 x + 1).
Proof.
  destruct x as [p d]. intros Hx.
  assert (Hp : (0 < p)%Z).
  { unfold Qlt in Hx. cbn in Hx. lia. }
  unfold ilog2. cbn [Qnum Qden].
  set (a := Z.log2 p). set (b := Z.log2 (Z.pos d)).
  assert (Ha : (0 <= a)%Z) by apply Z.log2_nonneg.
  assert (Hb : (0 <= b)%Z) by apply Z.log2_nonneg.
  destruct (Z.log2_spec p Hp) as [A1 A2]. fold a in A1, A2.
  destruct (Z.log2_spec (Z.pos d) (Pos2Z.is_pos d)) as [B1 B2]. fold b in B1, B2.
  clearbody a b.
  assert (PA : (0 < 2 ^ a)%Z) by (apply Z.pow_pos_nonneg; lia).
  assert (PB : (0 < 2 ^ b)%Z) by (apply Z.pow_pos_nonneg; lia).
  rewrite Z.pow_succ_r in A2, B2 by lia.
  assert (E : forall k, 2 ^ (a - b + k) == inject_Z (2 ^ a) * 2 ^ k / inject_Z (2 ^ b)).
  { intros k. replace (a - b + k)%Z with (a + (k + - b))%Z by lia.
    rewrite !pow2_add, Qpower_opp, (pow2_Z a Ha), (pow2_Z b Hb).
    field. intros H. unfold Qeq in H. cbn in H. lia. }
  assert (IB : 0 < inject_Z (2 ^ b)).
  { unfold Qlt. cbn. lia. }
  assert (U : p # d < 2 ^ (a - b + 1)).
  { rewrite E. apply Qlt_shift_div_l; [exact IB|].
    change (2 ^ 1) with 2. unfold Qlt. cbn. nia. }
  assert (L : 2 ^ (a - b - 1) <= p # d).
  { replace (a - b - 1)%Z with (a - b + -1)%Z by lia. rewrite E.
    apply Qle_shift_div_r; [exact IB|].
    change (2 ^ (-1)) with (1 # 2). unfold Qle. cbn. nia. }
  destruct (Qle_bool (2 ^ (a - b)) (p # d)) eqn:T.
  - split; [now apply Qle_bool_iff | exact U].
  - split; [exact L|].
    replace (a - b - 1 + 1)%Z with (a - b)%Z by lia.
    apply Qnot_le_lt. intros H. apply Qle_bool_iff in H. congruence.
Qed.

Lemma ilog2_unique x k : 2 ^ k <= x -> x < 2 ^ (k + 1) -> ilog2 x = k.
Proof.
  intros L U.
  assert (Hx : 0 < x) by (eapply Qlt_le_trans; [apply (pow2_pos k) | exact L]).
  destruct (ilog2_spec x Hx) as [L' U'].
  assert (ilog2 x < k + 1)%Z
    by (apply pow2_lt_inv; eapply Qle_lt_trans; eassumption).
  assert (k < ilog2 x + 1)%Z
    by (apply pow2_lt_inv; eapply Qle_lt_trans; eassumption).
  lia.
Qed.


Lemma round_half_even_comp x y : x == y -> round_half_even x = round_half_even y.
Proof.
  intros E. unfold round_half_even.
  rewrite (Qfloor_comp x y E).
  assert (C : Qcompare (x - inject_Z (Qfloor y)) (1 # 2)
              = Qcompare (y - inject_Z (Qfloor y)) (1 # 2)).
  { apply Qcompare_comp; [|reflexivity]. now rewrite E. }
  now rewrite C.
Qed.

Lemma round_half_even_Z z : round_half_even (inject_Z z) = z.
Proof.
  unfold round_half_even. rewrite Qfloor_Z.
  assert (C : Qcompare (inject_Z z - inject_Z z) (1 # 2) = Lt).
  { apply Qlt_alt. setoid_replace (inject_Z z - inject_Z z) with 0 by ring.
    reflexivity. }
  now rewrite C.
Qed.

Lemma round_half_even_nonneg x : 0 <= x -> (0 <= round_half_even x)%Z.
Proof.
  intros H. unfold round_half_even.
  assert (F : (0 <= Qfloor x)%Z).
  { change 0%Z with (Qfloor 0). now apply Qfloor_resp_le. }
  destruct (Qcompare _ _); [destruct (Z.even _)| |]; lia.
Qed.



Lemma round64_pos_unfold x :
  round64_pos x
  = let r := inject_Z (round_half_even (x / 2 ^ last_place x)) * 2 ^ last_place x in
    if Qle_bool (2 ^ 1024) r then None else Some (Qred r).
Proof. reflexivity. Qed.

Lemma round64_pos_nonneg x r : 0 <= x -> round64_pos x = Some r -> 0 <= r.
Proof.
  intros H. rewrite round64_pos_unfold. cbv zeta.
  destruct (Qle_bool _ _); [discriminate|]. intros <-%some_eq.
  rewrite Qred_correct. apply Qmult_le_0_compat.
  - change 0 with (inject_Z 0). rewrite <- Zle_Qle.
    apply round_half_even_nonneg. apply Qle_shift_div_l; [apply pow2_pos|].
    now rewrite Qmult_0_l.
  - apply Qlt_le_weak, pow2_pos.
Qed.



Lemma Qred_inject_Z a : Qred (inject_Z a) = inject_Z a.
Proof.
  unfold Qred, inject_Z.
  pose proof (Z.ggcd_gcd a 1) as G.
  pose proof (Z.ggcd_correct_divisors a 1) as D.
  destruct (Z.ggcd a 1) as [g [aa bb]]. cbn [fst snd] in *.
  rewrite Z.gcd_1_r in G. subst g. destruct D as [-> D].
  assert (bb = 1%Z) as -> by lia.
  now rewrite Z.mul_1_l.
Qed.

(** Whole numbers up to 2^53 are binary64 numbers. *)
Lemma round64_pos_exact a :
  (0 < a <= 2 ^ 53)%Z -> round64_pos (inject_Z a) = Some (inject_Z a).
Proof.
  intros [H0 H1].
  assert (IL : ilog2 (inject_Z a) = Z.log2 a).
  { destruct (Z.log2_spec a H0) as [A1 A2].
    apply ilog2_unique.
    - rewrite pow2_Z by apply Z.log2_nonneg. now rewrite <- Zle_Qle.
    - rewrite pow2_Z by (pose proof (Z.log2_nonneg a); lia).
      rewrite <- Zlt_Qlt. exact A2. }
  assert (LB : (0 <= Z.log2 a <= 53)%Z).
  { split; [apply Z.log2_nonneg|].
    change 53%Z with (Z.log2 (2 ^ 53)). now apply Z.log2_le_mono. }
  rewrite round64_pos_unfold. unfold last_place. rewrite IL.
  rewrite Z.max_l by lia. cbv zeta.
  set (e := (Z.log2 a - 52)%Z).
  assert (exists z, inject_Z a / 2 ^ e == inject_Z z) as [z Hz].
  { destruct (Z.eq_dec (Z.log2 a) 53) as [E53|N53].
    - assert (a = 2 ^ 53)%Z as ->.
      { destruct (Z.log2_spec a H0) as [A1 _]. rewrite E53 in A1. lia. }
      exists (2 ^ 52)%Z. unfold e. reflexivity.
    - exists (a * 2 ^ (- e))%Z.
      rewrite inject_Z_mult, <- (pow2_Z (- e)) by (unfold e; lia).
      rewrite Qpower_opp. reflexivity. }
  rewrite (round_half_even_comp _ _ Hz), round_half_even_Z.
  assert (V : inject_Z z * 2 ^ e == inject_Z a).
  { rewrite <- Hz. field. apply pow2_nonzero. }
  assert (B : Qle_bool (2 ^ 1024) (inject_Z z * 2 ^ e) = false).
  { destruct (Qle_bool _ _) eqn:T; [|reflexivity].
    apply Qle_bool_iff in T. rewrite V in T.
    assert (inject_Z a <= inject_Z (2 ^ 53)) by now rewrite <- Zle_Qle.
    exfalso. apply (Qlt_irrefl (2 ^ 1024)).
    eapply Qle_lt_trans; [exact T|]. eapply Qle_lt_trans; [exact H|].
    reflexivity. }
  rewrite B. f_equal. rewrite (Qred_complete _ _ V).
  apply Qred_inject_Z.
Qed.


Lemma round64_exact a :
  (Z.abs a <= 2 ^ 53)%Z -> round64 (inject_Z a) = Num (inject_Z a).
Proof.
  intros H. unfold round64.
  destruct (Qcompare_spec (inject_Z a) 0) as [C|C|C].
  - f_equal. unfold Qeq in C. cbn in C. assert (a = 0%Z) as -> by lia.
    reflexivity.
  - assert (A : (0 < - a <= 2 ^ 53)%Z).
    { unfold Qlt in C. cbn in C. lia. }
    change (- inject_Z a) with (inject_Z (- a)).
    rewrite (round64_pos_exact _ A). f_equal.
    change (- inject_Z (- a)) with (inject_Z (- - a)). now rewrite Z.opp_involutive.
  - assert (A : (0 < a <= 2 ^ 53)%Z).
    { unfold Qlt in C. cbn in C. lia. }
    now rewrite (round64_pos_exact _ A).
Qed.

(** Conversion keeps the sign. *)
Lemma round64_nonneg x : 0 <= x -> round64 x <> Inf true /\
  forall q, round64 x = Num q -> 0 <= q.
Proof.
  intros H. unfold round64.
  destruct (Qcompare_spec x 0) as [C|C|C].
  - split; [discriminate|]. intros q <-%num_eq. apply Qle_refl.
  - exfalso. apply (Qlt_irrefl x). eapply Qlt_le_trans; eassumption.
  - destruct (round64_pos x) as [r|] eqn:R; split; try discriminate.
    intros q <-%num_eq. eapply round64_pos_nonneg; eassumption.
Qed.



Lemma round64_not_nan x : round64 x <> NaN.
Proof.
  unfold round64.
  destruct (Qcompare x 0); [discriminate| |]; destruct (round64_pos _);
    discriminate.
Qed.

Lemma round64_at_least x : 0 <= x -> at_least 0 (round64 x).
Proof.
  intros P. destruct (round64_nonneg x P) as [N Q0].
  destruct (round64 x) as [|[|]|q] eqn:R; cbn [at_least].
  - exact (round64_not_nan x R).
  - now elim N.
  - reflexivity.
  - now apply Q0.
Qed.

Lemma Qopp_opp x : - - x = x.
Proof. destruct x as [n d]. unfold Qopp. cbn. now rewrite Z.opp_involutive. Qed.

(** Conversion is symmetric. *)
Lemma round64_opp x : round64 (- x) = float_neg (round64 x).
Proof.
  unfold round64.
  destruct (Qcompare_spec x 0) as [C|C|C].
  - assert (E : Qcompare (- x) 0 = Eq) by (apply Qeq_alt; rewrite C; reflexivity).
    now rewrite E.
  - assert (E : Qcompare (- x) 0 = Gt).
    { apply Qgt_alt. apply Qlt_minus_iff in C. now rewrite Qplus_0_l in C. }
    rewrite E. destruct (round64_pos (- x)); cbn [float_neg];
      [now rewrite Qopp_opp | reflexivity].
  - assert (E : Qcompare (- x) 0 = Lt).
    { apply Qlt_alt. apply Qlt_minus_iff. rewrite Qopp_opp, Qplus_0_l. exact C. }
    rewrite E, Qopp_opp. now destruct (round64_pos x).
Qed.

Lemma ilog2_comp x y : 0 < x -> x == y -> ilog2 x = ilog2 y.
Proof.
  intros H E. symmetry.
  destruct (ilog2_spec x H) as [L U].
  apply ilog2_unique; now rewrite <- E.
Qed.

Lemma round64_pos_comp x y : 0 < x -> x == y -> round64_pos x = round64_pos y.
Proof.
  intros H E. rewrite !round64_pos_unfold. unfold last_place.
  rewrite <- (ilog2_comp x y H E). cbv zeta.
  set (e := Z.max (ilog2 x - 52) (-1074)).
  assert (R : round_half_even (x / 2 ^ e) = round_half_even (y / 2 ^ e)).
  { apply round_half_even_comp. now rewrite E. }
  now rewrite R.
Qed.

(** Conversion depends on the value only, not on the fraction that
    writes it. *)
Lemma round64_comp x y : x == y -> round64 x = round64 y.
Proof.
  intros E. unfold round64.
  rewrite <- (Qcompare_comp x y E 0 0 (Qeq_refl 0)).
  destruct (Qcompare_spec x 0) as [C|C|C]; [reflexivity| |].
  - assert (P : 0 < - x).
    { apply Qlt_minus_iff in C. now rewrite Qplus_0_l in C. }
    assert (E' : - x == - y) by now rewrite E.
    now rewrite (round64_pos_comp _ _ P E').
  - now rewrite (round64_pos_comp _ _ C E).
Qed.

End Binary64Facts.

(** ** The value of a numeral *)

Module ValueFacts.
Import Str StrFacts Binary64Facts.

Lemma digit_val_zero c :
  is_digit c = true -> digit_val c = 0%Z -> Ascii.eqb c "0" = true.
Proof.
  destruct c as [[] [] [] [] [] [] [] []]; vm_compute; congruence.
Qed.

Lemma digit_val_nonneg c : is_digit c = true -> (0 <= digit_val c)%Z.
Proof.
  destruct c as [[] [] [] [] [] [] [] []]; vm_compute; congruence.
Qed.

Lemma scan_decimal_zero s :
  forall m dot e, (0 <= m)%Z ->
    (0 <= fst (scan_decimal s m dot e))%Z /\
    (fst (scan_decimal s m dot e) = 0%Z -> m = 0%Z /\ zero_numeral s = true).
Proof.
  induction s as [|c s IH]; intros m dot e Hm; simpl.
  - auto.
  - destruct (is_digit c) eqn:D.
    + pose proof (digit_val_nonneg c D) as Hc.
      destruct (IH (10 * m + digit_val c)%Z dot (if dot then S e else e))
        as [H1 H2]; [lia|].
      split; [exact H1|]. intros H0. destruct (H2 H0) as [Hz Hs].
      assert (m = 0%Z /\ digit_val c = 0%Z) as [-> Hd] by lia.
      split; [reflexivity|].
      unfold zero_numeral in *. simpl.
      now rewrite D, (digit_val_zero c D Hd), Hs.
    + destruct (IH m true e Hm) as [H1 H2]. split; [exact H1|].
      intros H0. destruct (H2 H0) as [-> Hs]. split; [reflexivity|].
      unfold zero_numeral in *. simpl. now rewrite D, Hs.
Qed.

Lemma decimal_value_zero s : decimal_value s == 0 -> zero_numeral s = true.
Proof.
  unfold decimal_value.
  pose proof (scan_decimal_zero s 0 false 0 (Z.le_refl 0)) as [_ H].
  destruct (scan_decimal s 0 false 0) as [m e]. simpl in H.
  unfold Qeq; simpl. intros Hq. apply H. lia.
Qed.

(** A numeral denotes zero only when all its digits are 0. *)
Lemma numeral_value_zero g : numeral_value g == 0 -> zero_numeral g = true.
Proof.
  unfold numeral_value. destruct g as [|c g]; [reflexivity|].
  destruct (Ascii.eqb_spec c "-") as [->|Hc].
  - intros H. unfold zero_numeral; simpl.
    apply decimal_value_zero.
    rewrite <- (Qopp_involutive (decimal_value g)), H. reflexivity.
  - intros H.
    assert (E : decimal_value (String c g) == 0).
    { destruct c as [[] [] [] [] [] [] [] []]; try exact H; congruence. }
    now apply decimal_value_zero.
Qed.

Lemma numeral_value_unsigned n :
  unsigned_numeral n -> numeral_value n = decimal_value n.
Proof.
  intros Hn. pose proof (UnitPatternFacts.numeral_head_digit n "" Hn) as H.
  rewrite append_nil_r in H. destruct n as [|c n]; [reflexivity|].
  simpl in H. unfold numeral_value.
  destruct c as [[] [] [] [] [] [] [] []]; try reflexivity; discriminate.
Qed.

Lemma numeral_value_minus n :
  unsigned_numeral n -> numeral_value ("-" ++ n) = (- numeral_value n)%Q.
Proof. intros Hn. now rewrite (numeral_value_unsigned n Hn). Qed.

(** A minus sign negates the float. *)
Lemma float_of_minus n :
  unsigned_numeral n -> float_of ("-" ++ n) = float_neg (float_of n).
Proof.
  intros Hn. unfold float_of.
  rewrite (numeral_value_minus n Hn). apply round64_opp.
Qed.


Local Open Scope Z_scope.

(** The digits of a decimal number of the library, read after an
    accumulator. *)
Lemma of_uint_acc_value d :
  forall acc,
    Z.pos (Pos.of_uint_acc d acc)
    = Z.pos acc * 10 ^ Z.of_nat (Decimal.nb_digits d) + Z.of_N (Pos.of_uint d).
Proof.
  induction d as [|d IH|d IH|d IH|d IH|d IH|d IH|d IH|d IH|d IH|d IH];
    intros acc;
    cbn [Pos.of_uint_acc Pos.of_uint Decimal.nb_digits Z.of_N];
    rewrite ?Nat2Z.inj_succ, ?Z.pow_succ_r by lia;
    [ cbn [Z.of_nat]; change (10 ^ 0) with 1; ring | ..];
    rewrite !IH, ?Pos2Z.inj_add, ?Pos2Z.inj_mul; ring.
Qed.

Lemma scan_uint d :
  forall rest m dot e,
    scan_decimal (NilEmpty.string_of_uint d ++ rest) m dot e
    = scan_decimal rest
        (m * 10 ^ Z.of_nat (Decimal.nb_digits d) + Z.of_N (Pos.of_uint d))
        dot (if dot then (e + Decimal.nb_digits d)%nat else e).
Proof.
  induction d as [|d IH|d IH|d IH|d IH|d IH|d IH|d IH|d IH|d IH|d IH];
    intros rest m dot e;
    cbn [NilEmpty.string_of_uint append scan_decimal Decimal.nb_digits
         Pos.of_uint Z.of_N];
    [ cbn [Z.of_nat]; change (10 ^ 0) with 1; rewrite Z.mul_1_r, Z.add_0_r;
      destruct dot; [now rewrite Nat.add_0_r | reflexivity] | ..];
    change (is_digit _) with true; cbv iota; rewrite IH;
    rewrite ?Nat2Z.inj_succ, ?Z.pow_succ_r by lia;
    rewrite ?of_uint_acc_value;
    (f_equal; [ unfold digit_val;
                match goal with
                | |- context [Z.of_N (code ?c)] =>
                    let v := eval vm_compute in (Z.of_N (code c)) in
                    change (Z.of_N (code c)) with v
                end; ring
              | destruct dot; [lia | reflexivity] ]).
Qed.

Lemma uint_text d :
  all is_digit (NilEmpty.string_of_uint d) = true
  /\ String.length (NilEmpty.string_of_uint d) = Decimal.nb_digits d.
Proof.
  induction d as [|d [A L]|d [A L]|d [A L]|d [A L]|d [A L]|d [A L]|d [A L]
                  |d [A L]|d [A L]|d [A L]];
    cbn [NilEmpty.string_of_uint all String.length Decimal.nb_digits];
    rewrite ?A, ?L; split; reflexivity.
Qed.

(** The numeral that [str] writes for a whole number: its digits, at
    least one, denoting the number. *)
Lemma str_int_uint a :
  0 <= a ->
  exists d, str_int a = NilEmpty.string_of_uint d
            /\ Z.of_N (Pos.of_uint d) = a /\ d <> Decimal.Nil.
Proof.
  intros H. destruct a as [|p|p]; [| |lia].
  - exists (Decimal.D0 Decimal.Nil). repeat split. discriminate.
  - exists (Pos.to_uint p). unfold str_int. cbn [Z.to_int NilZero.string_of_int].
    pose proof (DecimalPos.Unsigned.to_uint_nonnil p) as N.
    split; [|split; [|exact N]].
    + unfold NilZero.string_of_uint. now destruct (Pos.to_uint p).
    + now rewrite DecimalPos.Unsigned.of_to.
Qed.

Lemma str_int_digits a : 0 <= a -> is_digits (str_int a) = true.
Proof.
  intros H. destruct (str_int_uint a H) as (d & -> & _ & N).
  unfold is_digits. rewrite (proj1 (uint_text d)), andb_true_r.
  now destruct d.
Qed.

Lemma decimal_value_str_int a : 0 <= a -> decimal_value (str_int a) = inject_Z a.
Proof.
  intros H. destruct (str_int_uint a H) as (d & -> & V & _).
  unfold decimal_value.
  rewrite <- (append_nil_r (NilEmpty.string_of_uint d)), scan_uint.
  cbn [scan_decimal]. rewrite V. reflexivity.
Qed.

Lemma scan_zeros z :
  forall rest m e,
    scan_decimal (repeat_char "0" z ++ rest) m true e
    = scan_decimal rest (m * 10 ^ Z.of_nat z) true (e + z)%nat.
Proof.
  induction z as [|z IH]; intros rest m e; cbn [repeat_char append].
  - cbn [Z.of_nat]. change (10 ^ 0) with 1.
    now rewrite Z.mul_1_r, Nat.add_0_r.
  - cbn [scan_decimal]. change (is_digit "0") with true. cbv iota.
    rewrite IH, Nat2Z.inj_succ, Z.pow_succ_r by lia.
    change (digit_val "0") with 0. f_equal; [ring | lia].
Qed.

Lemma zeros_digits z : all is_digit (repeat_char "0" z) = true.
Proof. induction z as [|z IH]; [reflexivity | exact IH]. Qed.

Lemma length_zeros z : String.length (repeat_char "0" z) = z.
Proof. induction z as [|z IH]; cbn; [reflexivity | now rewrite IH]. Qed.

(** The numeral of a decimal fraction: the whole part [a], then [z]
    zeros and the digits of [b] after the point. *)
Lemma decimal_value_fraction a z b :
  0 <= a -> 0 <= b ->
  let f := (repeat_char "0" z ++ str_int b)%string in
  (decimal_value (str_int a ++ "." ++ f)
   == inject_Z a + inject_Z b / inject_Z (10 ^ Z.of_nat (String.length f)))%Q.
Proof.
  intros Ha Hb f. subst f.
  destruct (str_int_uint a Ha) as (da & -> & Va & _).
  destruct (str_int_uint b Hb) as (db & -> & Vb & _).
  rewrite length_append, length_zeros, (proj2 (uint_text db)).
  unfold decimal_value. rewrite scan_uint.
  cbn [append scan_decimal]. change (is_digit ".") with false. cbv iota.
  rewrite scan_zeros.
  rewrite <- (append_nil_r (NilEmpty.string_of_uint db)), scan_uint.
  cbn [scan_decimal]. rewrite Va, Vb, Z.mul_0_l, Z.add_0_l.
  cbn [Nat.add].
  set (n := Decimal.nb_digits db).
  assert (P : 0 < 10 ^ Z.of_nat (z + n)) by (apply Z.pow_pos_nonneg; lia).
  rewrite Qmake_Qdiv, Z2Pos.id by exact P.
  rewrite Nat2Z.inj_add, Z.pow_add_r by lia.
  rewrite !inject_Z_plus, !inject_Z_mult.
  assert (N1 : 0 < 10 ^ Z.of_nat z) by (apply Z.pow_pos_nonneg; lia).
  assert (N2 : 0 < 10 ^ Z.of_nat n) by (apply Z.pow_pos_nonneg; lia).
  field. split; intros E; unfold Qeq in E; cbn in E; lia.
Qed.




(** Whole numbers up to 2^53 are read exactly. *)
Lemma float_of_whole a :
  0 <= a <= 2 ^ 53 -> float_of (str_int a) = Num (inject_Z a).
Proof.
  intros [H0 H1]. unfold float_of.
  rewrite (numeral_value_unsigned (str_int a))
    by (constructor; now apply str_int_digits).
  rewrite decimal_value_str_int by exact H0.
  apply round64_exact. lia.
Qed.

End ValueFacts.

(** ** The unit parsers *)

Module UnitParser.
Import Str StrFacts SearchFacts Binary64Facts ValueFacts Network.
Local Open Scope Q_scope.

(** A numeral, spacing, the unit of the pattern and anything after:
    the search captures the numeral, with its sign when the pattern has
    one. *)
Lemma search_hit sg u (sign : bool) n ws t :
  unit_ok u = true -> unsigned_numeral n -> whitespace ws = true ->
  re_search (unit_pattern sg u) (sign_text sign ++ n ++ ws ++ u ++ t)%string
  = Some (sign_text (sign && sg) ++ n)%string.
Proof.
  intros Hu Hn Hw.
  assert (Hs : unit_start (u ++ t) = true).
  { unfold unit_ok in Hu. apply andb_true_iff in Hu as [H0 H1].
    destruct u; [discriminate | exact H1]. }
  rewrite (re_search_numeral sg u sign n ws (u ++ t)) by auto.
  now rewrite prefix_append.
Qed.

(** A numeral, spacing and a unit token that does not start with the
    unit of the pattern: no match anywhere. *)
Lemma search_miss sg u (sign : bool) n ws v :
  unit_ok u = true -> unsigned_numeral n -> whitespace ws = true ->
  unit_token v = true -> String.prefix u v = false ->
  re_search (unit_pattern sg u) (sign_text sign ++ n ++ ws ++ v)%string = None.
Proof.
  intros Hu Hn Hw [Hv Hs]%andb_true_iff Hp.
  rewrite (re_search_numeral sg u sign n ws v) by auto.
  rewrite Hp. now apply re_search_no_digit.
Qed.

(** What the four parsers return on a numeral and a unit one space
    apart. *)
Lemma parsed_numeral n :
  unsigned_numeral n ->
  extract_bandwidth (Text (n ++ " Mbps")) = float_of n /\
  extract_bandwidth (Text (n ++ " Kbps")) = float_div (float_of n) 1000 /\
  extract_signal_strength (Text (n ++ " dBm")) = float_of n /\
  extract_signal_strength (Text ("-" ++ n ++ " dBm")) = float_neg (float_of n) /\
  extract_latency (Text (n ++ " ms")) = float_of n /\
  extract_percentage (Text (n ++ " %")) = float_of n.
Proof.
  intros Hn.
  pose proof (search_hit false "Mbps" false n " " "" eq_refl Hn eq_refl) as HM.
  pose proof (search_hit false "Kbps" false n " " "" eq_refl Hn eq_refl) as HK.
  pose proof (search_miss false "Mbps" false n " " "Kbps" eq_refl Hn
                eq_refl eq_refl eq_refl) as HMK.
  pose proof (search_hit true "dBm" false n " " "" eq_refl Hn eq_refl) as HD.
  pose proof (search_hit true "dBm" true n " " "" eq_refl Hn eq_refl) as HDm.
  pose proof (search_hit false "ms" false n " " "" eq_refl Hn eq_refl) as HL.
  pose proof (search_hit false "%" false n " " "" eq_refl Hn eq_refl) as HP.
  cbn [sign_text andb append] in HM, HK, HMK, HD, HDm, HL, HP.
  unfold extract_bandwidth, extract_signal_strength, extract_latency,
    extract_percentage. cbn [isna str].
  cbn [append]. rewrite HM, HK, HMK, HD, HDm, HL, HP.
  repeat split. now apply float_of_minus.
Qed.

(** C2, the claim as stated fails: the parsed value is a binary64 float.
    "1001 Kbps" parses to the float nearest 1.001, and that times 1000
    is not 1001, neither exactly nor as the binary64 product
    (1000.9999999999999); "9007199254740993 Mbps" (2^53 + 1) parses to
    2^53. *)
Lemma scaled_value_is_rounded :
  extract_bandwidth (Text "1001 Kbps")
  = Num (2254051613498933 # 2251799813685248) /\
  Qeq_bool ((2254051613498933 # 2251799813685248) * 1000) 1001 = false /\
  float_mul (extract_bandwidth (Text "1001 Kbps")) 1000
  = Num (8804889115230207 # 8796093022208) /\
  Qeq_bool (8804889115230207 # 8796093022208) 1001 = false /\
  extract_bandwidth (Text "9007199254740993 Mbps") = Num 9007199254740992 /\
  Qeq_bool 9007199254740992 9007199254740993 = false.
Proof. vm_compute. repeat split. Qed.

(** C2, amended.  A string that matches a unit pattern parses to the
    float of the captured numeral, that is the binary64 number nearest
    to the value the numeral denotes, divided by 1000.0 in binary64 for
    Kbps.  So "N Mbps", "N ms", "N %" and "N dBm" give float(N),
    "-N dBm" gives -float(N) and "N Kbps" gives float(N)/1000.0.  The
    numeral of a whole number a denotes a, and a decimal fraction
    a.0..0b denotes a + b/10^k for its k digits after the point.  Whole
    numbers up to 2^53 are read exactly, and for them "N Kbps" gives
    the binary64 number nearest to N/1000.  "100 Kbps" gives 0.1 (the
    float that 0.1 denotes), "-75 dBm" gives -75 and "12.5 Mbps"
    gives 12.5. *)
Theorem unit_parser_scales_captured_numeral :
  (forall s g,
      (re_search (unit_pattern true "dBm") s = Some g ->
       extract_signal_strength (Text s) = float_of g) /\
      (re_search (unit_pattern false "ms") s = Some g ->
       extract_latency (Text s) = float_of g) /\
      (re_search (unit_pattern false "Mbps") s = Some g ->
       extract_bandwidth (Text s) = float_of g) /\
      (re_search (unit_pattern false "Mbps") s = None ->
       re_search (unit_pattern false "Kbps") s = Some g ->
       extract_bandwidth (Text s) = float_div (float_of g) 1000) /\
      (re_search (unit_pattern false "%") s = Some g ->
       extract_percentage (Text s) = float_of g)) /\
  (forall n, unsigned_numeral n ->
      extract_bandwidth (Text (n ++ " Mbps")) = float_of n /\
      extract_bandwidth (Text (n ++ " Kbps")) = float_div (float_of n) 1000 /\
      extract_signal_strength (Text (n ++ " dBm")) = float_of n /\
      extract_signal_strength (Text ("-" ++ n ++ " dBm"))
      = float_neg (float_of n) /\
      extract_latency (Text (n ++ " ms")) = float_of n /\
      extract_percentage (Text (n ++ " %")) = float_of n) /\
  (forall a, (0 <= a)%Z ->
      let n := str_int a in
      let v := inject_Z a in
      extract_bandwidth (Text (n ++ " Mbps")) = round64 v /\
      extract_bandwidth (Text (n ++ " Kbps")) = float_div (round64 v) 1000 /\
      extract_signal_strength (Text (n ++ " dBm")) = round64 v /\
      extract_signal_strength (Text ("-" ++ n ++ " dBm")) = round64 (- v) /\
      extract_latency (Text (n ++ " ms")) = round64 v /\
      extract_percentage (Text (n ++ " %")) = round64 v) /\
  (forall a z b, (0 <= a)%Z -> (0 <= b)%Z ->
      let f := (repeat_char "0" z ++ str_int b)%string in
      let n := (str_int a ++ "." ++ f)%string in
      let v := inject_Z a
               + inject_Z b / inject_Z (10 ^ Z.of_nat (String.length f)) in
      extract_bandwidth (Text (n ++ " Mbps")) = round64 v /\
      extract_bandwidth (Text (n ++ " Kbps")) = float_div (round64 v) 1000 /\
      extract_signal_strength (Text (n ++ " dBm")) = round64 v /\
      extract_signal_strength (Text ("-" ++ n ++ " dBm")) = round64 (- v) /\
      extract_latency (Text (n ++ " ms")) = round64 v /\
      extract_percentage (Text (n ++ " %")) = round64 v) /\
  (forall a, (0 <= a <= 2 ^ 53)%Z ->
      let n := str_int a in
      extract_bandwidth (Text (n ++ " Mbps")) = Num (inject_Z a) /\
      extract_bandwidth (Text (n ++ " Kbps")) = round64 (inject_Z a / 1000) /\
      extract_signal_strength (Text (n ++ " dBm")) = Num (inject_Z a) /\
      extract_signal_strength (Text ("-" ++ n ++ " dBm")) = Num (inject_Z (- a)) /\
      extract_latency (Text (n ++ " ms")) = Num (inject_Z a) /\
      extract_percentage (Text (n ++ " %")) = Num (inject_Z a)) /\
  (extract_bandwidth (Text "100 Kbps")
   = Num (3602879701896397 # 36028797018963968) /\
   round64 (1 # 10) = Num (3602879701896397 # 36028797018963968) /\
   extract_signal_strength (Text "-75 dBm") = Num (-75) /\
   extract_bandwidth (Text "12.5 Mbps") = Num (25 # 2)).
Proof.
  split; [|split; [exact parsed_numeral|split; [|split; [|split]]]].
  - intros s g. unfold extract_signal_strength, extract_latency,
      extract_bandwidth, extract_percentage. cbn [isna str].
    repeat split; try (intros ->; reflexivity).
    now intros -> ->.
  - intros a Ha n v. subst n v.
    assert (Hn : unsigned_numeral (str_int a))
      by (constructor; now apply str_int_digits).
    assert (F : float_of (str_int a) = round64 (inject_Z a)).
    { unfold float_of. rewrite (numeral_value_unsigned _ Hn).
      now rewrite decimal_value_str_int. }
    destruct (parsed_numeral _ Hn) as (M & K & D & Dm & L & P).
    rewrite M, K, D, Dm, L, P, F. repeat split. symmetry. apply round64_opp.
  - intros a z b Ha Hb f n v.
    assert (Hn : unsigned_numeral n).
    { apply numeral_dec; [now apply str_int_digits|].
      unfold f, is_digits. rewrite all_append, zeros_digits.
      pose proof (str_int_digits b Hb) as Db. unfold is_digits in Db.
      apply andb_true_iff in Db as [Db1 Db2]. rewrite Db2, andb_true_r.
      destruct z; [exact Db1 | reflexivity]. }
    assert (F : float_of n = round64 v).
    { unfold float_of. rewrite (numeral_value_unsigned _ Hn).
      apply round64_comp. exact (decimal_value_fraction a z b Ha Hb). }
    destruct (parsed_numeral _ Hn) as (M & K & D & Dm & L & P).
    rewrite M, K, D, Dm, L, P, F. repeat split. symmetry. apply round64_opp.
  - intros a Ha n. subst n.
    assert (Hn : unsigned_numeral (str_int a))
      by (constructor; apply str_int_digits; lia).
    destruct (parsed_numeral _ Hn) as (M & K & D & Dm & L & P).
    rewrite M, K, D, Dm, L, P, (float_of_whole a Ha). repeat split.
  - vm_compute. repeat split.
Qed.

Lemma unit_parser_scales_captured_numeral_witness :
  (re_search (unit_pattern false "Mbps") "5 Kbps" = None /\
   re_search (unit_pattern false "Kbps") "5 Kbps" = Some "5"%string /\
   extract_bandwidth (Text "5 Kbps") = float_div (float_of "5") 1000) /\
  (unsigned_numeral "12.5" /\
   extract_percentage (Text ("12.5" ++ " %")) = float_of "12.5") /\
  ((0 <= 1001 <= 2 ^ 53)%Z /\
   extract_bandwidth (Text (str_int 1001 ++ " Kbps"))
   = round64 (inject_Z 1001 / 1000)) /\
  ((0 <= 9007199254740993)%Z /\
   extract_bandwidth (Text (str_int 9007199254740993 ++ " Mbps"))
   = round64 (inject_Z 9007199254740993)) /\
  ((0 <= 12)%Z /\ (0 <= 5)%Z /\
   extract_signal_strength
     (Text ("-" ++ (str_int 12 ++ "." ++ repeat_char "0" 1 ++ str_int 5)
            ++ " dBm"))
   = round64 (- (inject_Z 12
                 + inject_Z 5
                   / inject_Z (10 ^ Z.of_nat
                                      (String.length
                                         (repeat_char "0" 1 ++ str_int 5)))))).
Proof.
  assert (H : unsigned_numeral "12.5")
    by (apply (numeral_dec "12" "5"); reflexivity).
  assert (R : (0 <= 1001 <= 2 ^ 53)%Z) by (split; discriminate).
  assert (P12 : (0 <= 12)%Z) by discriminate.
  assert (P5 : (0 <= 5)%Z) by discriminate.
  assert (B : (0 <= 9007199254740993)%Z) by discriminate.
  pose proof unit_parser_scales_captured_numeral as (G & F & N & D & W & _).
  split; [|split; [|split; [|split]]].
  - split; [reflexivity|]. split; [reflexivity|].
    destruct (G "5 Kbps" "5")%string as (_ & _ & _ & K & _).
    apply K; reflexivity.
  - split; [exact H|]. destruct (F "12.5"%string H) as (_ & _ & _ & _ & _ & P).
    exact P.
  - split; [exact R|]. destruct (W 1001%Z R) as (_ & K & _). exact K.
  - split; [exact B|]. destruct (N 9007199254740993%Z B) as (M & _). exact M.
  - split; [exact P12|]. split; [exact P5|].
    destruct (D 12%Z 1%nat 5%Z P12 P5) as (_ & _ & _ & Dm & _). exact Dm.
Defined.







End UnitParser.

(** ** Cell tower identifiers *)

Module CellTower.
Import Network.
Local Open Scope Z_scope.

Lemma iterrows_from_length {A B} (f : Z -> A -> B) rows :
  forall i, List.length (iterrows_from f i rows) = List.length rows.
Proof. induction rows as [|r rows IH]; intros i; simpl; auto. Qed.

Lemma iterrows_from_nth {A B} (f : Z -> A -> B) rows :
  forall i0 (i : nat),
    nth_error (iterrows_from f i0 rows) i
    = option_map (f (i0 + Z.of_nat i)) (nth_error rows i).
Proof.
  induction rows as [|r rows IH]; intros i0 [|i]; simpl; try reflexivity.
  - now rewrite Z.add_0_r.
  - rewrite IH. now replace (i0 + 1 + Z.of_nat i) with (i0 + Z.pos (Pos.of_succ_nat i)) by lia.
Qed.

Lemma mod3_cases i : i mod 3 = 0 \/ i mod 3 = 1 \/ i mod 3 = 2.
Proof. pose proof (Z.mod_pos_bound i 3 eq_refl). lia. Qed.

Lemma device_id_in_towers i signal :
  In (cell_tower_device_id i signal) cell_towers.
Proof.
  unfold cell_tower_device_id.
  destruct (float_ge signal (-70)); [|destruct (float_ge signal (-85))];
    destruct (mod3_cases i) as [-> | [-> | ->]]; vm_compute; tauto.
Qed.

Lemma device_id_nan i :
  In (cell_tower_device_id i NaN) low_signal_towers.
Proof.
  unfold cell_tower_device_id. simpl float_ge. cbv iota.
  destruct (mod3_cases i) as [-> | [-> | ->]]; vm_compute; tauto.
Qed.

(** C10.  Every row of the network dataset gets one of the nine
    identifiers did:lcore:cell-tower-tower-1 .. -9, one per row, and each
    of the nine is assigned to some row and signal; a row whose signal
    strength is NaN fails both comparisons and gets one of towers 7 to
    9. *)
Theorem cell_tower_device_ids_range :
  (forall signals,
      List.length (create_cell_tower_device_ids signals) = List.length signals /\
      (forall id, In id (create_cell_tower_device_ids signals) ->
                  In id cell_towers) /\
      (forall i, nth_error signals i = Some NaN ->
                 exists id,
                   nth_error (create_cell_tower_device_ids signals) i = Some id /\
                   In id low_signal_towers)) /\
  (forall id, In id cell_towers ->
              exists i signal, 0 <= i /\ cell_tower_device_id i signal = id) /\
  float_ge NaN (-70) = false /\ float_ge NaN (-85) = false.
Proof.
  split; [|split; [|split; reflexivity]].
  - intros signals. unfold create_cell_tower_device_ids.
    split; [apply iterrows_from_length|]. split.
    + intros id [i Hi]%In_nth_error. rewrite iterrows_from_nth in Hi.
      destruct (nth_error signals i); [|discriminate].
      injection Hi as <-. apply device_id_in_towers.
    + intros i Hi. rewrite iterrows_from_nth, Hi. simpl.
      eexists; split; [reflexivity | apply device_id_nan].
  - intros id H. simpl in H.
    repeat (destruct H as [<- | H]); try contradiction.
    + exists 0, (Num 0); split; [lia | reflexivity].
    + exists 1, (Num 0); split; [lia | reflexivity].
    + exists 2, (Num 0); split; [lia | reflexivity].
    + exists 0, (Num (-80)); split; [lia | reflexivity].
    + exists 1, (Num (-80)); split; [lia | reflexivity].
    + exists 2, (Num (-80)); split; [lia | reflexivity].
    + exists 0, NaN; split; [lia | reflexivity].
    + exists 1, NaN; split; [lia | reflexivity].
    + exists 2, NaN; split; [lia | reflexivity].
Qed.

Lemma cell_tower_device_ids_range_witness :
  nth_error [Num (-60); NaN; Num (-90)]%Q 1 = Some NaN /\
  exists id,
    nth_error (create_cell_tower_device_ids [Num (-60); NaN; Num (-90)]%Q) 1
    = Some id /\ In id low_signal_towers.
Proof.
  split; [reflexivity|].
  destruct cell_tower_device_ids_range as (R & _).
  destruct (R [Num (-60); NaN; Num (-90)]%Q) as (_ & _ & N).
  apply (N 1%nat). reflexivity.
Defined.

End CellTower.

(** ** Temperature conversion *)

Module Temperature.
Import Weather.
Local Open Scope float_scope.

(** C5.  On every input that is not NaN the conversion computes
    (f - 32) * 5 / 9 in binary64; it is applied to each element of the
    column, which keeps its length; 32 gives exactly 0 and 212 exactly
    100, hence within 1e-9; NaN gives NaN. *)
Theorem fahrenheit_to_celsius_contract :
  (forall f, PrimFloat.is_nan f = false ->
             fahrenheit_to_celsius f = (f - 32) * 5 / 9) /\
  (forall f, PrimFloat.is_nan f = true ->
             PrimFloat.is_nan (fahrenheit_to_celsius f) = true) /\
  (forall column,
      List.length (convert_fahrenheit_to_celsius column) = List.length column /\
      forall i, nth_error (convert_fahrenheit_to_celsius column) i
                = option_map fahrenheit_to_celsius (nth_error column i)) /\
  fahrenheit_to_celsius 32 = 0 /\
  fahrenheit_to_celsius 212 = 100 /\
  (abs (fahrenheit_to_celsius 32 - 0) <=? tolerance) = true /\
  (abs (fahrenheit_to_celsius 212 - 100) <=? tolerance) = true /\
  (abs (fahrenheit_to_celsius 68 - 20) <=? tolerance) = true.
Proof.
  split; [|split; [|split]].
  - intros f H. unfold fahrenheit_to_celsius. now rewrite H.
  - intros f H. unfold fahrenheit_to_celsius. now rewrite H.
  - intros column. unfold convert_fahrenheit_to_celsius.
    split; [apply length_map | intros i; apply nth_error_map].
  - repeat split; vm_compute; reflexivity.
Qed.

Lemma fahrenheit_to_celsius_contract_witness :
  PrimFloat.is_nan 50 = false /\ fahrenheit_to_celsius 50 = 10 /\
  PrimFloat.is_nan nan = true /\
  PrimFloat.is_nan (fahrenheit_to_celsius nan) = true.
Proof.
  destruct fahrenheit_to_celsius_contract as (F & M & _).
  split; [reflexivity|]. split; [|split; [reflexivity|]].
  - rewrite (F 50 eq_refl). reflexivity.
  - apply (M nan). reflexivity.
Defined.

End Temperature.

(** ** Timestamps *)

Module Timestamp.
Local Open Scope Z_scope.

(** C8, the claim as stated fails: half a second before the epoch is
    encoded as -1, where truncation toward zero gives 0. *)
Lemma timestamp_before_epoch_not_truncated :
  timestamp_unix (-500000000) = -1 /\
  truncated_seconds (-500000000) = 0 /\
  timestamp_unix (-500000000) <> truncated_seconds (-500000000).
Proof. repeat split. discriminate. Qed.

(** C8, amended.  The timestamp is the integer number of Unix seconds
    obtained by flooring the parsed time to whole seconds: the greatest
    whole second not after it.  It is never rounded up; it equals the
    truncation toward zero for times at or after the epoch and for
    whole-second times, and is one less for any other time before the
    epoch. *)
Theorem timestamp_unix_floors :
  (forall ns,
      timestamp_unix ns * 10 ^ 9 <= ns < (timestamp_unix ns + 1) * 10 ^ 9 /\
      (0 <= ns -> timestamp_unix ns = truncated_seconds ns) /\
      (ns mod 10 ^ 9 = 0 -> timestamp_unix ns = truncated_seconds ns) /\
      (ns < 0 -> ns mod 10 ^ 9 <> 0 ->
       timestamp_unix ns = truncated_seconds ns - 1)) /\
  (forall parsed,
    List.length (Network.convert_timestamps parsed) = List.length parsed /\
    Weather.convert_timestamps parsed = Network.convert_timestamps parsed /\
    forall i, nth_error (Network.convert_timestamps parsed) i
              = option_map timestamp_unix (nth_error parsed i)).
Proof.
  split.
  - intros ns. unfold timestamp_unix, truncated_seconds.
    change (10 ^ 9) with 1000000000.
    pose proof (Z.div_mod ns 1000000000 ltac:(lia)) as D.
    pose proof (Z.mod_pos_bound ns 1000000000 ltac:(lia)) as B.
    split; [lia|]. split; [|split].
    + intros H. symmetry. apply Z.quot_div_nonneg; lia.
    + intros H. rewrite H, Z.add_0_r in D.
      rewrite D at 2. rewrite Z.mul_comm, Z.quot_mul; lia.
    + intros Hn Hm.
      pose proof (Z.quot_rem' ns 1000000000) as Q.
      pose proof (Z.rem_bound_pos_neg ns 1000000000 ltac:(lia) ltac:(lia)) as R.
      assert (Z.rem ns 1000000000 <> 0).
      { intros E. rewrite E, Z.add_0_r in Q.
        apply Hm. rewrite Q at 1.
        rewrite Z.mul_comm. apply Z.mod_mul. lia. }
      nia.
    - intros parsed. unfold Weather.convert_timestamps, Network.convert_timestamps.
    split; [apply length_map|]. split; [reflexivity|].
    intros i; apply nth_error_map.
Qed.

Lemma timestamp_unix_floors_witness :
  0 <= 1500000000 /\ timestamp_unix 1500000000 = truncated_seconds 1500000000.
Proof.
  split; [lia|].
  destruct timestamp_unix_floors as (F & _).
  destruct (F 1500000000) as (_ & T & _). apply T. lia.
Defined.

End Timestamp.

(** ** Schema mapping *)

Module Schema.

Lemma getitem_length df name s :
getitem df name = Some s -> List.length s = len df.
Proof.
unfold getitem, len. destruct (column_index name (columns df)); [|discriminate].
intros [= <-]. apply length_map.
Qed.

Lemma get_length df name default :
entry_len (get df name default) = Some (len df)
\/ entry_len (get df name default) = None.
Proof.
unfold get. destruct (getitem df name) as [s|] eqn:E; simpl; [left | now right].
f_equal. eapply getitem_length; eassumption.
Qed.

Lemma column_index_In name cols :
In name cols -> exists j, column_index name cols = Some j.
Proof.
induction cols as [|c cols IH]; simpl; [contradiction|].
destruct (String.eqb_spec c name) as [->|Hne]; [now exists O|].
intros [->|H]; [congruence|].
destruct (IH H) as [j ->]. now exists (S j).
Qed.

Lemma getitem_In df name :
In name (columns df) -> exists s, getitem df name = Some s.
Proof.
intros [j E]%column_index_In. unfold getitem. rewrite E. eauto.
Qed.

(** The frame built from series that all have [n] rows, and scalars, has
    [n] rows. *)
Lemma index_len_uniform n data m :
Forall (fun kv => entry_len (snd kv) = Some n \/ entry_len (snd kv) = None) data ->
index_len data = Some m -> m = n.
Proof.
intros F. revert m. induction F as [|[k e] data [He|He] F IH]; intros m; simpl in *.
- discriminate.
- rewrite He. destruct (index_len data) as [m'|].
  + intros [= <-]. rewrite (IH m' eq_refl). apply Nat.max_id.
  + now intros [= <-].
- rewrite He. apply IH.
Qed.

Lemma pd_DataFrame_len n data out :
Forall (fun kv => entry_len (snd kv) = Some n \/ entry_len (snd kv) = None) data ->
pd_DataFrame data = Some out ->
len out = n /\ columns out = map fst data.
Proof.
intros F. unfold pd_DataFrame.
destruct (index_len data) as [m|] eqn:E; [|discriminate].
intros [= <-]. unfold len; simpl. rewrite length_map, length_seq.
split; [eapply index_len_uniform; eassumption | reflexivity].
Qed.

Lemma pd_DataFrame_total k s data :
exists out, pd_DataFrame ((k, Col s) :: data) = Some out.
Proof.
unfold pd_DataFrame. simpl index_len.
destruct (index_len data); eauto.
Qed.

Ltac series_length :=
repeat match goal with
| H : getitem _ _ = Some _ |- _ => apply getitem_length in H
end.

Ltac uniform_entries :=
repeat (apply Forall_cons; simpl snd;
        [ first [ now (left; simpl; f_equal)
                | now right
                | apply get_length ] | ]);
apply Forall_nil.

Lemma mapi_from_length {A B} (f : nat -> A -> B) l :
forall i, List.length (mapi_from f i l) = List.length l.
Proof. induction l as [|x l IH]; intros i; simpl; auto. Qed.

(** Assigning a column keeps the rows of a frame, and gives an empty frame
    the rows of the series. *)
Lemma setitem_len n df name e :
entry_len e = Some n \/ entry_len e = None ->
len df = n -> len (setitem df name e) = n.
Proof.
unfold len, setitem. cbn [rows]. intros He Hn.
destruct (rows df) as [|r rs] eqn:R, e as [s|v];
  rewrite mapi_from_length; try exact Hn.
rewrite length_map. destruct He as [He|He]; [|discriminate].
now injection He.
Qed.

Lemma setitem_empty_frame name s :
len (setitem empty_frame name (Col s)) = List.length s.
Proof. unfold len, setitem. cbn [rows empty_frame]. now rewrite mapi_from_length, length_map. Qed.

Lemma reindex_columns_len df labels : len (reindex_columns df labels) = len df.
Proof. unfold len, reindex_columns. cbn [rows]. apply length_map. Qed.

Lemma insert_row_length j r sorted :
List.length (insert_row j r sorted) = S (List.length sorted).
Proof.
induction sorted as [|r' rest IH]; simpl; [reflexivity|].
destruct (value_leb _ _); simpl; [reflexivity | now rewrite IH].
Qed.

Lemma sort_values_len df by_ out :
sort_values df by_ = Some out -> len out = len df.
Proof.
unfold sort_values, len. destruct (column_index by_ (columns df)) as [j|];
  [|discriminate].
intros [= <-]. cbn [rows].
induction (rows df) as [|r rs IH]; simpl; [reflexivity|].
now rewrite insert_row_length, IH.
Qed.

Ltac read_columns raw :=
repeat (match goal with
        | |- context [getitem raw ?c] =>
            let E := fresh "E" in
            destruct (getitem raw c) eqn:E; [|discriminate]
        end).

Ltac dict_rows :=
let H := fresh "H" in
series_length; intros H;
eapply pd_DataFrame_len in H; [exact H|]; uniform_entries.

Ltac have_columns raw Hin :=
repeat (match goal with
        | |- context [getitem raw ?c] =>
            let s := fresh "s" in
            destruct (getitem_In raw c) as [s ->];
            [apply Hin; simpl; tauto|]
        end).

Ltac assigned_rows :=
repeat (lazymatch goal with
        | |- len (setitem empty_frame _ _) = _ => fail
        | |- len (setitem _ _ _) = _ =>
            apply setitem_len;
            [ first [ now (left; simpl; f_equal)
                    | now right
                    | apply get_length ] | ]
        end).

(** C6.  The step that assembles the output table of the network, weather,
    health and retail scripts (one dict of columns) and of the agriculture
    script (column by column) returns a table with as many rows as the
    working table it is given, under the target column labels; the
    environmental script, which has two working tables, returns one with
    the rows of both.  Each returns a table whenever the working table has
    the columns the step reads. *)
Theorem schema_mapper_preserves_row_count :
(forall raw_data out,
    (Network.create_schema_compliant_format raw_data = Some out ->
     len out = len raw_data /\ columns out = Network.output_columns) /\
    (Weather.create_schema_compliant_format raw_data = Some out ->
     len out = len raw_data /\ columns out = Weather.output_columns) /\
    (Health.create_schema_compliant_format raw_data = Some out ->
     len out = len raw_data) /\
    (Retail.create_schema_compliant_format raw_data = Some out ->
     len out = len raw_data) /\
    (Agriculture.create_schema_compliant_format raw_data = Some out ->
     len out = len raw_data /\ columns out = Agriculture.output_columns)) /\
(forall air_data water_data out,
    Environmental.combine_datasets air_data water_data = Some out ->
    len out = (len air_data + len water_data)%nat) /\
(forall raw_data,
    (incl Network.required_columns (columns raw_data) ->
     exists out, Network.create_schema_compliant_format raw_data = Some out) /\
    (incl Weather.required_columns (columns raw_data) ->
     exists out, Weather.create_schema_compliant_format raw_data = Some out) /\
    (incl Health.required_columns (columns raw_data) ->
     exists out, Health.create_schema_compliant_format raw_data = Some out) /\
    (incl Retail.required_columns (columns raw_data) ->
     exists out, Retail.create_schema_compliant_format raw_data = Some out) /\
    (incl Agriculture.required_columns (columns raw_data) ->
     exists out, Agriculture.create_schema_compliant_format raw_data = Some out)) /\
(forall air_data water_data,
    In "water_temperature"%string (columns water_data) ->
    exists out, Environmental.combine_datasets air_data water_data = Some out).
Proof.
split; [|split; [|split]].
- intros raw out. split; [|split; [|split; [|split]]].
  + unfold Network.create_schema_compliant_format, obind.
    read_columns raw. dict_rows.
  + unfold Weather.create_schema_compliant_format, obind.
    read_columns raw. dict_rows.
  + unfold Health.create_schema_compliant_format, obind.
    read_columns raw. series_length. intros H.
    eapply pd_DataFrame_len in H; [exact (proj1 H)|]. uniform_entries.
  + unfold Retail.create_schema_compliant_format, obind.
    read_columns raw. series_length. intros H.
    eapply pd_DataFrame_len in H; [exact (proj1 H)|]. uniform_entries.
  + unfold Agriculture.create_schema_compliant_format, obind.
    read_columns raw. series_length. cbv beta zeta. intros [= <-].
    split; [|reflexivity].
    assigned_rows. now rewrite setitem_empty_frame.
- intros air water out. unfold Environmental.combine_datasets, obind.
  read_columns water. series_length. cbv beta zeta.
  intros H%sort_values_len. rewrite H. unfold len at 1, concat. cbn [rows].
  rewrite length_app. fold (len (reindex_columns
    (setitem (setitem (setitem (setitem (setitem (setitem air
       "water_temperature" (Scalar VNaN)) "ph_level" (Scalar VNaN))
       "turbidity_ntu" (Scalar VNaN)) "bod_mgl" (Scalar VNaN))
       "dissolved_oxygen_mgl" (Scalar VNaN)) "conductivity" (Scalar VNaN))
    Environmental.common_columns)).
  rewrite reindex_columns_len.
  match goal with
  | |- (_ + List.length (rows ?w) = _)%nat => fold (len w)
  end.
  rewrite reindex_columns_len. f_equal; assigned_rows; reflexivity.
- intros raw. split; [|split; [|split; [|split]]]; intros Hin.
  + unfold Network.create_schema_compliant_format, obind.
    have_columns raw Hin. apply pd_DataFrame_total.
  + unfold Weather.create_schema_compliant_format, obind.
    have_columns raw Hin. apply pd_DataFrame_total.
  + unfold Health.create_schema_compliant_format, obind.
    have_columns raw Hin. apply pd_DataFrame_total.
  + unfold Retail.create_schema_compliant_format, obind.
    have_columns raw Hin. apply pd_DataFrame_total.
  + unfold Agriculture.create_schema_compliant_format, obind.
    have_columns raw Hin. eauto.
- intros air water Hin. unfold Environmental.combine_datasets, obind.
  destruct (getitem_In water _ Hin) as [s ->]. cbv beta zeta.
  unfold sort_values. cbn [columns concat reindex_columns].
  now eexists.
Qed.

Lemma schema_mapper_preserves_row_count_witness :
(incl Network.required_columns (columns sample_network_table) /\
 exists out,
   Network.create_schema_compliant_format sample_network_table = Some out /\
   len out = len sample_network_table /\ len out = 2%nat) /\
(incl Weather.required_columns (columns sample_weather_table) /\
 exists out,
   Weather.create_schema_compliant_format sample_weather_table = Some out /\
   len out = len sample_weather_table /\ len out = 1%nat).
Proof.
destruct schema_mapper_preserves_row_count as (R & _ & T & _).
assert (HN : incl Network.required_columns (columns sample_network_table))
  by (intros c; simpl; tauto).
assert (HW : incl Weather.required_columns (columns sample_weather_table))
  by (intros c; simpl; tauto).
split.
- split; [exact HN|]. destruct (T sample_network_table) as (TN & _).
  destruct (TN HN) as [out E]. exists out.
  split; [exact E|]. destruct (R sample_network_table out) as (N & _).
  destruct (N E) as [L _]. split; [exact L|]. rewrite L. reflexivity.
- split; [exact HW|]. destruct (T sample_weather_table) as (_ & TW & _).
  destruct (TW HW) as [out E]. exists out.
  split; [exact E|]. destruct (R sample_weather_table out) as (_ & W & _).
  destruct (W E) as [L _]. split; [exact L|]. rewrite L. reflexivity.
Defined.

End Schema.

(** ** The random draws *)

Module RandomFacts.
Import MT19937 Random.
Local Open Scope Z_scope.

Lemma u32_nonneg x : 0 <= u32 x.
Proof. unfold u32. apply Z.land_nonneg. right. lia. Qed.

Lemma genrand_uint32_nonneg st : 0 <= fst (genrand_uint32 st).
Proof. unfold genrand_uint32. cbv zeta. cbn [fst]. apply u32_nonneg. Qed.

Lemma getrandbits_nonneg k st : 0 <= fst (getrandbits k st).
Proof.
unfold getrandbits. pose proof (genrand_uint32_nonneg st) as H.
destruct (genrand_uint32 st) as [y st']. cbn [fst] in *.
now apply Z.shiftr_nonneg.
Qed.

(** A draw that returns is below the bound. *)
Lemma randbelow_range fuel n st r st' :
randbelow fuel n st = Some (r, st') -> 0 <= r < n.
Proof.
revert st. induction fuel as [|fuel IH]; intros st; cbn [randbelow];
  [discriminate|].
pose proof (getrandbits_nonneg (bit_length n) st) as Hn.
destruct (getrandbits (bit_length n) st) as [x st1]. cbn [fst] in Hn.
destruct (x <? n) eqn:L.
- intros [= <- <-]. apply Z.ltb_lt in L. lia.
- apply IH.
Qed.

Lemma randint_range fuel a b st r st' :
randint fuel a b st = Some (r, st') -> a <= r <= b.
Proof.
unfold randint.
destruct (randbelow fuel (b + 1 - a) st) as [[x st1]|] eqn:E; [|discriminate].
intros [= <- <-]. apply randbelow_range in E. lia.
Qed.

(** More fuel does not change a draw that returned. *)
Lemma randbelow_fuel fuel fuel' n st res :
(fuel <= fuel')%nat ->
randbelow fuel n st = Some res -> randbelow fuel' n st = Some res.
Proof.
revert fuel' st. induction fuel as [|fuel IH]; intros fuel' st Hle;
  cbn [randbelow]; [discriminate|].
destruct fuel' as [|fuel']; [lia|]. cbn [randbelow].
destruct (getrandbits (bit_length n) st) as [x st1].
destruct (x <? n); [auto|]. apply IH. lia.
Qed.

Lemma randint_fuel fuel fuel' a b st res :
(fuel <= fuel')%nat ->
randint fuel a b st = Some res -> randint fuel' a b st = Some res.
Proof.
intros Hle. unfold randint.
destruct (randbelow fuel (b + 1 - a) st) as [[x st1]|] eqn:E; [|discriminate].
now rewrite (randbelow_fuel _ _ _ _ _ Hle E).
Qed.

End RandomFacts.

(** ** Python's string methods *)

Module PyStrFacts.
Import Str StrFacts.

Lemma prefix_nil s : String.prefix "" s = true.
Proof. destruct s; reflexivity. Qed.

Lemma flat_map_append f a b : flat_map f (a ++ b) = flat_map f a ++ flat_map f b.
Proof.
induction a as [|c a IH]; simpl; [reflexivity|].
now rewrite IH, append_assoc.
Qed.

Lemma flat_map_ext f g s :
(forall c, f c = g c) -> flat_map f s = flat_map g s.
Proof. intros E. induction s as [|c s IH]; simpl; [reflexivity|]. now rewrite E, IH. Qed.

Lemma flat_map_flat_map f g s :
flat_map g (flat_map f s) = flat_map (fun c => flat_map g (f c)) s.
Proof.
induction s as [|c s IH]; simpl; [reflexivity|].
now rewrite flat_map_append, IH.
Qed.

Lemma flat_map_lower f s : flat_map f (lower s) = flat_map (fun c => f (lower_char c)) s.
Proof. induction s as [|c s IH]; simpl; [reflexivity|]. now rewrite IH. Qed.

Lemma all_flat_map p f s :
(forall c, all p (f c) = true) -> all p (flat_map f s) = true.
Proof.
intros H. induction s as [|c s IH]; simpl; [reflexivity|].
now rewrite all_append, H, IH.
Qed.

(** Replacing a one-character [old] acts character by character. *)
Lemma replace_char c new s :
replace (String c "") new s
= flat_map (fun x => if Ascii.eqb x c then new else String x "") s.
Proof.
unfold replace. induction s as [|x s IH]; [reflexivity|].
cbn [replace_from String.prefix flat_map String.length Nat.sub].
rewrite prefix_nil.
destruct (ascii_dec c x) as [<-|Hne].
- now rewrite Ascii.eqb_refl, IH.
- destruct (Ascii.eqb_spec x c) as [->|_]; [congruence|].
  now rewrite IH.
Qed.

Lemma replace_from_skip old new x s :
replace_from old new (x ++ s) (String.length x) = replace_from old new s 0.
Proof. induction x as [|c x IH]; simpl; [reflexivity | exact IH]. Qed.

(** No occurrence starts where the first character of [old] is absent. *)
Lemma replace_absent c0 old' new s :
all (fun c => negb (Ascii.eqb c c0)) s = true ->
replace (String c0 old') new s = s.
Proof.
unfold replace. induction s as [|x s IH]; [reflexivity|].
intros [Hx Hs]%andb_true_iff. cbn [replace_from String.prefix].
destruct (ascii_dec c0 x) as [<-|_].
- now rewrite Ascii.eqb_refl in Hx.
- now rewrite IH.
Qed.

(** A leading occurrence is replaced, and the scan resumes after it. *)
Lemma replace_leading c0 old' new s :
replace (String c0 old') new (String c0 old' ++ s)
= new ++ replace (String c0 old') new s.
Proof.
unfold replace. cbn [append replace_from].
change (String.prefix (String c0 old') (String c0 (old' ++ s)))
  with (String.prefix (String c0 old') (String c0 old' ++ s)).
rewrite prefix_append. cbn [String.length Nat.sub].
now rewrite Nat.sub_0_r, replace_from_skip.
Qed.

Lemma region_clean_chars region :
Retail.region_clean region = flat_map clean_char region.
Proof.
unfold Retail.region_clean. rewrite !replace_char, flat_map_flat_map, flat_map_lower.
apply flat_map_ext. intros c.
destruct c as [[] [] [] [] [] [] [] []]; reflexivity.
Qed.

Lemma clean_char_safe c :
all (fun x => negb (is_upper x || Ascii.eqb x " " || Ascii.eqb x "&"))
    (clean_char c) = true.
Proof. destruct c as [[] [] [] [] [] [] [] []]; reflexivity. Qed.

End PyStrFacts.

(** ** Decimal numerals and text *)

Module TextFacts.

Lemma append_inj_suffix (s1 s2 t1 t2 : string) :
  String.length t1 = String.length t2 ->
  s1 ++ t1 = s2 ++ t2 -> s1 = s2 /\ t1 = t2.
Proof.
  revert s2. induction s1 as [|c s1 IH]; intros [|c' s2] L E; cbn in E.
  - auto.
  - apply (f_equal String.length) in E. cbn in E.
    rewrite StrFacts.length_append in E. lia.
  - apply (f_equal String.length) in E. cbn in E.
    rewrite StrFacts.length_append in E. lia.
  - injection E as -> E. destruct (IH s2 L E) as [-> ->]. auto.
Qed.

Lemma append_inj_prefix (p s t : string) : p ++ s = p ++ t -> s = t.
Proof. induction p as [|c p IH]; cbn; [auto|]. intros [= E]. auto. Qed.

Lemma to_int_proper (z : Z) :
  Z.to_int z <> Decimal.Pos Decimal.Nil /\ Z.to_int z <> Decimal.Neg Decimal.Nil.
Proof.
  destruct z as [|p|p]; cbn; split; try discriminate;
    intros [= E]; now apply (DecimalPos.Unsigned.to_uint_nonnil p).
Qed.

(** The numeral of an integer reads back as that integer. *)
Lemma int_of_string_str_int (z : Z) :
  NilZero.int_of_string (str_int z) = Some (Z.to_int z).
Proof.
  unfold str_int. destruct (to_int_proper z). now apply NilZero.isi.
Qed.

Lemma str_int_inj (a b : Z) : str_int a = str_int b -> a = b.
Proof.
  intros E. apply DecimalZ.to_int_inj.
  pose proof (int_of_string_str_int a) as A.
  rewrite E, int_of_string_str_int in A. now injection A.
Qed.

End TextFacts.

(** ** Identity generators *)

Module Identity.
Import Str StrFacts PyStrFacts RandomFacts TextFacts.
Local Open Scope Z_scope.

Lemma create_store_device_id_form fuel region st id st' :
Retail.create_store_device_id fuel region st = Some (id, st') ->
exists n, 1 <= n <= 3 /\
          id = ("did:lcore:retail-" ++ Retail.region_clean region
                  ++ "-store-" ++ str_int n)%string.
Proof.
unfold Retail.create_store_device_id.
destruct (Random.randint fuel 1 3 st) as [[n st1]|] eqn:E; [|discriminate].
intros [= <- <-]. exists n. split; [|reflexivity].
eapply randint_range; eassumption.
Qed.


Section Apply.
Context {A B : Type}.
Implicit Types (f g : A -> MT19937.state -> option (B * MT19937.state)).

Lemma apply_st_Forall2 f col :
forall st ys st',
  Retail.apply_st f col st = Some (ys, st') ->
  Forall2 (fun x y => exists s1 s2, f x s1 = Some (y, s2)) col ys.
Proof.
induction col as [|x col IH]; intros st ys st'; cbn [Retail.apply_st].
- intros [= <- <-]. constructor.
- destruct (f x st) as [[y st1]|] eqn:E; [|discriminate].
  destruct (Retail.apply_st f col st1) as [[ys1 st2]|] eqn:E1; [|discriminate].
  intros [= <- <-]. constructor; [eauto | eapply IH; eassumption].
Qed.

Lemma apply_st_mono f g col :
(forall x st res, f x st = Some res -> g x st = Some res) ->
forall st res,
  Retail.apply_st f col st = Some res -> Retail.apply_st g col st = Some res.
Proof.
intros Hfg. induction col as [|x col IH]; intros st res; cbn [Retail.apply_st];
  [auto|].
destruct (f x st) as [[y st1]|] eqn:E; [|discriminate].
rewrite (Hfg _ _ _ E).
destruct (Retail.apply_st f col st1) as [[ys1 st2]|] eqn:E1; [|discriminate].
now rewrite (IH _ _ E1).
Qed.
End Apply.

(** The run on a column returns when the draws for as many rows do: the
    regions have no part in the draws. *)
Lemma apply_st_store_numbers fuel col :
forall st,
  is_some (store_numbers fuel (List.length col) st) = true ->
  is_some (Retail.apply_st (Retail.create_store_device_id fuel) col st) = true.
Proof.
unfold store_numbers.
induction col as [|region col IH]; intros st; [reflexivity|].
cbn [List.length List.repeat Retail.apply_st].
unfold Retail.create_store_device_id at 1.
destruct (Random.randint fuel 1 3 st) as [[n st1]|]; [|discriminate].
specialize (IH st1).
destruct (Retail.apply_st _ (List.repeat tt (List.length col)) st1)
  as [[ns st2]|]; [|discriminate].
intros _. specialize (IH eq_refl).
now destruct (Retail.apply_st _ col st1) as [[ids st3]|].
Qed.

(** Draws for a longer table start with those for a shorter one. *)
Lemma store_numbers_shorter fuel n m :
forall st,
  is_some (store_numbers fuel (n + m) st) = true ->
  is_some (store_numbers fuel n st) = true.
Proof.
unfold store_numbers.
induction n as [|n IH]; intros st; [reflexivity|].
cbn [Nat.add List.repeat Retail.apply_st].
destruct (Random.randint fuel 1 3 st) as [[x st1]|]; [|discriminate].
specialize (IH st1).
destruct (Retail.apply_st _ (List.repeat tt (n + m)) st1) as [[ns st2]|];
  [|discriminate].
intros _. specialize (IH eq_refl).
now destruct (Retail.apply_st _ (List.repeat tt n) st1) as [[ns' st3]|].
Qed.

Lemma store_numbers_fuel fuel fuel' n st :
(fuel <= fuel')%nat ->
is_some (store_numbers fuel n st) = true ->
is_some (store_numbers fuel' n st) = true.
Proof.
intros Hle. unfold store_numbers.
destruct (Retail.apply_st _ (List.repeat tt n) st) as [res|] eqn:E;
  [|discriminate].
intros _.
erewrite (apply_st_mono (fun _ : unit => Random.randint fuel 1 3)
            (fun _ : unit => Random.randint fuel' 1 3)); [reflexivity| |exact E].
intros x s r. now apply randint_fuel.
Qed.

(** After [random.seed(42)] the draws for 20000 rows end, none of them
    rejecting more than 15 words in a row. *)
Lemma seeded_store_numbers st :
is_some (store_numbers 16 (Z.to_nat 20000) (Random.seed 42 st)) = true.
Proof. vm_compute. reflexivity. Qed.

(** The retail run returns on a table of up to 20000 rows, with an
    identifier of the retail form for each row. *)
Lemma retail_run_returns fuel store_region st :
(16 <= fuel)%nat -> Z.of_nat (List.length store_region) <= 20000 ->
exists ids st',
  Retail.create_retail_device_ids fuel store_region st = Some (ids, st') /\
  Forall2 (fun region id =>
             exists n, 1 <= n <= 3 /\
                       id = ("did:lcore:retail-" ++ Retail.region_clean region
                               ++ "-store-" ++ str_int n)%string)
          store_region ids.
Proof.
intros Hf Hn. unfold Retail.create_retail_device_ids.
assert (R : is_some (Retail.apply_st (Retail.create_store_device_id fuel)
                       store_region (Random.seed 42 st)) = true).
{ apply apply_st_store_numbers, (store_numbers_fuel 16 fuel); [exact Hf|].
  apply (store_numbers_shorter 16 _
           (Z.to_nat 20000 - List.length store_region)).
  replace (List.length store_region
           + (Z.to_nat 20000 - List.length store_region))%nat
    with (Z.to_nat 20000) by lia.
  apply seeded_store_numbers. }
destruct (Retail.apply_st _ store_region (Random.seed 42 st))
  as [[ids st']|] eqn:E; [|discriminate].
exists ids, st'. split; [reflexivity|].
apply apply_st_Forall2 in E.
eapply Forall2_impl; [|exact E]. cbv beta.
intros region id (s1 & s2 & E1).
eapply create_store_device_id_form; eassumption.
Qed.


(** The health identifier of a key of the form Device_<d>, where [d] has
    no capital D. *)
Lemma health_device_id_of d :
all (fun c => negb (Ascii.eqb c "D")) d = true ->
Health.device_id ("Device_" ++ d) = ("did:lcore:health-tracker-" ++ d)%string
/\ Health.device_id d = ("did:lcore:health-tracker-" ++ d)%string.
Proof.
intros Hd. unfold Health.device_id.
rewrite (replace_leading "D" "evice_" "" d).
rewrite (replace_absent "D" "evice_" "" d Hd). split; reflexivity.
Qed.




(** C7, the claim as stated fails: the agriculture generator keeps the
    key as it is, capitals included, and the retail generator writes
    "and" for an ampersand where the normalisation of the specification
    strips it. *)
Lemma device_id_key_not_normalized :
Agriculture.device_id "R1" = "did:lcore:agri-R1"%string /\
("did:lcore:agri-" ++ spec_normalize "R1")%string = "did:lcore:agri-r1"%string /\
Agriculture.device_id "R1" <> ("did:lcore:agri-" ++ spec_normalize "R1")%string /\
Retail.region_clean "Power & Light District" = "power-and-light-district"%string /\
spec_normalize "Power & Light District" = "power--light-district"%string.
Proof. repeat split. discriminate. Qed.

(** C7, amended.  Every identifier has the form
    did:lcore:<category>-<key part>, one per row.  The agriculture
    generator inserts the key unchanged, so a key that the normalisation
    of the specification would change is not normalized; the health
    generator removes the text "Device_" from it; the retail generator
    lowercases the region, writes a hyphen for each space and "and" for
    each ampersand, leaves every other character in place, and appends
    -store-N with N in 1..3, emitting an identifier for every row of a
    table of up to 20000 rows. *)
Theorem device_id_formats :
(forall plot_ids,
    List.length (Agriculture.create_device_ids plot_ids) = List.length plot_ids /\
    forall i key,
      nth_error plot_ids i = Some key ->
      nth_error (Agriculture.create_device_ids plot_ids) i
      = Some ("did:lcore:agri-" ++ key)%string) /\
(forall key,
    spec_normalize key <> key ->
    Agriculture.device_id key <> ("did:lcore:agri-" ++ spec_normalize key)%string) /\
(forall Device_ID,
    List.length (Health.convert_device_ids Device_ID) = List.length Device_ID /\
    forall i x,
      nth_error Device_ID i = Some x ->
      nth_error (Health.convert_device_ids Device_ID) i
      = Some ("did:lcore:health-tracker-" ++ replace "Device_" "" x)%string) /\
(forall d,
    all (fun c => negb (Ascii.eqb c "D")) d = true ->
    Health.device_id ("Device_" ++ d)
    = ("did:lcore:health-tracker-" ++ d)%string /\
    Health.device_id d = ("did:lcore:health-tracker-" ++ d)%string) /\
(forall fuel store_region st,
    (16 <= fuel)%nat -> Z.of_nat (List.length store_region) <= 20000 ->
    exists ids st',
      Retail.create_retail_device_ids fuel store_region st = Some (ids, st') /\
      Forall2 (fun region id =>
                 exists n, 1 <= n <= 3 /\
                           id = ("did:lcore:retail-"
                                   ++ flat_map clean_char region
                                   ++ "-store-" ++ str_int n)%string)
              store_region ids) /\
(forall region,
    Retail.region_clean region = flat_map clean_char region /\
    all (fun c => negb (is_upper c || Ascii.eqb c " " || Ascii.eqb c "&"))
        (Retail.region_clean region) = true).
Proof.
split; [|split; [|split; [|split; [|split]]]].
- intros plot_ids. unfold Agriculture.create_device_ids.
  split; [apply length_map|]. intros i key Hi.
  now rewrite nth_error_map, Hi.
- intros key Hk E. apply Hk. symmetry.
  unfold Agriculture.device_id in E. now apply append_inj_prefix in E.
- intros Device_ID. unfold Health.convert_device_ids.
  split; [apply length_map|]. intros i x Hi.
  now rewrite nth_error_map, Hi.
- exact health_device_id_of.
- intros fuel regions st Hf Hn.
  destruct (retail_run_returns fuel regions st Hf Hn) as (ids & st' & E & F).
  exists ids, st'. split; [exact E|].
  eapply Forall2_impl; [|exact F]. cbv beta.
  intros region id (n & Hr & ->). exists n. split; [exact Hr|].
  now rewrite region_clean_chars.
- intros region. rewrite region_clean_chars. split; [reflexivity|].
  apply all_flat_map, clean_char_safe.
Qed.

Lemma device_id_formats_witness :
(nth_error ["R1"; "r2"]%string 0 = Some "R1"%string /\
 nth_error (Agriculture.create_device_ids ["R1"; "r2"]%string) 0
 = Some "did:lcore:agri-R1"%string) /\
(spec_normalize "Plot 7" <> "Plot 7"%string /\
 Agriculture.device_id "Plot 7" <> "did:lcore:agri-plot-7"%string) /\
(nth_error ["Device_12"]%string 0 = Some "Device_12"%string /\
 nth_error (Health.convert_device_ids ["Device_12"]%string) 0
 = Some "did:lcore:health-tracker-12"%string) /\
(all (fun c => negb (Ascii.eqb c "D")) "12" = true /\
 Health.device_id "Device_12" = "did:lcore:health-tracker-12"%string) /\
((16 <= 16)%nat /\
 Z.of_nat (List.length ["Power & Light District"; "Westport"; "Westport"]%string)
 <= 20000 /\
 exists ids st',
   Retail.create_retail_device_ids 16
     ["Power & Light District"; "Westport"; "Westport"]%string
     (MT19937.init_genrand 5) = Some (ids, st') /\
   Forall2 (fun region id =>
              exists n, 1 <= n <= 3 /\
                        id = ("did:lcore:retail-" ++ flat_map clean_char region
                                ++ "-store-" ++ str_int n)%string)
           ["Power & Light District"; "Westport"; "Westport"]%string ids).
Proof.
destruct device_id_formats as (A & N & H & D & R & _).
split; [|split; [|split; [|split]]].
- split; [reflexivity|].
  exact (proj2 (A ["R1"; "r2"]%string) 0%nat "R1"%string eq_refl).
- assert (S7 : spec_normalize "Plot 7" <> "Plot 7"%string) by discriminate.
  split; [exact S7 | exact (N "Plot 7"%string S7)].
- split; [reflexivity|].
  exact (proj2 (H ["Device_12"]%string) 0%nat "Device_12"%string eq_refl).
- split; [reflexivity|].
  destruct (D "12"%string eq_refl) as [E _]. exact E.
- assert (F16 : (16 <= 16)%nat) by lia.
  assert (L : Z.of_nat (List.length ["Power & Light District"; "Westport";
                                     "Westport"]%string) <= 20000)
    by (cbn; lia).
  split; [exact F16|]. split; [exact L|].
  exact (R 16%nat _ (MT19937.init_genrand 5) F16 L).
Defined.

End Identity.

(** ** Loading *)

Module Loading.

(** C9, the claim as stated fails: on a Latin-1 file that is not UTF-8
    the network loader makes its one UTF-8 read and aborts on the
    decoding error, although both legacy encodings read the file; the
    retail loader, which has the chain, recovers. *)
Lemma network_load_has_no_fallback :
Network.load_dataset latin1_file = ([utf_8], Raise UnicodeDecodeError) /\
is_ok (latin1_file latin_1) = true /\
is_ok (latin1_file cp1252) = true /\
Retail.load_dataset latin1_file = ([utf_8; latin_1], latin1_file latin_1) /\
fst (Network.load_dataset latin1_file) = [utf_8] /\
is_ok (snd (Retail.load_dataset latin1_file)) = true.
Proof. repeat split. Qed.

(** C9, amended.  The load steps of the retail script and of the water
    data of the environmental script try UTF-8, then latin-1, then cp1252,
    in that order: latin-1 only after a decoding error of the UTF-8 read,
    cp1252 only after a failure of the latin-1 read, and the step stops at
    the first read that succeeds.  They abort when the UTF-8 read fails
    with another error, or when all three reads have failed.  The load
    steps of the network, weather, health and agriculture scripts and of
    the air data read as UTF-8 only and abort on its first error. *)
Theorem load_fallback_chain (T : Type) (read : encoding -> outcome T) :
  (forall df, read utf_8 = Ok df ->
              Retail.load_dataset read = ([utf_8], Ok df)) /\
  (forall e, read utf_8 = Raise e -> e <> UnicodeDecodeError ->
             Retail.load_dataset read = ([utf_8], Raise e)) /\
  (forall df, read utf_8 = Raise UnicodeDecodeError -> read latin_1 = Ok df ->
              Retail.load_dataset read = ([utf_8; latin_1], Ok df)) /\
  (forall e, read utf_8 = Raise UnicodeDecodeError -> read latin_1 = Raise e ->
             Retail.load_dataset read
             = ([utf_8; latin_1; cp1252], read cp1252)) /\
  (forall e, snd (Retail.load_dataset read) = Raise e ->
             (read utf_8 = Raise e /\ e <> UnicodeDecodeError) \/
             (read utf_8 = Raise UnicodeDecodeError /\
              (exists e1, read latin_1 = Raise e1) /\ read cp1252 = Raise e)) /\
  (forall read_air air,
      read_air utf_8 = Ok air ->
      Environmental.load_datasets read_air read
      = ([utf_8], fst (Retail.load_dataset read),
         match snd (Retail.load_dataset read) with
         | Ok water => Ok (air, water)
         | Raise e => Raise e
         end)) /\
  (forall read_water e,
      read utf_8 = Raise e ->
      Environmental.load_datasets read read_water = ([utf_8], [], Raise e)) /\
  Network.load_dataset read = ([utf_8], read utf_8) /\
  Weather.load_dataset read = ([utf_8], read utf_8) /\
  Health.load_dataset read = ([utf_8], read utf_8) /\
  Agriculture.load_dataset read = ([utf_8], read utf_8).
Proof.
unfold Retail.load_dataset, Environmental.load_datasets.
split; [now intros df ->|].
split; [intros e -> He; destruct e; congruence|].
split; [now intros df -> ->|]. split; [now intros e -> ->|].
split; [|split; [|split; [|repeat split]]].
- intros e. destruct (read utf_8) as [df|[]] eqn:U; simpl.
  + discriminate.
  + intros [= <-]. left. split; [reflexivity | discriminate].
  + destruct (read latin_1) as [df|e1] eqn:L; simpl; [discriminate|].
    intros C. right. split; [reflexivity|]. split; [now exists e1 | exact C].
  + intros [= <-]. left. split; [reflexivity | discriminate].
  + intros [= <-]. left. split; [reflexivity | discriminate].
- intros read_air air ->.
  destruct (read utf_8) as [df|[]]; try reflexivity.
  destruct (read latin_1); reflexivity.
- now intros read_water e ->.
Qed.

Lemma load_fallback_chain_witness :
(Retail.load_dataset ascii_file = ([utf_8], ascii_file utf_8)) /\
(missing_file utf_8 = Raise FileNotFoundError /\
 FileNotFoundError <> UnicodeDecodeError /\
 Retail.load_dataset missing_file = ([utf_8], Raise FileNotFoundError)) /\
(latin1_file utf_8 = Raise UnicodeDecodeError /\
 Retail.load_dataset latin1_file = ([utf_8; latin_1], latin1_file latin_1)) /\
(unparsable_file utf_8 = Raise UnicodeDecodeError /\
 unparsable_file latin_1 = Raise ParserError /\
 Retail.load_dataset unparsable_file
 = ([utf_8; latin_1; cp1252], Raise ParserError)) /\
(snd (Retail.load_dataset unparsable_file) = Raise ParserError /\
 unparsable_file cp1252 = Raise ParserError) /\
(Environmental.load_datasets ascii_file latin1_file
 = ([utf_8], [utf_8; latin_1],
    match ascii_file utf_8, latin1_file latin_1 with
    | Ok air, Ok water => Ok (air, water)
    | _, _ => Raise UnicodeDecodeError
    end)) /\
(Environmental.load_datasets missing_file ascii_file
 = ([utf_8], [], Raise FileNotFoundError)).
Proof.
assert (N : FileNotFoundError <> UnicodeDecodeError) by discriminate.
destruct (load_fallback_chain _ ascii_file) as (A & _ & _ & _ & _ & E & _).
destruct (load_fallback_chain _ missing_file) as (_ & M & _ & _ & _ & _ & Em & _).
destruct (load_fallback_chain _ latin1_file) as (_ & _ & L & _ & _ & El & _).
destruct (load_fallback_chain _ unparsable_file) as (_ & _ & _ & U & R & _).
split; [exact (A _ eq_refl)|].
split; [split; [reflexivity|]; split; [exact N | exact (M _ eq_refl N)]|].
split; [split; [reflexivity | exact (L _ eq_refl eq_refl)]|].
split; [split; [reflexivity|]; split; [reflexivity | exact (U _ eq_refl eq_refl)]|].
split.
- split; [reflexivity|].
  destruct (R ParserError eq_refl) as [[C _]|(_ & _ & C)]; [discriminate C | exact C].
- split; [exact (El ascii_file _ eq_refl) | exact (Em ascii_file _ eq_refl)].
Defined.

End Loading.

(** ** Dropping columns *)

Module DropFacts.

Lemma select_nil {A} (mask : list bool) : @select A mask [] = [].
Proof. destruct mask as [|[] mask]; reflexivity. Qed.

Lemma existsb_eqb_In (name : string) (l : list string) :
  existsb (String.eqb name) l = true <-> In name l.
Proof.
  rewrite existsb_exists. split.
  - intros (x & I & E). apply String.eqb_eq in E. now subst.
  - intros I. exists name. split; [exact I | apply String.eqb_refl].
Qed.

Lemma existsb_eqb_not_In (name : string) (l : list string) :
  existsb (String.eqb name) l = false <-> ~ In name l.
Proof.
  rewrite <- existsb_eqb_In. destruct (existsb _ l); split; intros H;
    try discriminate; try reflexivity; try (intros E; discriminate).
  now destruct H.
Qed.

Lemma select_keep_mask (labels cols : list string) :
  select (keep_mask labels cols) cols
  = List.filter (fun c => negb (existsb (String.eqb c) labels)) cols.
Proof.
  induction cols as [|c cols IH]; [reflexivity|].
  cbn [keep_mask List.map select List.filter]. fold (keep_mask labels cols).
  rewrite IH. destruct (negb _); reflexivity.
Qed.

(** A column that is not dropped is found again, with the same values. *)
Lemma column_index_select (labels : list string) (name : string)
      (cols : list string) :
  existsb (String.eqb name) labels = false ->
  match column_index name cols with
  | Some j =>
      exists j',
        column_index name (select (keep_mask labels cols) cols) = Some j'
        /\ forall r : list value,
             nth j' (select (keep_mask labels cols) r) VNaN = nth j r VNaN
  | None => column_index name (select (keep_mask labels cols) cols) = None
  end.
Proof.
  intros K. induction cols as [|c cols IH]; [reflexivity|].
  cbn [column_index keep_mask List.map].
  destruct (String.eqb c name) eqn:E.
  - apply String.eqb_eq in E. subst c. rewrite K. cbn.
    rewrite String.eqb_refl. exists O. split; [reflexivity|].
    intros [|x r]; reflexivity.
  - destruct (negb (existsb (String.eqb c) labels)) eqn:M.
    + cbn [select column_index]. rewrite E.
      destruct (column_index name cols) as [j|].
      * destruct IH as (j' & C & V). exists (S j'). split.
        -- fold (keep_mask labels cols). rewrite C. reflexivity.
        -- intros [|x r]; [reflexivity|]. cbn. apply V.
      * fold (keep_mask labels cols). rewrite IH. reflexivity.
    + cbn [select option_map]. fold (keep_mask labels cols).
      destruct (column_index name cols) as [j|].
      * destruct IH as (j' & C & V). exists j'. split; [exact C|].
        intros [|x r]; cbn; [now destruct j' | apply V].
      * exact IH.
Qed.

Lemma getitem_drop_ignore (df : DataFrame) (labels : list string)
      (name : string) :
  existsb (String.eqb name) labels = false ->
  getitem (drop_ignore df labels) name = getitem df name.
Proof.
  intros K. unfold getitem, drop_ignore. cbn [columns rows].
  pose proof (column_index_select labels name (columns df) K) as H.
  destruct (column_index name (columns df)) as [j|].
  - destruct H as (j' & C & V). rewrite C. f_equal.
    rewrite map_map. apply map_ext. intros r. apply V.
  - rewrite H. reflexivity.
Qed.

Lemma len_drop_ignore (df : DataFrame) (labels : list string) :
  len (drop_ignore df labels) = len df.
Proof. unfold len, drop_ignore. cbn. apply length_map. Qed.

Lemma has_column_drop_ignore (df : DataFrame) (labels : list string)
      (name : string) :
  has_column (drop_ignore df labels) name
  = has_column df name && negb (existsb (String.eqb name) labels).
Proof.
  unfold has_column, drop_ignore. cbn [columns].
  rewrite select_keep_mask.
  destruct (existsb (String.eqb name) labels) eqn:K; cbn [negb].
  - rewrite andb_false_r.
    induction (columns df) as [|c cols IH]; [reflexivity|].
    cbn [List.filter]. destruct (negb (existsb (String.eqb c) labels)) eqn:M;
      [|exact IH].
    cbn [existsb]. rewrite IH, orb_false_r.
    destruct (String.eqb name c) eqn:E; [|reflexivity].
    apply String.eqb_eq in E. subst c. now rewrite K in M.
  - rewrite andb_true_r.
    induction (columns df) as [|c cols IH]; [reflexivity|].
    cbn [List.filter]. destruct (negb (existsb (String.eqb c) labels)) eqn:M.
    + cbn [existsb]. now rewrite IH.
    + cbn [existsb]. rewrite IH.
      destruct (String.eqb name c) eqn:E; [|reflexivity].
      apply String.eqb_eq in E. subst c. now rewrite K in M.
Qed.

Lemma drop_Some (df : DataFrame) (labels : list string) :
  forallb (has_column df) labels = true ->
  drop df labels = Some (drop_ignore df labels).
Proof. intros H. unfold drop. rewrite H. reflexivity. Qed.

Lemma drop_None (df : DataFrame) (labels : list string) :
  forallb (has_column df) labels = false -> drop df labels = None.
Proof. intros H. unfold drop. rewrite H. reflexivity. Qed.

Lemma removed_drop_ignore (labels : list string) (df : DataFrame) :
  removed labels df (drop_ignore df labels).
Proof.
  split; [apply len_drop_ignore|]. split.
  - intros name. apply has_column_drop_ignore.
  - intros name. apply getitem_drop_ignore.
Qed.

Lemma removed_nothing (df : DataFrame) : removed [] df df.
Proof.
  split; [reflexivity|]. split; intros name; [|reflexivity].
  cbn. now rewrite andb_true_r.
Qed.

Lemma removed_absent (col : string) (labels : list string)
      (df out : DataFrame) :
  has_column df col = false -> removed labels df out ->
  removed (col :: labels) df out.
Proof.
  intros A (L & H & G). split; [exact L|]. split.
  - intros name. rewrite H. cbn. destruct (String.eqb name col) eqn:E; cbn.
    + apply String.eqb_eq in E. subst. rewrite A. reflexivity.
    + reflexivity.
  - intros name K. cbn in K. apply orb_false_iff in K. now apply G.
Qed.

Lemma removed_step (col : string) (labels : list string)
      (df out : DataFrame) :
  removed labels (drop_ignore df [col]) out ->
  removed (col :: labels) df out.
Proof.
  intros (L & H & G). split; [now rewrite L, len_drop_ignore|]. split.
  - intros name. rewrite H, has_column_drop_ignore. cbn.
    rewrite orb_false_r, negb_orb, andb_assoc. reflexivity.
  - intros name K. cbn in K. apply orb_false_iff in K. destruct K as [K1 K2].
    rewrite (G name K2). apply getitem_drop_ignore. cbn. now rewrite K1.
Qed.

(** The loop of guarded drops never raises. *)
Lemma drop_each_present_removed (labels : list string) (df : DataFrame) :
  exists out, drop_each_present labels df = Some out /\ removed labels df out.
Proof.
  revert df. induction labels as [|col labels IH]; intros df.
  - exists df. split; [reflexivity | apply removed_nothing].
  - cbn [drop_each_present]. destruct (has_column df col) eqn:A.
    + rewrite drop_Some by (cbn; now rewrite A). cbn [obind].
      destruct (IH (drop_ignore df [col])) as (out & E & R).
      exists out. split; [exact E | now apply removed_step].
    + destruct (IH df) as (out & E & R).
      exists out. split; [exact E | now apply removed_absent].
Qed.

Lemma guarded_drop_removed (col : string) (df : DataFrame) :
  exists out,
    (if has_column df col then drop df [col] else Some df) = Some out
    /\ removed [col] df out.
Proof.
  destruct (drop_each_present_removed [col] df) as (out & E & R).
  exists out. split; [|exact R].
  cbn in E. destruct (has_column df col); [|exact E].
  destruct (drop df [col]); exact E.
Qed.

(** X1 (network_performance_parsing.py remove_user_ids,
    health_privacy_protection.py remove_location_data): on every working
    table the step returns a table, never an error; the table returned has
    no column [User_ID] (resp. [Location]), has the rows of the input, and
    every other column reads as before. *)
Theorem guarded_drop_removes_private_column (raw_data : DataFrame) :
  (exists out,
      Network.remove_user_ids raw_data = Some out
      /\ has_column out "User_ID" = false
      /\ len out = len raw_data
      /\ (forall name, name <> "User_ID" ->
                       has_column out name = has_column raw_data name
                       /\ getitem out name = getitem raw_data name))
  /\ (exists out,
         Health.remove_location_data raw_data = Some out
         /\ has_column out "Location" = false
         /\ len out = len raw_data
         /\ (forall name, name <> "Location" ->
                          has_column out name = has_column raw_data name
                          /\ getitem out name = getitem raw_data name)).
Proof.
  split.
  - destruct (guarded_drop_removed "User_ID" raw_data) as (out & E & L & H & G).
    exists out. split; [exact E|]. split; [|split; [exact L|]].
    + rewrite H. apply andb_false_r.
    + intros name N. apply String.eqb_neq in N.
      split; [rewrite H|apply G]; cbn; rewrite N; [apply andb_true_r|reflexivity].
  - destruct (guarded_drop_removed "Location" raw_data) as (out & E & L & H & G).
    exists out. split; [exact E|]. split; [|split; [exact L|]].
    + rewrite H. apply andb_false_r.
    + intros name N. apply String.eqb_neq in N.
      split; [rewrite H|apply G]; cbn; rewrite N; [apply andb_true_r|reflexivity].
Qed.

(** X2 (retail_pii_anonymization.py remove_all_pii,
    weather_unit_conversion.py remove_location_identifiers): the loop of
    guarded drops returns a table on every input; none of the six customer
    columns (resp. of [name] and [stations]) is left in it, the rows are
    those of the input, and a column outside the list is present exactly
    when it was and reads as before. *)
Theorem pii_removal_loops (raw_data : DataFrame) :
  (exists out,
      Retail.remove_all_pii raw_data = Some out
      /\ (forall col, In col Retail.pii_columns_to_remove ->
                      has_column out col = false)
      /\ len out = len raw_data
      /\ (forall name, ~ In name Retail.pii_columns_to_remove ->
                       has_column out name = has_column raw_data name
                       /\ getitem out name = getitem raw_data name))
  /\ (exists out,
         Weather.remove_location_identifiers raw_data = Some out
         /\ (forall col, In col Weather.privacy_fields ->
                         has_column out col = false)
         /\ len out = len raw_data
         /\ (forall name, ~ In name Weather.privacy_fields ->
                          has_column out name = has_column raw_data name
                          /\ getitem out name = getitem raw_data name)).
Proof.
  split.
  - destruct (drop_each_present_removed Retail.pii_columns_to_remove raw_data)
      as (out & E & L & H & G).
    exists out. split; [exact E|]. split; [|split; [exact L|]].
    + intros col I. apply existsb_eqb_In in I. rewrite H, I. apply andb_false_r.
    + intros name N. apply existsb_eqb_not_In in N.
      split; [rewrite H, N; apply andb_true_r | now apply G].
  - destruct (drop_each_present_removed Weather.privacy_fields raw_data)
      as (out & E & L & H & G).
    exists out. split; [exact E|]. split; [|split; [exact L|]].
    + intros col I. apply existsb_eqb_In in I. rewrite H, I. apply andb_false_r.
    + intros name N. apply existsb_eqb_not_In in N.
      split; [rewrite H, N; apply andb_true_r | now apply G].
Qed.

Lemma existsb_filter_present (df : DataFrame) (labels : list string)
      (name : string) :
  existsb (String.eqb name) (List.filter (has_column df) labels)
  = existsb (String.eqb name) labels && has_column df name.
Proof.
  induction labels as [|l labels IH]; [reflexivity|].
  cbn [List.filter]. destruct (has_column df l) eqn:A; cbn [existsb];
    rewrite IH; (destruct (String.eqb name l) eqn:E; [|reflexivity]);
    apply String.eqb_eq in E; subst l; rewrite A; cbn;
    [reflexivity | now rewrite andb_false_r].
Qed.

Lemma removed_existing (labels : list string) (df : DataFrame) :
  removed labels df (drop_ignore df (List.filter (has_column df) labels)).
Proof.
  destruct (removed_drop_ignore (List.filter (has_column df) labels) df)
    as (L & H & G).
  split; [exact L|]. split.
  - intros name. rewrite H, existsb_filter_present.
    destruct (has_column df name), (existsb (String.eqb name) labels);
      reflexivity.
  - intros name K. apply G. rewrite existsb_filter_present, K. reflexivity.
Qed.

Lemma removed_none_present (labels : list string) (df : DataFrame) :
  List.filter (has_column df) labels = [] -> removed labels df df.
Proof.
  induction labels as [|l labels IH]; intros F; [apply removed_nothing|].
  cbn in F. destruct (has_column df l) eqn:A; [discriminate|].
  apply removed_absent; auto.
Qed.

Lemma forallb_filter_true {A} (p : A -> bool) (l : list A) :
  forallb p (List.filter p l) = true.
Proof.
  induction l as [|x l IH]; [reflexivity|].
  cbn. destruct (p x) eqn:E; cbn; [rewrite E|]; exact IH.
Qed.

Lemma forallb_false_exists {A} (p : A -> bool) (l : list A) :
  forallb p l = false -> exists x, In x l /\ p x = false.
Proof.
  induction l as [|x l IH]; [discriminate|]. cbn.
  destruct (p x) eqn:E; cbn.
  - intros H. destruct (IH H) as (y & I & N). exists y. auto.
  - intros _. exists x. auto.
Qed.

Lemma removed_facts (labels : list string) (df out : DataFrame) :
  removed labels df out ->
  (forall col, In col labels -> has_column out col = false)
  /\ len out = len df
  /\ (forall name, ~ In name labels ->
                   has_column out name = has_column df name
                   /\ getitem out name = getitem df name).
Proof.
  intros (L & H & G). split; [|split; [exact L|]].
  - intros col I. apply existsb_eqb_In in I. rewrite H, I. apply andb_false_r.
  - intros name N. apply existsb_eqb_not_In in N.
    split; [rewrite H, N; apply andb_true_r | now apply G].
Qed.

(** X3 (environmental_fusion.py remove_pii_data): the four personal
    columns of the air data are dropped without a guard, so the step fails
    (KeyError) exactly when the air data lack one of them; the two
    technical columns of the water data are dropped where they exist and
    never make it fail.  When it succeeds, none of the listed columns is
    left, both tables keep their rows, and every other column reads as
    before. *)
Theorem environmental_pii_removal (air_data water_data : DataFrame) :
  (Environmental.remove_pii_data air_data water_data = None
   <-> exists col, In col Environmental.pii_columns
                   /\ has_column air_data col = false)
  /\ (forall air water,
        Environmental.remove_pii_data air_data water_data = Some (air, water) ->
        (forall col, In col Environmental.pii_columns ->
                     has_column air col = false)
        /\ (forall col, In col Environmental.water_discard ->
                        has_column water col = false)
        /\ len air = len air_data /\ len water = len water_data
        /\ (forall name, ~ In name Environmental.pii_columns ->
                         getitem air name = getitem air_data name)
        /\ (forall name, ~ In name Environmental.water_discard ->
                         getitem water name = getitem water_data name)).
Proof.
  assert (W : exists water,
             match List.filter (has_column water_data)
                               Environmental.water_discard with
             | [] => Some water_data
             | _ => drop water_data
                         (List.filter (has_column water_data)
                                      Environmental.water_discard)
             end = Some water
             /\ removed Environmental.water_discard water_data water).
  { destruct (List.filter (has_column water_data) Environmental.water_discard)
      as [|l ls] eqn:F.
    - exists water_data. split; [reflexivity|]. now apply removed_none_present.
    - exists (drop_ignore water_data (l :: ls)). split.
      + apply drop_Some. rewrite <- F. apply forallb_filter_true.
      + rewrite <- F. apply removed_existing. }
  destruct W as (water' & EW & RW).
  unfold Environmental.remove_pii_data.
  destruct (forallb (has_column air_data) Environmental.pii_columns) eqn:A.
  - rewrite (drop_Some _ _ A). cbn [obind]. rewrite EW. cbn [obind]. split.
    + split; [discriminate|]. intros (col & I & N).
      rewrite forallb_forall in A. rewrite (A col I) in N. discriminate.
    + intros air water [= <- <-].
      destruct (removed_facts _ _ _ (removed_drop_ignore
                                       Environmental.pii_columns air_data))
        as (A1 & A2 & A3).
      destruct (removed_facts _ _ _ RW) as (W1 & W2 & W3).
      split; [exact A1|]. split; [exact W1|]. split; [exact A2|].
      split; [exact W2|]. split; intros name N; [apply A3|apply W3]; exact N.
  - rewrite (drop_None _ _ A). cbn [obind]. split; [|discriminate].
    split; [|reflexivity]. intros _.
    destruct (forallb_false_exists (has_column air_data)
                                   Environmental.pii_columns A) as (col & I & N).
    now exists col.
Qed.

Lemma environmental_pii_removal_witness :
  exists air water,
    Environmental.remove_pii_data
      {| columns := ["location_id"; "stress_level"; "sleep_hours";
                     "mood_score"; "mental_health_status"];
         rows := [[VInt 101; VInt 3; VInt 7; VInt 5; VStr "ok"]] |}
      {| columns := ["pH"; "Fecal Coliform (MPN/100ml)"];
         rows := [[VInt 7; VInt 2]] |}
    = Some (air, water)
    /\ getitem air "location_id" = Some [VInt 101]
    /\ has_column air "mood_score" = false
    /\ getitem water "pH" = Some [VInt 7].
Proof.
  eexists. eexists. split; [reflexivity|].
  match goal with
  | |- getitem ?a _ = _ /\ _ /\ getitem ?w _ = _ =>
      destruct (environmental_pii_removal
                  {| columns := ["location_id"; "stress_level"; "sleep_hours";
                                 "mood_score"; "mental_health_status"];
                     rows := [[VInt 101; VInt 3; VInt 7; VInt 5; VStr "ok"]] |}
                  {| columns := ["pH"; "Fecal Coliform (MPN/100ml)"];
                     rows := [[VInt 7; VInt 2]] |}) as (_ & H);
      destruct (H a w eq_refl) as (A1 & _ & _ & _ & A3 & W3)
  end.
  split; [|split].
  - rewrite A3; [reflexivity|]. cbn. intuition discriminate.
  - apply A1. cbn. tauto.
  - rewrite W3; [reflexivity|]. cbn. intuition discriminate.
Defined.

(** X4 (create_schema_compliant_format after remove_user_ids,
    remove_location_data, remove_all_pii and remove_location_identifiers):
    the output table does not depend on the private columns: mapping the
    table left by the removal step gives the result of mapping the table
    as loaded, a missing-column error included. *)
Theorem schema_mapper_ignores_private_columns (raw_data : DataFrame) :
  (out <- Network.remove_user_ids raw_data ;;
   Network.create_schema_compliant_format out)
  = Network.create_schema_compliant_format raw_data
  /\ (out <- Health.remove_location_data raw_data ;;
      Health.create_schema_compliant_format out)
     = Health.create_schema_compliant_format raw_data
  /\ (out <- Retail.remove_all_pii raw_data ;;
      Retail.create_schema_compliant_format out)
     = Retail.create_schema_compliant_format raw_data
  /\ (out <- Weather.remove_location_identifiers raw_data ;;
      Weather.create_schema_compliant_format out)
     = Weather.create_schema_compliant_format raw_data.
Proof.
  split; [|split; [|split]].
  - destruct (guarded_drop_removed "User_ID" raw_data) as (out & E & _ & _ & G).
    unfold Network.remove_user_ids. rewrite E. cbn [obind].
    unfold Network.create_schema_compliant_format.
    rewrite !G by reflexivity. reflexivity.
  - destruct (guarded_drop_removed "Location" raw_data) as (out & E & _ & _ & G).
    unfold Health.remove_location_data. rewrite E. cbn [obind].
    unfold Health.create_schema_compliant_format.
    rewrite !G by reflexivity. reflexivity.
  - destruct (drop_each_present_removed Retail.pii_columns_to_remove raw_data)
      as (out & E & _ & _ & G).
    unfold Retail.remove_all_pii. rewrite E. cbn [obind].
    unfold Retail.create_schema_compliant_format.
    rewrite !G by reflexivity. reflexivity.
  - destruct (drop_each_present_removed Weather.privacy_fields raw_data)
      as (out & E & _ & _ & G).
    unfold Weather.remove_location_identifiers. rewrite E. cbn [obind].
    unfold Weather.create_schema_compliant_format, get.
    rewrite !G by reflexivity. reflexivity.
Qed.

End DropFacts.

(** ** Dicts *)

Module DictFacts.

Lemma dict_get_set {V} (d : dict V) (k k' : string) (v : V) :
  dict_get (dict_set d k v) k'
  = if String.eqb k k' then Some v else dict_get d k'.
Proof.
  induction d as [|[k0 v0] d IH]; cbn.
  - reflexivity.
  - destruct (String.eqb k0 k) eqn:E0; cbn.
    + apply String.eqb_eq in E0. subst k0.
      destruct (String.eqb k k'); reflexivity.
    + rewrite IH. destruct (String.eqb k0 k') eqn:E1; [|reflexivity].
      apply String.eqb_eq in E1. subst k0. now rewrite String.eqb_sym, E0.
Qed.

Lemma dict_set_absent {V} (d : dict V) (k : string) (v : V) :
  dict_get d k = None -> dict_set d k v = (d ++ [(k, v)])%list.
Proof.
  induction d as [|[k0 v0] d IH]; cbn; [reflexivity|].
  destruct (String.eqb k0 k); [discriminate|]. intros H. now rewrite IH.
Qed.

Lemma dict_get_app {V} (d e : dict V) (k : string) :
  dict_get (d ++ e)%list k
  = match dict_get d k with Some v => Some v | None => dict_get e k end.
Proof.
  induction d as [|[k0 v0] d IH]; cbn; [reflexivity|].
  destruct (String.eqb k0 k); [reflexivity | exact IH].
Qed.

End DictFacts.

(** ** Identifiers assigned in turn, and told apart *)

Module Identifiers.
Import TextFacts.
Local Open Scope Z_scope.

Lemma nth_error_map_seq {B} (f : nat -> B) (n i : nat) :
  nth_error (List.map f (seq 0 n)) i = if (i <? n)%nat then Some (f i) else None.
Proof.
  rewrite nth_error_map.
  destruct (i <? n)%nat eqn:L.
  - apply Nat.ltb_lt in L. rewrite nth_error_nth' with (d := O)
      by (rewrite length_seq; lia).
    rewrite seq_nth by lia. reflexivity.
  - apply Nat.ltb_ge in L.
    assert (E : nth_error (seq 0 n) i = None)
      by (apply nth_error_None; rewrite length_seq; lia).
    rewrite E. reflexivity.
Qed.

Lemma some_inj {A} (x y : A) : Some x = Some y -> x = y.
Proof. intros H. now injection H. Qed.

Lemma mod5_cases (i : Z) :
  i mod 5 = 0 \/ i mod 5 = 1 \/ i mod 5 = 2 \/ i mod 5 = 3 \/ i mod 5 = 4.
Proof. pose proof (Z.mod_pos_bound i 5 eq_refl). lia. Qed.

Lemma station_device_id_inj (i j : nat) :
  Weather.station_device_id i = Weather.station_device_id j
  <-> (i mod 5 = j mod 5)%nat.
Proof.
  unfold Weather.station_device_id, Weather.num_stations. cbv zeta.
  change 5 with (Z.of_nat 5). rewrite <- !Nat2Z.inj_mod. split.
  - intros E. apply append_inj_prefix, str_int_inj in E. lia.
  - intros ->. reflexivity.
Qed.

Lemma station_device_id_in (i : nat) :
  In (Weather.station_device_id i) weather_stations.
Proof.
  unfold Weather.station_device_id, Weather.num_stations. cbv zeta.
  destruct (mod5_cases (Z.of_nat i)) as [-> | [-> | [-> | [-> | ->]]]];
    vm_compute; tauto.
Qed.

(** X5 (weather_unit_conversion.py create_weather_station_device_ids):
    one identifier per row, each one of the five station identifiers; two
    rows share a station exactly when their positions are congruent modulo
    5; with five rows or more every station is used. *)
Theorem weather_stations_round_robin (raw_data : DataFrame) :
  let ids := Weather.create_weather_station_device_ids raw_data in
  List.length ids = len raw_data
  /\ (forall id, In id ids -> In id weather_stations)
  /\ (forall i j a b,
         nth_error ids i = Some a -> nth_error ids j = Some b ->
         (a = b <-> (i mod 5 = j mod 5)%nat))
  /\ ((5 <= len raw_data)%nat ->
      forall id, In id weather_stations -> In id ids).
Proof.
  cbv zeta. unfold Weather.create_weather_station_device_ids.
  split; [now rewrite length_map, length_seq|]. split; [|split].
  - intros id I. apply in_map_iff in I. destruct I as (i & <- & _).
    apply station_device_id_in.
  - intros i j a b. rewrite !nth_error_map_seq.
    destruct (i <? len raw_data)%nat; [|discriminate].
    destruct (j <? len raw_data)%nat; [|discriminate].
    intros [= <-] [= <-]. apply station_device_id_inj.
  - intros L id I. apply in_map_iff.
    cbn in I.
    destruct I as [<- | [<- | [<- | [<- | [<- | []]]]]];
      [exists 0%nat | exists 1%nat | exists 2%nat | exists 3%nat | exists 4%nat];
      (split; [reflexivity | apply in_seq; lia]).
Qed.

Lemma weather_stations_round_robin_witness :
  (5 <= len {| columns := ["temp"];
               rows := [[VInt 50]; [VInt 51]; [VInt 52]; [VInt 53];
                        [VInt 54]; [VInt 55]] |})%nat
  /\ In "did:lcore:weather-station-oakland-5"
        (Weather.create_weather_station_device_ids
           {| columns := ["temp"];
              rows := [[VInt 50]; [VInt 51]; [VInt 52]; [VInt 53];
                       [VInt 54]; [VInt 55]] |}).
Proof.
  assert (L : (5 <= len {| columns := ["temp"];
                           rows := [[VInt 50]; [VInt 51]; [VInt 52];
                                    [VInt 53]; [VInt 54]; [VInt 55]] |})%nat)
    by (cbn; lia).
  split; [exact L|].
  destruct (weather_stations_round_robin
              {| columns := ["temp"];
                 rows := [[VInt 50]; [VInt 51]; [VInt 52]; [VInt 53];
                          [VInt 54]; [VInt 55]] |}) as (_ & _ & _ & A).
  apply (A L). cbn. tauto.
Defined.

Lemma clean_char_idempotent (c : ascii) :
  Str.flat_map clean_char (clean_char c) = clean_char c.
Proof. destruct c as [[] [] [] [] [] [] [] []]; reflexivity. Qed.

Lemma region_clean_idempotent (region : string) :
  Retail.region_clean (Retail.region_clean region) = Retail.region_clean region.
Proof.
  rewrite !PyStrFacts.region_clean_chars, PyStrFacts.flat_map_flat_map.
  apply PyStrFacts.flat_map_ext. intros c. apply clean_char_idempotent.
Qed.

Lemma store_number_length (n : Z) :
  1 <= n <= 3 -> String.length (str_int n) = 1%nat.
Proof.
  intros H. assert (C : n = 1 \/ n = 2 \/ n = 3) by lia.
  destruct C as [-> | [-> | ->]]; reflexivity.
Qed.

(** X8 (retail_pii_anonymization.py create_store_device_id): cleaning a
    region name is idempotent; the identifier depends on the region only
    through its cleaned name; and two identifiers are equal only when the
    cleaned names of their regions are.  So the identifiers tell apart
    exactly the regions whose cleaned names differ. *)
Theorem retail_ids_identify_cleaned_region :
  (forall region,
      Retail.region_clean (Retail.region_clean region)
      = Retail.region_clean region)
  /\ (forall fuel r1 r2 st,
         Retail.region_clean r1 = Retail.region_clean r2 ->
         Retail.create_store_device_id fuel r1 st
         = Retail.create_store_device_id fuel r2 st)
  /\ (forall fuel1 fuel2 r1 r2 st1 st2 id st1' st2',
         Retail.create_store_device_id fuel1 r1 st1 = Some (id, st1') ->
         Retail.create_store_device_id fuel2 r2 st2 = Some (id, st2') ->
         Retail.region_clean r1 = Retail.region_clean r2).
Proof.
  split; [apply region_clean_idempotent|]. split.
  - intros fuel r1 r2 st E. unfold Retail.create_store_device_id.
    now rewrite E.
  - intros fuel1 fuel2 r1 r2 st1 st2 id st1' st2' E1 E2.
    apply Identity.create_store_device_id_form in E1, E2.
    destruct E1 as (n1 & B1 & ->). destruct E2 as (n2 & B2 & E).
    apply append_inj_prefix in E.
    apply append_inj_suffix in E; [tauto|].
    rewrite !StrFacts.length_append.
    rewrite (store_number_length n1 B1), (store_number_length n2 B2).
    reflexivity.
Qed.

Lemma retail_ids_identify_cleaned_region_witness :
  Retail.region_clean "Power & Light District"
  = Retail.region_clean "power-and-light-district"
  /\ Retail.create_store_device_id
       8 "Power & Light District" (Random.seed 42 (MT19937.init_genrand 0))
     = Retail.create_store_device_id
         8 "power-and-light-district" (Random.seed 42 (MT19937.init_genrand 0)).
Proof.
  assert (E : Retail.region_clean "Power & Light District"
              = Retail.region_clean "power-and-light-district")
    by (vm_compute; reflexivity).
  split; [exact E|].
  destruct retail_ids_identify_cleaned_region as (_ & S & _).
  exact (S 8%nat _ _ _ E).
Defined.

Lemma air_water_distinct (a b : Z) :
  Environmental.air_device_id a <> Environmental.water_device_id b.
Proof.
  unfold Environmental.air_device_id, Environmental.water_device_id.
  intros E. apply append_inj_prefix in E.
  change (str_int b ++ "-water")%string
    with (str_int b ++ ("-w" ++ "ater"))%string in E.
  rewrite <- StrFacts.append_assoc in E.
  apply append_inj_suffix in E; [|reflexivity].
  destruct E as [_ E]. discriminate.
Qed.

Lemma air_device_id_inj (a b : Z) :
  Environmental.air_device_id a = Environmental.air_device_id b -> a = b.
Proof.
  unfold Environmental.air_device_id. intros E.
  apply append_inj_prefix in E.
  apply append_inj_suffix in E; [|reflexivity].
  now apply str_int_inj.
Qed.

Lemma water_device_id_inj (a b : Z) :
  Environmental.water_device_id a = Environmental.water_device_id b -> a = b.
Proof.
  unfold Environmental.water_device_id. intros E.
  apply append_inj_prefix in E.
  apply append_inj_suffix in E; [|reflexivity].
  now apply str_int_inj.
Qed.

(** X10 (environmental_fusion.py create_device_ids): one identifier per
    row of each table; no identifier is shared between an air sensor and a
    water sensor; two sensors of the same kind have the same identifier
    exactly when they are at the same location. *)
Theorem environmental_device_ids_distinct
        (air_location_id water_location_id : list Z) :
  let (air_ids, water_ids) :=
    Environmental.create_device_ids air_location_id water_location_id in
  List.length air_ids = List.length air_location_id
  /\ List.length water_ids = List.length water_location_id
  /\ (forall id, In id air_ids -> ~ In id water_ids)
  /\ (forall i j a b,
         nth_error air_location_id i = Some a ->
         nth_error air_location_id j = Some b ->
         (nth_error air_ids i = nth_error air_ids j <-> a = b))
  /\ (forall i j a b,
         nth_error water_location_id i = Some a ->
         nth_error water_location_id j = Some b ->
         (nth_error water_ids i = nth_error water_ids j <-> a = b)).
Proof.
  unfold Environmental.create_device_ids.
  split; [apply length_map|]. split; [apply length_map|]. split; [|split].
  - intros id A W. apply in_map_iff in A, W.
    destruct A as (a & <- & _). destruct W as (b & E & _).
    symmetry in E. now apply air_water_distinct in E.
  - intros i j a b A B. rewrite !nth_error_map, A, B. cbn [option_map]. split.
    + intros E. apply air_device_id_inj. congruence.
    + now intros ->.
  - intros i j a b A B. rewrite !nth_error_map, A, B. cbn [option_map]. split.
    + intros E. apply water_device_id_inj. congruence.
    + now intros ->.
Qed.

Lemma environmental_device_ids_distinct_witness :
  nth_error (fst (Environmental.create_device_ids [101; 102; 101] [101])) 0
  = nth_error (fst (Environmental.create_device_ids [101; 102; 101] [101])) 2
  /\ ~ In "did:lcore:env-101-air"
         (snd (Environmental.create_device_ids [101; 102; 101] [101])).
Proof.
  pose proof (environmental_device_ids_distinct [101; 102; 101] [101]) as H.
  destruct (Environmental.create_device_ids [101; 102; 101] [101])
    as [air_ids water_ids] eqn:E.
  destruct H as (_ & _ & D & A & _).
  injection E as <- <-. cbn [fst snd]. split.
  - apply (A 0%nat 2%nat 101 101); reflexivity.
  - apply D. cbn. tauto.
Defined.

Lemma in_high (i : Z) :
  In ("did:lcore:cell-tower-" ++ ("tower-" ++ str_int (i mod 3 + 1)))%string
     high_signal_towers.
Proof.
  destruct (CellTower.mod3_cases i) as [-> | [-> | ->]]; vm_compute; tauto.
Qed.

Lemma in_medium (i : Z) :
  In ("did:lcore:cell-tower-" ++ ("tower-" ++ str_int (i mod 3 + 4)))%string
     medium_signal_towers.
Proof.
  destruct (CellTower.mod3_cases i) as [-> | [-> | ->]]; vm_compute; tauto.
Qed.

Lemma in_low (i : Z) :
  In ("did:lcore:cell-tower-" ++ ("tower-" ++ str_int (i mod 3 + 7)))%string
     low_signal_towers.
Proof.
  destruct (CellTower.mod3_cases i) as [-> | [-> | ->]]; vm_compute; tauto.
Qed.

Lemma bands_disjoint (id : string) :
  (In id high_signal_towers -> ~ In id medium_signal_towers
                               /\ ~ In id low_signal_towers)
  /\ (In id medium_signal_towers -> ~ In id low_signal_towers).
Proof.
  split.
  - intros H. cbn in H. repeat (destruct H as [<- | H]); [| | |contradiction];
      split; cbn; intuition discriminate.
  - intros H. cbn in H. repeat (destruct H as [<- | H]); [| | |contradiction];
      cbn; intuition discriminate.
Qed.

(** X9 (network_performance_parsing.py create_cell_tower_device_ids): the
    band of the tower is decided by the signal strength alone, with both
    thresholds inclusive: towers 1-3 exactly for a reading of at least
    -70 dBm, towers 4-6 exactly for a reading of at least -85 and below
    -70, towers 7-9 exactly for a reading below -85 or a missing one.
    Within the band the tower is given by the row index modulo 3. *)
Theorem cell_tower_bands (i : Z) (signal : pyfloat) :
  let id := Network.cell_tower_device_id i signal in
  (In id high_signal_towers <-> at_least (-70) signal)
  /\ (In id medium_signal_towers
      <-> at_least (-85) signal /\ below (-70) signal)
  /\ (In id low_signal_towers <-> signal = NaN \/ below (-85) signal)
  /\ (forall j, (i - j) mod 3 = 0 ->
                Network.cell_tower_device_id j signal = id).
Proof.
  cbv zeta.
  assert (M : forall j, (i - j) mod 3 = 0 -> j mod 3 = i mod 3).
  { intros j H. apply Z.mod_divide in H; [|lia]. destruct H as [k H].
    replace i with (j + k * 3) by lia. now rewrite Z.mod_add by lia. }
  assert (X : (at_least (-70) signal
               /\ In (Network.cell_tower_device_id i signal) high_signal_towers)
              \/ ((at_least (-85) signal /\ below (-70) signal)
                  /\ In (Network.cell_tower_device_id i signal)
                        medium_signal_towers)
              \/ ((signal = NaN \/ below (-85) signal)
                  /\ In (Network.cell_tower_device_id i signal)
                        low_signal_towers)).
  { unfold Network.cell_tower_device_id.
    destruct signal as [|[|]|q]; cbn [float_ge negb at_least below].
    - right. right. split; [now left | apply in_low].
    - right. right. split; [now right | apply in_low].
    - left. split; [reflexivity | apply in_high].
    - destruct (Qle_bool (-70) q) eqn:H70.
      + left. split; [|apply in_high]. now apply Qle_bool_iff.
      + assert (N70 : (q < -70)%Q).
        { apply Qnot_le_lt. intros C. apply Qle_bool_iff in C. congruence. }
        destruct (Qle_bool (-85) q) eqn:H85.
        * right. left. split; [|apply in_medium].
          split; [now apply Qle_bool_iff | exact N70].
        * right. right. split; [|apply in_low]. right.
          apply Qnot_le_lt. intros C. apply Qle_bool_iff in C. congruence. }
  assert (E1 : at_least (-70) signal ->
               at_least (-85) signal /\ below (-70) signal -> False).
  { destruct signal as [|[|]|q]; cbn [at_least below]; try tauto;
      try (intros ? [? ?]; discriminate).
    intros A [_ B]. now apply (Qlt_not_le _ _ B). }
  assert (E2 : at_least (-70) signal ->
               signal = NaN \/ below (-85) signal -> False).
  { destruct signal as [|[|]|q]; cbn [at_least below]; try tauto;
      try (intros ? [? | ?]; discriminate).
    intros A [C | B]; [discriminate|].
    apply (Qlt_not_le _ _ B). apply Qle_trans with (y := (-70)%Q);
      [discriminate | exact A]. }
  assert (E3 : at_least (-85) signal /\ below (-70) signal ->
               signal = NaN \/ below (-85) signal -> False).
  { destruct signal as [|[|]|q]; cbn [at_least below]; try tauto;
      try (intros [? ?] [? | ?]; discriminate).
    intros [A _] [C | B]; [discriminate|].
    now apply (Qlt_not_le _ _ B). }
  destruct (bands_disjoint (Network.cell_tower_device_id i signal)) as [D1 D2].
  split; [tauto|]. split; [tauto|]. split; [tauto|].
  intros j H. unfold Network.cell_tower_device_id. now rewrite (M j H).
Qed.

End Identifiers.

(** ** Water sensors assigned to the air locations *)

Module WaterSensors.
Import Identifiers.

Lemma In_unique (x : Z) (l : list Z) : In x (unique l) <-> In x l.
Proof.
  induction l as [|y l IH]; [reflexivity|]. cbn [unique].
  split.
  - intros [E | I]; [now left|]. apply filter_In in I. right. tauto.
  - intros [E | I]; [now left|].
    destruct (Z.eq_dec x y) as [E | N]; [now left|]. right.
    apply filter_In. split; [tauto|]. apply negb_true_iff. now apply Z.eqb_neq.
Qed.

Lemma NoDup_unique (l : list Z) : NoDup (unique l).
Proof.
  induction l as [|y l IH]; [constructor|]. cbn [unique]. constructor.
  - intros I. apply filter_In in I. destruct I as [_ I].
    rewrite Z.eqb_refl in I. discriminate.
  - now apply NoDup_filter.
Qed.

Lemma insert_sorted_perm (x : Z) (l : list Z) :
  Permutation (insert_sorted x l) (x :: l).
Proof.
  induction l as [|y l IH]; [reflexivity|]. cbn.
  destruct (x <=? y)%Z; [reflexivity|].
  rewrite IH. apply perm_swap.
Qed.

Lemma sorted_perm (l : list Z) : Permutation (sorted l) l.
Proof.
  induction l as [|x l IH]; [reflexivity|]. cbn.
  rewrite insert_sorted_perm. now constructor.
Qed.

Lemma insert_sorted_increasing (x : Z) (l : list Z) :
  StronglySorted Z.lt l -> ~ In x l ->
  StronglySorted Z.lt (insert_sorted x l).
Proof.
  induction l as [|y l IH]; intros S N; cbn.
  - constructor; constructor.
  - apply StronglySorted_inv in S. destruct S as [S F].
    destruct (x <=? y)%Z eqn:L.
    + apply Z.leb_le in L. assert (x < y)%Z by (cbn in N; lia).
      constructor; [constructor; assumption|].
      constructor; [assumption|].
      eapply Forall_impl; [|exact F]. cbn. intros. lia.
    + apply Z.leb_gt in L. constructor.
      * apply IH; [exact S | cbn in N; tauto].
      * apply Forall_forall. intros z I.
        apply (Permutation_in _ (insert_sorted_perm x l)) in I.
        destruct I as [<- | I]; [exact L|].
        rewrite Forall_forall in F. now apply F.
Qed.

Lemma sorted_increasing (l : list Z) :
  NoDup l -> StronglySorted Z.lt (sorted l).
Proof.
  induction 1 as [|x l N D IH]; [constructor|]. cbn.
  apply insert_sorted_increasing; [exact IH|].
  intros I. apply N. exact (Permutation_in _ (sorted_perm l) I).
Qed.

(** An increasing list is determined by its elements. *)
Lemma increasing_ext (l1 l2 : list Z) :
  StronglySorted Z.lt l1 -> StronglySorted Z.lt l2 ->
  (forall x, In x l1 <-> In x l2) -> l1 = l2.
Proof.
  revert l2. induction l1 as [|a l1 IH]; intros [|b l2] S1 S2 E.
  - reflexivity.
  - destruct (proj2 (E b)); now left.
  - destruct (proj1 (E a)); now left.
  - apply StronglySorted_inv in S1, S2.
    destruct S1 as [S1 F1], S2 as [S2 F2].
    rewrite Forall_forall in F1, F2.
    assert (a = b).
    { destruct (proj1 (E a) (or_introl eq_refl)) as [-> | Ia]; [reflexivity|].
      destruct (proj2 (E b) (or_introl eq_refl)) as [<- | Ib]; [reflexivity|].
      specialize (F1 b Ib). specialize (F2 a Ia). lia. }
    subst b. f_equal. apply IH; [exact S1 | exact S2|].
    intros x. split; intros I.
    + destruct (proj1 (E x) (or_intror I)) as [<- | ?]; [|assumption].
      specialize (F1 a I). lia.
    + destruct (proj2 (E x) (or_intror I)) as [<- | ?]; [|assumption].
      specialize (F2 a I). lia.
Qed.

Lemma air_locations_ext (air air' : list Z) :
  (forall l, In l air' <-> In l air) ->
  sorted (unique air') = sorted (unique air).
Proof.
  intros E. apply increasing_ext;
    try (apply sorted_increasing, NoDup_unique).
  intros x.
  split; intros I.
  - apply (Permutation_in _ (sorted_perm _)) in I.
    apply (Permutation_in _ (Permutation_sym (sorted_perm _))).
    apply In_unique. apply E. now apply In_unique.
  - apply (Permutation_in _ (sorted_perm _)) in I.
    apply (Permutation_in _ (Permutation_sym (sorted_perm _))).
    apply In_unique. apply E. now apply In_unique.
Qed.

Lemma mapM_map {A B} (f : A -> option B) (g : A -> B) (l : list A) :
  (forall x, In x l -> f x = Some (g x)) -> mapM f l = Some (List.map g l).
Proof.
  induction l as [|x l IH]; intros H; [reflexivity|]. cbn.
  rewrite (H x (or_introl eq_refl)). cbn. rewrite IH; [reflexivity|].
  intros y I. apply H. now right.
Qed.


Lemma location_at_nth (locs : list Z) (i : nat) :
  locs <> [] ->
  Environmental.location_at locs i
  = Some (nth (i mod List.length locs) locs 0%Z).
Proof.
  intros N. destruct locs as [|l locs]; [congruence|].
  unfold Environmental.location_at. apply nth_error_nth'.
  apply Nat.mod_upper_bound. discriminate.
Qed.

Lemma air_locations_facts (air : list Z) :
  NoDup (sorted (unique air))
  /\ List.length (sorted (unique air)) = List.length (unique air)
  /\ (forall l, In l (sorted (unique air)) <-> In l air).
Proof.
  pose proof (sorted_perm (unique air)) as P. split; [|split].
  - apply (Permutation_NoDup (Permutation_sym P)), NoDup_unique.
  - now apply Permutation_length.
  - intros l. split; intros H.
    + apply In_unique. exact (Permutation_in _ P H).
    + apply (Permutation_in _ (Permutation_sym P)). now apply In_unique.
Qed.

Lemma assign_nonempty (air : list Z) (water_data : DataFrame) :
  air <> [] ->
  Environmental.assign_water_sensors_to_locations air water_data
  = Some (List.map (fun i => nth (i mod List.length (unique air))
                                 (sorted (unique air)) 0%Z)
                   (seq 0 (len water_data))).
Proof.
  intros N. destruct (air_locations_facts air) as (_ & L & I).
  unfold Environmental.assign_water_sensors_to_locations. cbv zeta.
  apply mapM_map. intros i _. rewrite <- L. apply location_at_nth.
  destruct air as [|a air]; [congruence|].
  intros E. assert (H : In a (sorted (unique (a :: air))))
    by (apply I; now left).
  rewrite E in H. contradiction.
Qed.

(** X6 (environmental_fusion.py assign_water_sensors_to_locations): the
    step fails (division by zero) exactly when the air data have no row
    while the water data have one.  Otherwise every water row gets a
    location of the air data; with [k] the number of distinct air
    locations, two water rows share a location exactly when their
    positions are congruent modulo [k]; every air location gets a water
    sensor when there are at least [k] water rows; and the assignment
    depends on the set of air locations only, not on the order or the
    number of the air rows. *)
Theorem water_sensors_round_robin (air_location_id : list Z)
        (water_data : DataFrame) :
  let k := List.length (unique air_location_id) in
  (Environmental.assign_water_sensors_to_locations air_location_id water_data
   = None
   <-> air_location_id = [] /\ (0 < len water_data)%nat)
  /\ forall water_location_id,
       Environmental.assign_water_sensors_to_locations
         air_location_id water_data = Some water_location_id ->
       List.length water_location_id = len water_data
       /\ (forall l, In l water_location_id -> In l air_location_id)
       /\ (forall i j a b,
              nth_error water_location_id i = Some a ->
              nth_error water_location_id j = Some b ->
              (a = b <-> (i mod k = j mod k)%nat))
       /\ ((k <= len water_data)%nat ->
           forall l, In l air_location_id -> In l water_location_id)
       /\ (forall air_location_id',
              (forall l, In l air_location_id' <-> In l air_location_id) ->
              Environmental.assign_water_sensors_to_locations
                air_location_id' water_data = Some water_location_id).
Proof.
  cbv zeta. destruct air_location_id as [|a0 air0] eqn:EA.
  - unfold Environmental.assign_water_sensors_to_locations. cbn [unique sorted fold_right].
    destruct (len water_data) as [|n] eqn:EL; cbn [seq mapM obind Environmental.location_at].
    + split; [split; [discriminate | intros [_ H]; lia]|].
      intros w [= <-]. split; [reflexivity|]. split; [intros l []|].
      split; [intros [|i] j a b; discriminate|]. split; [intros _ l []|].
      intros air' E. destruct air' as [|a' air'].
      * reflexivity.
      * destruct (proj1 (E a')). now left.
    + split; [split; [intros _; split; [reflexivity | lia] | reflexivity]|].
      discriminate.
  - rewrite <- EA. assert (N : air_location_id <> []) by (rewrite EA; discriminate).
    clear EA a0 air0.
    rewrite (assign_nonempty _ water_data N).
    destruct (air_locations_facts air_location_id) as (D & L & I).
    set (k := List.length (unique air_location_id)) in *.
    set (locs := sorted (unique air_location_id)) in *.
    assert (K : (0 < k)%nat).
    { subst k. clear -N. destruct air_location_id as [|a air]; [congruence|].
      cbn [unique List.length]. lia. }
    split; [split; [discriminate | intros [E _]; congruence]|].
    intros w [= <-]. split; [now rewrite length_map, length_seq|].
    split; [|split; [|split]].
    + intros l H. apply in_map_iff in H. destruct H as (i & <- & _).
      apply I. apply nth_In. rewrite L. apply Nat.mod_upper_bound. lia.
    + intros i j a b. rewrite !nth_error_map_seq.
      destruct (i <? len water_data)%nat; [|discriminate].
      destruct (j <? len water_data)%nat; [|discriminate].
      intros [= <-] [= <-]. split.
      * intros E. rewrite NoDup_nth in D. apply D in E;
          [exact E | | ]; rewrite L; apply Nat.mod_upper_bound; lia.
      * now intros ->.
    + intros B l H. apply I in H. apply (In_nth _ _ 0%Z) in H.
      destruct H as (i & Hi & <-). rewrite L in Hi.
      apply in_map_iff. exists i. split.
      * now rewrite Nat.mod_small.
      * apply in_seq. lia.
    + intros air' E.
      assert (N' : air' <> []).
      { destruct air_location_id as [|a air]; [congruence|].
        intros ->. apply (proj2 (E a)). now left. }
      rewrite (assign_nonempty _ water_data N').
      destruct (air_locations_facts air') as (_ & L' & _).
      rewrite (air_locations_ext air_location_id air' E) in L' |- *.
      subst k locs. rewrite <- L', L. reflexivity.
Qed.

Lemma water_sensors_round_robin_witness :
  Environmental.assign_water_sensors_to_locations
    [103; 101; 103; 102]%Z
    {| columns := ["pH"]; rows := [[VInt 7]; [VInt 6]; [VInt 8]; [VInt 7]] |}
  = Some [101; 102; 103; 101]%Z
  /\ Environmental.assign_water_sensors_to_locations
       [101; 102; 103]%Z
       {| columns := ["pH"]; rows := [[VInt 7]; [VInt 6]; [VInt 8]; [VInt 7]] |}
     = Some [101; 102; 103; 101]%Z.
Proof.
  assert (E : Environmental.assign_water_sensors_to_locations
                [103; 101; 103; 102]%Z
                {| columns := ["pH"];
                   rows := [[VInt 7]; [VInt 6]; [VInt 8]; [VInt 7]] |}
              = Some [101; 102; 103; 101]%Z) by reflexivity.
  split; [exact E|].
  destruct (water_sensors_round_robin
              [103; 101; 103; 102]%Z
              {| columns := ["pH"];
                 rows := [[VInt 7]; [VInt 6]; [VInt 8]; [VInt 7]] |})
    as (_ & H).
  destruct (H _ E) as (_ & _ & _ & _ & X). apply X.
  intros l. cbn. intuition.
Defined.

End WaterSensors.

(** ** Generated and decoded timestamps *)

Module GeneratedTimestamps.
Import Identifiers.
Local Open Scope Z_scope.

Lemma timestamp_unix_whole (t : Z) : timestamp_unix (to_datetime_s t) = t.
Proof.
  unfold timestamp_unix, to_datetime_s. apply Z.div_mul.
  change (10 ^ 9) with 1000000000. lia.
Qed.

Lemma timestamp_unix_monotone (a b : Z) :
  a <= b -> timestamp_unix a <= timestamp_unix b.
Proof.
  unfold timestamp_unix. change (10 ^ 9) with 1000000000.
  intros H. apply Z.div_le_mono; lia.
Qed.

(** The timestamp of row [i], as pandas holds it. *)
Lemma iot_timestamp_ns (i : nat) :
  Datetime.to_datetime64 (Agriculture.iot_timestamp i)
  = to_datetime_s (1709251200 + 21600 * Z.of_nat i).
Proof.
  unfold Datetime.to_datetime64, Agriculture.iot_timestamp, to_datetime_s,
    Datetime.timedelta_hours, Agriculture.measurement_interval_hours.
  assert (S : Agriculture.start_date - Datetime.datetime 1970 1 1
              = 1709251200 * 1000000) by reflexivity.
  change (10 ^ 6) with 1000000. change (10 ^ 9) with 1000000000.
  replace (Agriculture.start_date + Z.of_nat i * 6 * 3600 * 1000000
           - Datetime.datetime 1970 1 1)
    with (Agriculture.start_date - Datetime.datetime 1970 1 1
          + Z.of_nat i * 6 * 3600 * 1000000) by ring.
  rewrite S. ring.
Qed.

(** The conversion to [datetime64[ns]] holds the times of the first
    347876 rows, and no later one. *)
Lemma iot_timestamps_in_range (n : nat) :
  Z.of_nat n <= 347876 ->
  forallb (fun ns => ns <=? datetime64_max)
          (List.map Datetime.to_datetime64
                    (List.map Agriculture.iot_timestamp (seq 0 n))) = true.
Proof.
  intros H. apply forallb_forall. intros ns I.
  apply in_map_iff in I as (t & <- & I). apply in_map_iff in I as (i & <- & I).
  apply in_seq in I. rewrite iot_timestamp_ns.
  unfold to_datetime_s, datetime64_max. apply Z.leb_le.
  change (10 ^ 9) with 1000000000.
  change (2 ^ 63 - 1) with 9223372036854775807. lia.
Qed.

(** X7 (agriculture_transformation.py generate_iot_timestamps): on a
    table of 1 to 347876 rows the method returns, with one timestamp per
    row; row [i] gets 1709251200 + 21600 i, that is 2024-03-01 00:00:00
    UTC plus [i] times six hours, in Unix seconds; the column is strictly
    increasing; and no precision is lost: decoding the stored seconds
    with [unit='s'] gives back the generated time.  On a table without
    rows the method ends in the IndexError of its closing print. *)
Theorem iot_timestamps_every_six_hours (raw_data : DataFrame) :
  (len raw_data = 0%nat ->
   Agriculture.generate_iot_timestamps raw_data = None)
  /\ (0 < Z.of_nat (len raw_data) <= 347876 ->
      exists ts,
        Agriculture.generate_iot_timestamps raw_data = Some ts
        /\ List.length ts = len raw_data
        /\ (forall i, (i < len raw_data)%nat ->
                      nth_error ts i = Some (1709251200 + 21600 * Z.of_nat i))
        /\ (forall i j a b,
               nth_error ts i = Some a -> nth_error ts j = Some b ->
               (i < j)%nat -> a < b)
        /\ (forall i a,
               nth_error ts i = Some a ->
               to_datetime_s a
               = Datetime.to_datetime64 (Agriculture.iot_timestamp i))).
Proof.
  unfold Agriculture.generate_iot_timestamps. split.
  - intros ->. reflexivity.
  - intros [P B]. rewrite (iot_timestamps_in_range _ B).
    destruct (len raw_data) as [|n] eqn:L; [lia|]. rewrite <- L.
    assert (C : List.map Agriculture.iot_timestamp (seq 0 (len raw_data)) <> []).
    { rewrite L. discriminate. }
    destruct (List.map Agriculture.iot_timestamp (seq 0 (len raw_data)))
      as [|t0 ts0] eqn:T; [contradiction|]. rewrite <- T. clear C T t0 ts0.
    eexists. split; [reflexivity|]. rewrite !map_map.
    assert (V : forall i,
               timestamp_unix (Datetime.to_datetime64 (Agriculture.iot_timestamp i))
               = 1709251200 + 21600 * Z.of_nat i).
    { intros i. rewrite iot_timestamp_ns. apply timestamp_unix_whole. }
    split; [now rewrite length_map, length_seq|]. split; [|split].
    + intros i Hi. rewrite nth_error_map_seq.
      apply Nat.ltb_lt in Hi. rewrite Hi, V. reflexivity.
    + intros i j a b. rewrite !nth_error_map_seq.
      destruct (i <? len raw_data)%nat; [|discriminate].
      destruct (j <? len raw_data)%nat; [|discriminate].
      rewrite !V. intros A0 B0 Hij. apply some_inj in A0, B0. lia.
    + intros i a. rewrite nth_error_map_seq.
      destruct (i <? len raw_data)%nat; [|discriminate].
      rewrite V. intros A0. apply some_inj in A0. subst a.
      now rewrite iot_timestamp_ns.
Qed.

Lemma iot_timestamps_every_six_hours_witness :
  (len empty_frame = 0%nat
   /\ Agriculture.generate_iot_timestamps empty_frame = None)
  /\ (0 < Z.of_nat (len {| columns := ["Random"];
                          rows := [[VStr "R1"]; [VStr "R2"]] |}) <= 347876
      /\ exists ts,
           Agriculture.generate_iot_timestamps
             {| columns := ["Random"]; rows := [[VStr "R1"]; [VStr "R2"]] |}
           = Some ts
           /\ nth_error ts 1 = Some 1709272800).
Proof.
  assert (L : 0 < Z.of_nat (len {| columns := ["Random"];
                                   rows := [[VStr "R1"]; [VStr "R2"]] |})
              <= 347876)
    by (cbn; lia).
  split.
  - split; [reflexivity|].
    exact (proj1 (iot_timestamps_every_six_hours empty_frame) eq_refl).
  - split; [exact L|].
    destruct (proj2 (iot_timestamps_every_six_hours
                       {| columns := ["Random"];
                          rows := [[VStr "R1"]; [VStr "R2"]] |}) L)
      as (ts & E & _ & H & _).
    exists ts. split; [exact E|]. apply (H 1%nat). cbn. lia.
Defined.

(** X14 (the [convert_timestamps] of the scripts, with the
    [pd.to_datetime(..., unit='s')] of their validation steps): the
    encoding keeps the order of the parsed times, so two rows are never
    inverted; output timestamps that differ come from parsed times in the
    same order; a whole-second time is decoded and encoded back without
    change; and decoding an encoded time gives the start of the second it
    lies in. *)
Theorem timestamp_encoding_keeps_order :
  (forall a b, a <= b -> timestamp_unix a <= timestamp_unix b)
  /\ (forall a b, timestamp_unix a < timestamp_unix b -> a < b)
  /\ (forall t, timestamp_unix (to_datetime_s t) = t)
  /\ (forall ns,
         to_datetime_s (timestamp_unix ns) <= ns
         /\ ns - to_datetime_s (timestamp_unix ns) < 10 ^ 9
         /\ (to_datetime_s (timestamp_unix ns) = ns <-> ns mod 10 ^ 9 = 0))
  /\ (forall parsed : list Z,
         List.map timestamp_unix
                  (List.map to_datetime_s (Network.convert_timestamps parsed))
         = Network.convert_timestamps parsed).
Proof.
  split; [exact timestamp_unix_monotone|]. split; [|split; [|split]].
  - intros a b H. destruct (Z_lt_le_dec a b) as [L | L]; [exact L|].
    apply timestamp_unix_monotone in L. lia.
  - exact timestamp_unix_whole.
  - intros ns. unfold to_datetime_s, timestamp_unix.
    change (10 ^ 9) with 1000000000.
    pose proof (Z.div_mod ns 1000000000 ltac:(lia)) as D.
    pose proof (Z.mod_pos_bound ns 1000000000 ltac:(lia)) as B.
    split; [lia|]. split; [lia|]. split; lia.
  - intros parsed. unfold Network.convert_timestamps. rewrite !map_map.
    apply map_ext. intros ns. apply timestamp_unix_whole.
Qed.

Lemma timestamp_encoding_keeps_order_witness :
  timestamp_unix 1500000000 < timestamp_unix 2600000000
  /\ 1500000000 < 2600000000.
Proof.
  assert (H : timestamp_unix 1500000000 < timestamp_unix 2600000000)
    by (vm_compute; reflexivity).
  split; [exact H|].
  destruct timestamp_encoding_keeps_order as (_ & O & _).
  exact (O _ _ H).
Defined.

End GeneratedTimestamps.

(** ** The shuffle and the wallets *)

Module ShuffleFacts.
Import MT19937 Random.

Lemma set_nth_head_perm {A} (h b : A) (t : list A) (j : nat) :
  nth_error t j = Some b -> Permutation (h :: t) (b :: set_nth j h t).
Proof.
  revert j. induction t as [|x t IH]; intros [|j] E; cbn in E;
    try discriminate.
  - injection E as ->. cbn. apply perm_swap.
  - cbn. rewrite (perm_swap x h t). rewrite (IH j E). apply perm_swap.
Qed.

Lemma swap_perm {A} (i j : nat) (x : list A) : Permutation x (swap i j x).
Proof.
  unfold swap.
  destruct (nth_error x i) as [xi|] eqn:Ei; [|reflexivity].
  destruct (nth_error x j) as [xj|] eqn:Ej; [|reflexivity].
  revert i j Ei Ej. induction x as [|h t IH]; intros [|i] [|j] Ei Ej;
    cbn in Ei, Ej; try discriminate.
  - injection Ei as ->. injection Ej as ->. reflexivity.
  - injection Ei as ->. cbn. now apply set_nth_head_perm.
  - injection Ej as ->. cbn. now apply set_nth_head_perm.
  - cbn. constructor. now apply IH.
Qed.

Lemma shuffle_loop_perm {A} (fuel i : nat) (x y : list A) (st st' : state) :
  shuffle_loop fuel i x st = Some (y, st') -> Permutation x y.
Proof.
  revert x st. induction i as [|i IH]; intros x st.
  - cbn. now intros [= <- <-].
  - cbn [shuffle_loop].
    destruct (randbelow fuel (Z.of_nat (S i) + 1) st) as [[j st1]|];
      [|discriminate].
    intros E. apply IH in E. now rewrite <- E, <- swap_perm.
Qed.

(** Whatever the draws, a shuffle only reorders. *)
Lemma shuffle_perm {A} (fuel : nat) (x y : list A) (st st' : state) :
  shuffle fuel x st = Some (y, st') -> Permutation x y.
Proof. apply shuffle_loop_perm. Qed.

Lemma shuffle_loop_fuel {A} (fuel fuel' i : nat) (x : list A) (st : state) res :
  (fuel <= fuel')%nat ->
  shuffle_loop fuel i x st = Some res -> shuffle_loop fuel' i x st = Some res.
Proof.
  intros L. revert x st. induction i as [|i IH]; intros x st; [auto|].
  cbn [shuffle_loop].
  destruct (randbelow fuel (Z.of_nat (S i) + 1) st) as [[j st1]|] eqn:E;
    [|discriminate].
  rewrite (RandomFacts.randbelow_fuel _ _ _ _ _ L E). apply IH.
Qed.

End ShuffleFacts.

Module WalletFacts.
Import MT19937 TextFacts DictFacts ShuffleFacts.

(** A numeral of a non-negative integer starts with a digit. *)
Lemma str_int_head (z : Z) :
  (0 <= z)%Z -> exists a s, str_int z = String a s /\ Ascii.eqb a "-" = false.
Proof.
  intros H. unfold str_int. destruct z as [|p|p]; [| |lia].
  - exists "0"%char, ""%string. split; reflexivity.
  - cbn. pose proof (DecimalPos.Unsigned.to_uint_nonnil p) as N.
    destruct (Pos.to_uint p); [congruence| | | | | | | | | |]; cbn;
      eexists; eexists; split; reflexivity.
Qed.

Lemma int_of_string_zero (a : ascii) (s : string) :
  Ascii.eqb a "-" = false ->
  option_map Z.of_int (NilZero.int_of_string (String "0" (String a s)))
  = option_map Z.of_int (NilZero.int_of_string (String a s)).
Proof.
  intros H. unfold NilZero.int_of_string. rewrite H.
  change (Ascii.eqb "0" "-") with false. cbv iota.
  unfold NilZero.uint_of_string.
  change (NilEmpty.uint_of_string (String "0" (String a s)))
    with (match NilEmpty.uint_of_string (String a s) with
          | Some d => Some (Decimal.D0 d)
          | None => None
          end).
  destruct (NilEmpty.uint_of_string (String a s)); reflexivity.
Qed.

(** A zero-padded numeral reads back as its integer. *)
Lemma padded_numeral (k : nat) (z : Z) :
  (0 <= z)%Z ->
  option_map Z.of_int
             (NilZero.int_of_string (repeat_char "0" k ++ str_int z))
  = Some z
  /\ exists a s, repeat_char "0" k ++ str_int z = String a s
                 /\ Ascii.eqb a "-" = false.
Proof.
  intros H. induction k as [|k [IH (a & s & E & N)]].
  - split; [|now apply str_int_head].
    cbn [repeat_char append]. rewrite int_of_string_str_int. cbn.
    now rewrite DecimalZ.of_to.
  - cbn [repeat_char append]. rewrite E. split.
    + rewrite (int_of_string_zero a s N), <- E. exact IH.
    + exists "0"%char, (String a s). split; reflexivity.
Qed.

Lemma wallet_id_inj (i j : nat) :
  Wallet.wallet_id i = Wallet.wallet_id j -> i = j.
Proof.
  unfold Wallet.wallet_id, format_03d. cbv zeta. intros E.
  apply append_inj_prefix in E.
  apply (f_equal (fun s => option_map Z.of_int (NilZero.int_of_string s))) in E.
  cbv beta in E.
  rewrite (proj1 (padded_numeral _ (Z.of_nat i + 1) ltac:(lia))) in E.
  rewrite (proj1 (padded_numeral _ (Z.of_nat j + 1) ltac:(lia))) in E.
  injection E. lia.
Qed.

Lemma wallet_id_eqb (i j : nat) :
  String.eqb (Wallet.wallet_id i) (Wallet.wallet_id j) = (i =? j)%nat.
Proof.
  destruct (i =? j)%nat eqn:E.
  - apply Nat.eqb_eq in E. subst. apply String.eqb_refl.
  - apply String.eqb_neq. intros H. apply wallet_id_inj in H.
    apply Nat.eqb_neq in E. contradiction.
Qed.

(** The entries made for the devices, numbered from [i]. *)
Lemma assign_from_entries (l : list string) (i : nat) (d : dict (list string)) :
  (forall j, (i <= j)%nat -> dict_get d (Wallet.wallet_id j) = None) ->
  Wallet.assign_from i l d
  = (d ++ List.map (fun p => (Wallet.wallet_id (fst p), [snd p]))
                   (combine (seq i (List.length l)) l))%list.
Proof.
  revert i d. induction l as [|x l IH]; intros i d H.
  - cbn. now rewrite app_nil_r.
  - cbn [Wallet.assign_from List.length seq combine List.map fst snd].
    rewrite (dict_set_absent d _ _ (H i (le_n i))).
    rewrite IH.
    + now rewrite <- app_assoc.
    + intros j L. rewrite dict_get_app, (H j) by lia. cbn [dict_get].
      rewrite wallet_id_eqb.
      destruct (i =? j)%nat eqn:E; [|reflexivity].
      apply Nat.eqb_eq in E. lia.
Qed.

Lemma entries_get (l : list string) (i j : nat) :
  dict_get (List.map (fun p => (Wallet.wallet_id (fst p), [snd p]))
                     (combine (seq i (List.length l)) l))
           (Wallet.wallet_id (i + j))
  = option_map (fun x => [x]) (nth_error l j).
Proof.
  revert i j. induction l as [|x l IH]; intros i j.
  - cbn. now destruct j.
  - cbn [List.length seq combine List.map fst snd dict_get].
    rewrite wallet_id_eqb. destruct j as [|j].
    + rewrite Nat.add_0_r, Nat.eqb_refl. reflexivity.
    + replace (i + S j)%nat with (S i + j)%nat by lia.
      assert (E : (i =? S i + j)%nat = false) by (apply Nat.eqb_neq; lia).
      rewrite E. apply IH.
Qed.

Lemma distribute_entries (fuel : nat)
      (actual_device_ids : dict (list string)) (st st' : state)
      (assignments : dict (list string)) :
  Wallet.distribute_devices_across_all_wallets fuel actual_device_ids st
  = Some (assignments, st') ->
  exists shuffled,
    Permutation (List.flat_map snd actual_device_ids) shuffled
    /\ assignments
       = List.map (fun p => (Wallet.wallet_id (fst p), [snd p]))
                  (combine (seq 0 (List.length shuffled)) shuffled)
    /\ (forall i, dict_get assignments (Wallet.wallet_id i)
                  = option_map (fun x => [x]) (nth_error shuffled i)).
Proof.
  unfold Wallet.distribute_devices_across_all_wallets. cbv zeta.
  destruct (Random.shuffle fuel (List.flat_map snd actual_device_ids) st)
    as [[shuffled st1]|] eqn:E; [|discriminate].
  intros [= <- <-]. exists shuffled.
  pose proof (shuffle_perm _ _ _ _ _ E) as P.
  rewrite assign_from_entries by reflexivity. cbn [app].
  split; [exact P|]. split; [reflexivity|].
  intros i. apply (entries_get shuffled 0 i).
Qed.

Lemma distribute_fuel (fuel fuel' : nat)
      (actual_device_ids : dict (list string)) (st : state) res :
  (fuel <= fuel')%nat ->
  Wallet.distribute_devices_across_all_wallets fuel actual_device_ids st
  = Some res ->
  Wallet.distribute_devices_across_all_wallets fuel' actual_device_ids st
  = Some res.
Proof.
  intros L. unfold Wallet.distribute_devices_across_all_wallets. cbv zeta.
  destruct (Random.shuffle fuel (List.flat_map snd actual_device_ids) st)
    as [[shuffled st1]|] eqn:E; [|discriminate].
  unfold Random.shuffle in *.
  now rewrite (shuffle_loop_fuel _ _ _ _ _ _ L E).
Qed.

(** X11 (create_wallet_device_mapping.py
    distribute_devices_across_all_wallets, with [random.shuffle]): whatever
    the state of the generator, a distribution that is returned gives the
    roster, reordered, to the wallets in order: entry number [i] of the
    dict is wallet [i + 1] with exactly one device, the [i]-th of the
    shuffled roster.  Wallet identifiers are pairwise distinct, so every
    occurrence of a device in the roster is owned by exactly one wallet
    and no wallet owns two.  A larger bound on the draws does not change
    the result. *)
Theorem devices_spread_over_wallets (fuel : nat)
        (actual_device_ids : dict (list string)) (st st' : state)
        (assignments : dict (list string)) :
  Wallet.distribute_devices_across_all_wallets fuel actual_device_ids st
  = Some (assignments, st') ->
  (exists shuffled,
      Permutation (List.flat_map snd actual_device_ids) shuffled
      /\ assignments
         = List.map (fun p => (Wallet.wallet_id (fst p), [snd p]))
                    (combine (seq 0 (List.length shuffled)) shuffled)
      /\ (forall i, dict_get assignments (Wallet.wallet_id i)
                    = option_map (fun x => [x]) (nth_error shuffled i)))
  /\ List.length assignments
     = List.length (List.flat_map snd actual_device_ids)
  /\ (forall i j, Wallet.wallet_id i = Wallet.wallet_id j -> i = j)
  /\ (forall fuel', (fuel <= fuel')%nat ->
                    Wallet.distribute_devices_across_all_wallets
                      fuel' actual_device_ids st
                    = Some (assignments, st')).
Proof.
  intros E. destruct (distribute_entries _ _ _ _ _ E) as (shuffled & P & A & G).
  split; [exists shuffled; auto|]. split; [|split].
  - rewrite A, length_map, length_combine, length_seq, Nat.min_id.
    symmetry. now apply Permutation_length.
  - exact wallet_id_inj.
  - intros fuel' L. now apply (distribute_fuel fuel fuel').
Qed.

Lemma is_some_inv {A} (o : option A) : is_some o = true -> exists x, o = Some x.
Proof. destruct o as [x|]; [now exists x | discriminate]. Qed.

Lemma seeded_distribution (st : state) :
  exists res,
    Wallet.distribute_devices_across_all_wallets
      64 Wallet.get_actual_device_ids (Random.seed 42 st) = Some res.
Proof.
  apply is_some_inv. unfold Random.seed. vm_compute. reflexivity.
Qed.

Lemma devices_spread_over_wallets_witness :
  exists res,
    Wallet.distribute_devices_across_all_wallets
      64 Wallet.get_actual_device_ids (Random.seed 42 (init_genrand 0))
    = Some res
    /\ List.length (fst res) = 67%nat
    /\ Wallet.distribute_devices_across_all_wallets
         100 Wallet.get_actual_device_ids (Random.seed 42 (init_genrand 0))
       = Some res.
Proof.
  destruct (seeded_distribution (init_genrand 0)) as ([assignments st'] & E).
  exists (assignments, st'). split; [exact E|].
  destruct (devices_spread_over_wallets _ _ _ _ _ E) as (_ & L & _ & F).
  split; [exact L|]. apply F. repeat constructor.
Defined.

Lemma flat_map_singleton {A B} (f : A -> list B) (g : A -> B) (l : list A) :
  (forall x, f x = [g x]) -> List.flat_map f l = List.map g l.
Proof.
  intros H. induction l as [|x l IH]; [reflexivity|]. cbn.
  now rewrite H, IH.
Qed.

Lemma wallet_rows_row (account : nat -> string * string)
      (actual_device_ids assignments : dict (list string))
      (shuffled : list string) (i : nat) :
  dict_get assignments (Wallet.wallet_id i)
  = option_map (fun x => [x]) (nth_error shuffled i) ->
  Wallet.wallet_rows actual_device_ids assignments
                     {| Wallet.id := Wallet.wallet_id i;
                        Wallet.address := fst (account i);
                        Wallet.private_key := snd (account i) |}
  = [mapping_row_of account actual_device_ids i (nth_error shuffled i)].
Proof.
  intros G. unfold Wallet.wallet_rows. cbn [Wallet.id Wallet.address Wallet.private_key].
  rewrite G. destruct (nth_error shuffled i); reflexivity.
Qed.

Lemma category_of_listed (actual_device_ids : dict (list string))
      (device : string) :
  In device (List.flat_map snd actual_device_ids) ->
  exists devices,
    In (Wallet.category_of actual_device_ids device, devices) actual_device_ids
    /\ In device devices.
Proof.
  induction actual_device_ids as [|[cat devices] rest IH]; cbn; [contradiction|].
  intros I. destruct (existsb (String.eqb device) devices) eqn:E.
  - exists devices. split; [now left|]. now apply DropFacts.existsb_eqb_In.
  - apply in_app_or in I. destruct I as [I | I].
    + apply DropFacts.existsb_eqb_In in I. congruence.
    + destruct (IH I) as (ds & A & B). exists ds. split; [now right | exact B].
Qed.

(** The rows written for the hundred wallets, from a distribution. *)
Lemma rows_of_distribution (fuel : nat) (account : nat -> string * string)
      (actual_device_ids : dict (list string)) (st st' : state)
      (assignments : dict (list string)) :
  Wallet.distribute_devices_across_all_wallets fuel actual_device_ids st
  = Some (assignments, st') ->
  exists shuffled,
    Permutation (List.flat_map snd actual_device_ids) shuffled
    /\ List.flat_map (Wallet.wallet_rows actual_device_ids assignments)
                     (Wallet.generate_wallets account 100)
       = List.map (fun i => mapping_row_of account actual_device_ids i
                                           (nth_error shuffled i))
                  (seq 0 100).
Proof.
  intros E.
  destruct (distribute_entries _ _ _ _ _ E) as (shuffled & P & _ & G).
  exists shuffled. split; [exact P|].
  unfold Wallet.generate_wallets. rewrite flat_map_concat_map, map_map.
  rewrite <- flat_map_concat_map. apply flat_map_singleton.
  intros i. apply wallet_rows_row. apply G.
Qed.

(** X12 (create_wallet_device_mapping.py create_mapping_csv, with
    generate_wallets): a mapping that is returned has exactly 100 rows,
    one per wallet and in the order of the wallets; the row of wallet
    [i + 1] carries the [i]-th device of the shuffled roster with
    [devices_owned] 1, or empty device fields and 0 when the roster has
    no more than [i] devices.  The category written for a device is one
    under which the roster lists it, the first one.  Devices after the
    hundredth are written nowhere. *)
Theorem mapping_file_rows (fuel : nat) (account : nat -> string * string)
        (actual_device_ids : dict (list string)) (st st' : state)
        (rows : list Wallet.mapping_row) :
  Wallet.create_mapping_csv fuel account actual_device_ids st
  = Some (rows, st') ->
  exists shuffled,
    Permutation (List.flat_map snd actual_device_ids) shuffled
    /\ rows = List.map (fun i => mapping_row_of account actual_device_ids i
                                                (nth_error shuffled i))
                       (seq 0 100)
    /\ List.length rows = 100%nat
    /\ (forall i row,
           nth_error rows i = Some row ->
           Wallet.row_wallet_id row = Wallet.wallet_id i
           /\ (Wallet.devices_owned row = 1%nat
               /\ nth_error shuffled i = Some (Wallet.device_id row)
               \/ Wallet.devices_owned row = 0%nat
                  /\ Wallet.device_id row = ""
                  /\ (List.length shuffled <= i)%nat))
    /\ (forall device,
           In device shuffled ->
           exists devices,
             In (Wallet.category_of actual_device_ids device, devices)
                actual_device_ids
             /\ In device devices).
Proof.
  unfold Wallet.create_mapping_csv. cbv zeta.
  destruct (Wallet.distribute_devices_across_all_wallets
              fuel actual_device_ids st) as [[assignments st1]|] eqn:E;
    [|discriminate].
  intros H.
  assert (HR : rows
               = List.flat_map
                   (Wallet.wallet_rows actual_device_ids assignments)
                   (Wallet.generate_wallets account 100)) by congruence.
  clear H.
  destruct (rows_of_distribution _ account _ _ _ _ E) as (shuffled & P & R).
  exists shuffled. split; [exact P|].
  rewrite HR, R. split; [reflexivity|].
  split; [now rewrite length_map, length_seq|].
  split.
  - intros i row. rewrite Identifiers.nth_error_map_seq.
    destruct (i <? 100)%nat; [|discriminate]. intros [= <-].
    destruct (nth_error shuffled i) as [d|] eqn:N; cbn.
    + split; [reflexivity|]. left. auto.
    + split; [reflexivity|]. right. split; [reflexivity|].
      split; [reflexivity|]. now apply nth_error_None.
  - intros device I. apply category_of_listed.
    exact (Permutation_in _ (Permutation_sym P) I).
Qed.

Lemma mapping_file_rows_witness :
  exists res,
    Wallet.create_mapping_csv 64 (fun _ => ("0xA", "0xK"))
                              Wallet.get_actual_device_ids
                              (Random.seed 42 (init_genrand 0))
    = Some res
    /\ List.length (fst res) = 100%nat.
Proof.
  destruct (seeded_distribution (init_genrand 0)) as ([assignments st'] & E).
  assert (C : Wallet.create_mapping_csv 64 (fun _ => ("0xA", "0xK"))
                                        Wallet.get_actual_device_ids
                                        (Random.seed 42 (init_genrand 0))
              = Some (List.flat_map
                        (Wallet.wallet_rows Wallet.get_actual_device_ids
                                            assignments)
                        (Wallet.generate_wallets (fun _ => ("0xA", "0xK")) 100),
                      st')).
  { unfold Wallet.create_mapping_csv. cbv zeta. rewrite E. reflexivity. }
  eexists. split; [exact C|].
  destruct (mapping_file_rows _ _ _ _ _ _ C) as (shuffled & _ & _ & L & _).
  exact L.
Defined.

Lemma main_reseeds (fuel : nat) (account : nat -> string * string)
      (st st0 : state) :
  Wallet.main fuel account st0 = Wallet.main fuel account st.
Proof. unfold Wallet.main, Random.seed. reflexivity. Qed.

Lemma main_unfold (fuel : nat) (account : nat -> string * string)
      (st : state) :
  Wallet.main fuel account st
  = Wallet.create_mapping_csv fuel account Wallet.get_actual_device_ids
                              (Random.seed 42 st).
Proof. reflexivity. Qed.

(** X13 (create_wallet_device_mapping.py main): the run as the script
    makes it, seeded with 42 on the roster of 67 devices, returns, whatever
    the state of the generator before and for every bound of at least 64
    draws; its mapping has 100 rows; the first 67 carry one device each and
    between them every device of the roster; the last 33 are empty. *)
Theorem seeded_mapping_run (account : nat -> string * string) (st : state) :
  exists rows st' shuffled,
    (forall fuel, (64 <= fuel)%nat ->
                  Wallet.main fuel account st = Some (rows, st'))
    /\ (forall st0, Wallet.main 64 account st0 = Some (rows, st'))
    /\ Permutation (List.flat_map snd Wallet.get_actual_device_ids) shuffled
    /\ List.length shuffled = 67%nat
    /\ List.length rows = 100%nat
    /\ (forall i, (i < 67)%nat ->
                  exists device,
                    nth_error shuffled i = Some device
                    /\ nth_error rows i
                       = Some (mapping_row_of account
                                              Wallet.get_actual_device_ids
                                              i (Some device)))
    /\ (forall i, (67 <= i < 100)%nat ->
                  nth_error rows i
                  = Some (mapping_row_of account Wallet.get_actual_device_ids
                                         i None)).
Proof.
  destruct (seeded_distribution st) as ([assignments st'] & E).
  assert (C : forall fuel, (64 <= fuel)%nat ->
              Wallet.create_mapping_csv fuel account
                                        Wallet.get_actual_device_ids
                                        (Random.seed 42 st)
              = Some (List.flat_map
                        (Wallet.wallet_rows Wallet.get_actual_device_ids
                                            assignments)
                        (Wallet.generate_wallets account 100), st')).
  { intros fuel L. unfold Wallet.create_mapping_csv. cbv zeta.
    rewrite (distribute_fuel 64 fuel _ _ _ L E). reflexivity. }
  pose proof (C 64%nat (le_n _)) as C64.
  destruct (rows_of_distribution _ account _ _ _ _ E) as (shuffled & P & R).
  assert (L : List.length
                (List.flat_map
                   (Wallet.wallet_rows Wallet.get_actual_device_ids assignments)
                   (Wallet.generate_wallets account 100)) = 100%nat)
    by now rewrite R, length_map, length_seq.
  exists (List.flat_map
            (Wallet.wallet_rows Wallet.get_actual_device_ids assignments)
            (Wallet.generate_wallets account 100)), st', shuffled.
  assert (N : List.length shuffled = 67%nat)
    by (rewrite <- (Permutation_length P); reflexivity).
  split; [intros fuel F; rewrite main_unfold; now apply C|].
  split; [|split; [exact P|split; [exact N|split; [exact L|]]]].
  - intros st0. rewrite (main_reseeds 64 account st st0), main_unfold.
    exact C64.
  - rewrite R. split.
    + intros i Hi.
      destruct (nth_error shuffled i) as [d|] eqn:G.
      * exists d. split; [reflexivity|].
        rewrite Identifiers.nth_error_map_seq, G.
        assert (B : (i <? 100)%nat = true) by (apply Nat.ltb_lt; lia).
        now rewrite B.
      * apply nth_error_None in G. lia.
    + intros i Hi. rewrite Identifiers.nth_error_map_seq.
      assert (B : (i <? 100)%nat = true) by (apply Nat.ltb_lt; lia).
      rewrite B. f_equal. f_equal. apply nth_error_None. lia.
Qed.

End WalletFacts.

(** ** The parsed columns *)

Module ParsedColumns.
Import Network.
Local Open Scope Q_scope.

Lemma decimal_value_nonneg (s : string) : 0 <= decimal_value s.
Proof.
  unfold decimal_value.
  pose proof (proj1 (ValueFacts.scan_decimal_zero s 0 false 0 (Z.le_refl 0))) as H.
  destruct (scan_decimal s 0 false 0) as [m e]. cbn [fst] in H.
  unfold Qle. cbn. lia.
Qed.

(** A float that is not negative: a number from zero on, or plus
    infinity. *)
Lemma unsigned_search_nonneg (u s g : string) :
  re_search (unit_pattern false u) s = Some g -> at_least 0 (float_of g).
Proof.
  intros H. apply SearchFacts.re_search_sound in H.
  destruct H as (_ & U & _).
  assert (P : 0 <= numeral_value g).
  { rewrite (ValueFacts.numeral_value_unsigned g (U eq_refl)).
    apply decimal_value_nonneg. }
  unfold float_of. now apply Binary64Facts.round64_at_least.
Qed.

Lemma float_div_nonneg (x : pyfloat) :
  at_least 0 x -> at_least 0 (float_div x 1000).
Proof.
  destruct x as [|[|]|q]; cbn [at_least float_div]; try tauto; try discriminate.
  intros H.
  assert (P : 0 <= q / 1000).
  { apply Qle_shift_div_l; [reflexivity|]. now rewrite Qmult_0_l. }
  now apply Binary64Facts.round64_at_least.
Qed.

Lemma extract_latency_nonneg (c : cell) :
  extract_latency c = NaN \/ at_least 0 (extract_latency c).
Proof.
  unfold extract_latency. destruct (isna c); [now left|].
  destruct (re_search (unit_pattern false "ms") (str c)) as [g|] eqn:E;
    [|now left].
  right. now apply unsigned_search_nonneg in E.
Qed.

Lemma extract_percentage_nonneg (c : cell) :
  extract_percentage c = NaN \/ at_least 0 (extract_percentage c).
Proof.
  unfold extract_percentage. destruct (isna c); [now left|].
  destruct (re_search (unit_pattern false "%") (str c)) as [g|] eqn:E;
    [|now left].
  right. now apply unsigned_search_nonneg in E.
Qed.

Lemma extract_bandwidth_nonneg (c : cell) :
  extract_bandwidth c = NaN \/ at_least 0 (extract_bandwidth c).
Proof.
  unfold extract_bandwidth. destruct (isna c); [now left|].
  destruct (re_search (unit_pattern false "Mbps") (str c)) as [g|] eqn:E.
  - right. now apply unsigned_search_nonneg in E.
  - destruct (re_search (unit_pattern false "Kbps") (str c)) as [g|] eqn:E';
      [|now left].
    right. apply float_div_nonneg. now apply unsigned_search_nonneg in E'.
Qed.

Lemma nonneg_column (f : cell -> pyfloat) (column : list cell) :
  (forall c, f c = NaN \/ at_least 0 (f c)) ->
  (forall q, In (Num q) (List.map f column) -> 0 <= q)
  /\ ~ In (Inf true) (List.map f column).
Proof.
  intros H. split.
  - intros q I. apply in_map_iff in I as (c & E & _).
    destruct (H c) as [N | A]; [congruence|]. now rewrite E in A.
  - intros I. apply in_map_iff in I as (c & E & _).
    destruct (H c) as [N | A]; [congruence|]. rewrite E in A. discriminate A.
Qed.

(** X15 (network_performance_parsing.py parse_latency, parse_bandwidth,
    parse_resource_allocation): each parsed column has one value per row,
    and no parsed latency, bandwidth or utilisation is negative, whatever
    the text of the cell: the three patterns capture no sign, so a value
    is missing, a number from zero on, or plus infinity.  The
    signal-strength column does take negative values. *)
Theorem unsigned_columns_nonnegative (column : list cell) :
  (List.length (parse_latency column) = List.length column
   /\ (forall q, In (Num q) (parse_latency column) -> 0 <= q)
   /\ ~ In (Inf true) (parse_latency column))
  /\ (List.length (parse_bandwidth column) = List.length column
      /\ (forall q, In (Num q) (parse_bandwidth column) -> 0 <= q)
      /\ ~ In (Inf true) (parse_bandwidth column))
  /\ (List.length (parse_resource_allocation column) = List.length column
      /\ (forall q, In (Num q) (parse_resource_allocation column) -> 0 <= q)
      /\ ~ In (Inf true) (parse_resource_allocation column))
  /\ List.length (parse_signal_strength column) = List.length column
  /\ exists q, parse_signal_strength [Text "-75 dBm"] = [Num q] /\ q < 0.
Proof.
  unfold parse_latency, parse_bandwidth, parse_resource_allocation,
    parse_signal_strength.
  split; [|split; [|split; [|split]]].
  - split; [apply length_map|]. apply nonneg_column, extract_latency_nonneg.
  - split; [apply length_map|]. apply nonneg_column, extract_bandwidth_nonneg.
  - split; [apply length_map|]. apply nonneg_column, extract_percentage_nonneg.
  - apply length_map.
  - exists (-75). split; [vm_compute; reflexivity | reflexivity].
Qed.

Lemma unsigned_columns_nonnegative_witness :
  In (Num 30) (parse_latency [Text "-30 ms"; NA])
  /\ 0 <= 30.
Proof.
  assert (I : In (Num 30) (parse_latency [Text "-30 ms"; NA]))
    by (left; vm_compute; reflexivity).
  split; [exact I|].
  destruct (unsigned_columns_nonnegative [Text "-30 ms"; NA]) as ((_ & H & _) & _).
  exact (H _ I).
Defined.

End ParsedColumns.

(** ** Reading back what was written to a frame *)

Module FrameFacts.

Lemma map_nth_seq (s : Series) :
  List.map (fun i => nth i s VNaN) (seq 0 (List.length s)) = s.
Proof.
  induction s as [|v s IH]; [reflexivity|].
  cbn [List.length seq List.map nth]. f_equal.
  rewrite <- seq_shift, map_map. exact IH.
Qed.

Lemma broadcast_col (n : nat) (s : Series) :
  List.length s = n -> broadcast n (Col s) = s.
Proof. intros <-. apply map_nth_seq. Qed.

Lemma broadcast_scalar (n : nat) (v : value) :
  broadcast n (Scalar v) = repeat v n.
Proof.
  unfold broadcast. cbn [entry_at].
  generalize 0%nat. induction n as [|n IH]; intros k; [reflexivity|].
  cbn. now rewrite IH.
Qed.

Lemma broadcast_get (df : DataFrame) (name : string) (default : value) :
  broadcast (len df) (get df name default) = column_or df name default.
Proof.
  unfold get, column_or. destruct (getitem df name) as [s|] eqn:E.
  - apply broadcast_col. now apply Schema.getitem_length in E.
  - apply broadcast_scalar.
Qed.

Lemma broadcast_length (n : nat) (e : entry) :
  List.length (broadcast n e) = n.
Proof. unfold broadcast. now rewrite length_map, length_seq. Qed.

Lemma fits_get (df : DataFrame) (name : string) (default : value) :
  fits (len df) (get df name default).
Proof. apply Schema.get_length. Qed.

(** The frame that [pd.DataFrame] builds from entries that fit [n]
    rows. *)
Lemma pd_DataFrame_built (n : nat) (data : list (string * entry))
      (out : DataFrame) :
  Forall (fun kv => fits n (snd kv)) data ->
  pd_DataFrame data = Some out ->
  out = {| columns := List.map fst data;
           rows := List.map (fun i => List.map (fun kv => entry_at i (snd kv))
                                               data)
                            (seq 0 n) |}.
Proof.
  intros F. unfold pd_DataFrame.
  destruct (index_len data) as [m|] eqn:E; [|discriminate].
  intros [= <-]. now rewrite (Schema.index_len_uniform n data m F E).
Qed.

Lemma column_index_dict (data : list (string * entry)) (name : string) :
  match column_index name (List.map fst data) with
  | Some j =>
      exists e, dict_get data name = Some e
                /\ forall i, nth j (List.map (fun kv => entry_at i (snd kv))
                                             data) VNaN
                             = entry_at i e
  | None => dict_get data name = None
  end.
Proof.
  induction data as [|[k e] data IH]; [reflexivity|].
  cbn [List.map fst column_index dict_get].
  destruct (String.eqb k name).
  - exists e. split; [reflexivity|]. intros i. reflexivity.
  - destruct (column_index name (List.map fst data)) as [j|]; cbn [option_map].
    + destruct IH as (e' & G & V). exists e'. split; [exact G|].
      intros i. cbn [List.map nth]. apply V.
    + exact IH.
Qed.

(** A column of the frame built from a dict is the entry under that key,
    on the rows of the frame. *)
Lemma getitem_built (n : nat) (data : list (string * entry)) (name : string) :
  getitem {| columns := List.map fst data;
             rows := List.map (fun i => List.map (fun kv => entry_at i (snd kv))
                                                 data)
                              (seq 0 n) |} name
  = option_map (broadcast n) (dict_get data name).
Proof.
  unfold getitem. cbn [columns rows].
  pose proof (column_index_dict data name) as H.
  destruct (column_index name (List.map fst data)) as [j|].
  - destruct H as (e & G & V). rewrite G. cbn [option_map]. unfold broadcast.
    apply f_equal. rewrite map_map. apply map_ext. exact V.
  - now rewrite H.
Qed.

Lemma column_index_nth (name : string) (cols : list string) (j : nat) :
  column_index name cols = Some j -> nth_error cols j = Some name.
Proof.
  revert j. induction cols as [|c cols IH]; intros j; cbn; [discriminate|].
  destruct (String.eqb c name) eqn:E.
  - intros [= <-]. apply String.eqb_eq in E. now subst.
  - destruct (column_index name cols) as [j'|]; [|discriminate].
    intros [= <-]. cbn. now apply IH.
Qed.

Lemma column_index_bound (name : string) (cols : list string) (j : nat) :
  column_index name cols = Some j -> (j < List.length cols)%nat.
Proof.
  intros H. apply column_index_nth in H. apply nth_error_Some. congruence.
Qed.

Lemma column_index_app_absent (name name' : string) (cols : list string) :
  column_index name' (cols ++ [name])%list
  = match column_index name' cols with
    | Some j => Some j
    | None => if String.eqb name name' then Some (List.length cols) else None
    end.
Proof.
  induction cols as [|c cols IH]; cbn.
  - destruct (String.eqb name name'); reflexivity.
  - destruct (String.eqb c name'); [reflexivity|]. rewrite IH.
    destruct (column_index name' cols); [reflexivity|].
    destruct (String.eqb name name'); reflexivity.
Qed.

Lemma nth_set_nth_same {A} (j : nat) (v d : A) (r : list A) :
  (j < List.length r)%nat -> nth j (set_nth j v r) d = v.
Proof.
  revert j. induction r as [|x r IH]; intros [|j] L; cbn in *; try lia.
  - reflexivity.
  - apply IH. lia.
Qed.

Lemma nth_set_nth_other {A} (j j' : nat) (v d : A) (r : list A) :
  j <> j' -> nth j' (set_nth j v r) d = nth j' r d.
Proof.
  revert j j'. induction r as [|x r IH]; intros [|j] [|j'] N; cbn;
    try reflexivity; try congruence.
  apply IH. congruence.
Qed.

Lemma length_set_nth {A} (j : nat) (v : A) (r : list A) :
  List.length (set_nth j v r) = List.length r.
Proof.
  revert j. induction r as [|x r IH]; intros [|j]; cbn; auto.
Qed.

Lemma map_mapi_from {A B C} (h : B -> C) (g : nat -> A -> B) (i : nat)
      (l : list A) :
  List.map h (mapi_from g i l) = mapi_from (fun k x => h (g k x)) i l.
Proof.
  revert i. induction l as [|x l IH]; intros i; cbn; [reflexivity|].
  now rewrite IH.
Qed.

Lemma mapi_from_ext {A B} (f g : nat -> A -> B) (i : nat) (l : list A) :
  (forall k x, In x l -> f k x = g k x) -> mapi_from f i l = mapi_from g i l.
Proof.
  revert i. induction l as [|x l IH]; intros i H; cbn; [reflexivity|].
  rewrite (H i x (or_introl eq_refl)). f_equal. apply IH.
  intros k y I. apply H. now right.
Qed.

Lemma mapi_from_index {A B} (f : nat -> B) (i : nat) (l : list A) :
  mapi_from (fun k _ => f k) i l = List.map f (seq i (List.length l)).
Proof.
  revert i. induction l as [|x l IH]; intros i; cbn; [reflexivity|].
  now rewrite IH.
Qed.

Lemma mapi_from_value {A B} (f : A -> B) (i : nat) (l : list A) :
  mapi_from (fun _ x => f x) i l = List.map f l.
Proof.
  revert i. induction l as [|x l IH]; intros i; cbn; [reflexivity|].
  now rewrite IH.
Qed.

Lemma Forall_mapi_from {A B} (P : B -> Prop) (f : nat -> A -> B) (i : nat)
      (l : list A) :
  (forall k x, In x l -> P (f k x)) -> Forall P (mapi_from f i l).
Proof.
  revert i. induction l as [|x l IH]; intros i H; cbn; constructor.
  - apply H. now left.
  - apply IH. intros k y I. apply H. now right.
Qed.

(** On a frame of [n] rows, an entry that fits is written row by row. *)
Lemma setitem_rows (n : nat) (df : DataFrame) (name : string) (e : entry) :
  len df = n -> fits n e ->
  rows (setitem df name e) = mapi_from (row_with df name e) 0 (rows df).
Proof.
  unfold len, setitem. cbn [rows]. intros L F.
  destruct (rows df) as [|r rs]; [|reflexivity].
  destruct e as [s|v]; [|reflexivity].
  destruct F as [F | F]; [|discriminate]. cbn in F, L.
  destruct s; [reflexivity|]. cbn in F. congruence.
Qed.

(** Assigning a column: the frame stays rectangular with its rows, the
    column assigned reads as the entry, and every other column as
    before. *)
Lemma reads_setitem (n : nat) (df : DataFrame) (f : string -> option Series)
      (name : string) (e : entry) :
  fits n e -> reads n df f ->
  reads n (setitem df name e)
        (fun name' => if String.eqb name name' then Some (broadcast n e)
                      else f name').
Proof.
  intros F (R & L & G).
  assert (RW : rows (setitem df name e)
               = mapi_from (row_with df name e) 0 (rows df))
    by now apply (setitem_rows n).
  unfold rectangular in R. rewrite Forall_forall in R.
  split; [|split].
  - unfold rectangular. rewrite RW. apply Forall_mapi_from.
    intros k r I. unfold row_with, setitem. cbn [columns].
    destruct (column_index name (columns df)).
    + rewrite length_set_nth. now apply R.
    + rewrite !length_app. cbn. now rewrite (R r I).
  - unfold len. rewrite RW, Schema.mapi_from_length. exact L.
  - intros name'. unfold getitem at 1. rewrite RW.
    unfold setitem at 1. cbn [columns].
    destruct (column_index name (columns df)) as [j|] eqn:C.
    + (* an existing column is overwritten in place *)
      destruct (String.eqb name name') eqn:E.
      * apply String.eqb_eq in E. subst name'. rewrite C. f_equal.
        rewrite map_mapi_from.
        rewrite (mapi_from_ext _ (fun k _ => entry_at k e)).
        -- rewrite mapi_from_index. unfold broadcast. now rewrite <- L.
        -- intros k r I. unfold row_with. rewrite C.
           apply nth_set_nth_same. rewrite (R r I).
           now apply column_index_bound in C.
      * rewrite <- G. unfold getitem.
        destruct (column_index name' (columns df)) as [j'|] eqn:C';
          [|reflexivity].
        f_equal. rewrite map_mapi_from.
        rewrite (mapi_from_ext _ (fun _ r => nth j' r VNaN)).
        -- apply mapi_from_value.
        -- intros k r I. unfold row_with. rewrite C.
           apply nth_set_nth_other. intros ->.
           apply column_index_nth in C, C'. rewrite C in C'.
           injection C' as ->. now rewrite String.eqb_refl in E.
    + (* a new column is appended *)
      rewrite column_index_app_absent.
      destruct (String.eqb name name') eqn:E.
      * apply String.eqb_eq in E. subst name'. rewrite C. f_equal.
        rewrite map_mapi_from.
        rewrite (mapi_from_ext _ (fun k _ => entry_at k e)).
        -- rewrite mapi_from_index. unfold broadcast. now rewrite <- L.
        -- intros k r I. unfold row_with. rewrite C.
           rewrite <- (R r I). rewrite app_nth2 by lia.
           now rewrite Nat.sub_diag.
      * rewrite <- G. unfold getitem.
        destruct (column_index name' (columns df)) as [j'|] eqn:C';
          [|reflexivity].
        f_equal. rewrite map_mapi_from.
        rewrite (mapi_from_ext _ (fun _ r => nth j' r VNaN)).
        -- apply mapi_from_value.
        -- intros k r I. unfold row_with. rewrite C.
           apply app_nth1. rewrite (R r I).
           now apply column_index_bound in C'.
Qed.

(** The first column assigned to an empty frame. *)
Lemma reads_first (name : string) (s : Series) :
  reads (List.length s) (setitem empty_frame name (Col s))
        (fun name' => if String.eqb name name' then Some s else None).
Proof.
  assert (RW : rows (setitem empty_frame name (Col s))
               = List.map (fun i => [nth i s VNaN]) (seq 0 (List.length s))).
  { unfold setitem. cbn [rows empty_frame columns].
    rewrite (mapi_from_ext _ (fun i _ => [nth i s VNaN])).
    - now rewrite mapi_from_index, length_map.
    - intros k r I. apply in_map_iff in I. destruct I as (v & <- & _).
      reflexivity. }
  split; [|split].
  - unfold rectangular. rewrite RW. apply Forall_forall. intros r I.
    apply in_map_iff in I. destruct I as (i & <- & _). reflexivity.
  - unfold len. now rewrite RW, length_map, length_seq.
  - intros name'. unfold getitem. rewrite RW.
    unfold setitem. cbn [columns empty_frame column_index app].
    destruct (String.eqb name name'); cbn [option_map]; [|reflexivity].
    apply f_equal. rewrite map_map. cbn [nth]. apply map_nth_seq.
Qed.

Lemma reads_self (df : DataFrame) :
  rectangular df -> reads (len df) df (getitem df).
Proof. intros R. split; [exact R|]. split; reflexivity. Qed.

(** A column of a reindexed frame: the column of that name, or NaN. *)
Lemma getitem_reindex (df : DataFrame) (labels : list string) (c : string) :
  In c labels ->
  getitem (reindex_columns df labels) c = Some (column_or df c VNaN).
Proof.
  intros I. unfold getitem at 1, reindex_columns. cbn [columns rows].
  destruct (Schema.column_index_In c labels I) as [k K]. rewrite K.
  apply f_equal. rewrite map_map.
  pose proof (column_index_nth _ _ _ K) as N.
  assert (V : forall r : list value,
             nth k (List.map (fun c0 => match column_index c0 (columns df) with
                                        | Some j => nth j r VNaN
                                        | None => VNaN
                                        end) labels) VNaN
             = match column_index c (columns df) with
               | Some j => nth j r VNaN
               | None => VNaN
               end).
  { intros r. apply nth_error_nth.
    rewrite nth_error_map, N. reflexivity. }
  rewrite (map_ext _ _ V). unfold column_or, getitem, len.
  destruct (column_index c (columns df)); [reflexivity|].
  induction (rows df) as [|r rs IH]; [reflexivity|]. cbn. now rewrite IH.
Qed.

Lemma rectangular_reindex (df : DataFrame) (labels : list string) :
  rectangular (reindex_columns df labels).
Proof.
  unfold rectangular, reindex_columns. cbn [columns rows].
  apply Forall_forall. intros r I. apply in_map_iff in I.
  destruct I as (r0 & <- & _). apply length_map.
Qed.

Lemma insert_row_perm (j : nat) (r : list value) (l : list (list value)) :
  Permutation (insert_row j r l) (r :: l).
Proof.
  induction l as [|r' l IH]; [reflexivity|]. cbn.
  destruct (value_leb _ _); [reflexivity|].
  rewrite IH. apply perm_swap.
Qed.

Lemma sort_rows_perm (j : nat) (l : list (list value)) :
  Permutation (fold_right (insert_row j) [] l) l.
Proof.
  induction l as [|r l IH]; [reflexivity|]. cbn.
  rewrite insert_row_perm. now constructor.
Qed.

Lemma value_leb_total (x y : value) :
  value_leb x y = false -> value_leb y x = true.
Proof.
  destruct x, y; cbn; try discriminate; try reflexivity.
  intros H. apply Z.leb_gt in H. apply Z.leb_le. lia.
Qed.

Lemma insert_row_sorted (j : nat) (r : list value) (l : list (list value)) :
  Sorted (fun a b => value_leb (nth j a VNaN) (nth j b VNaN) = true) l ->
  Sorted (fun a b => value_leb (nth j a VNaN) (nth j b VNaN) = true)
         (insert_row j r l).
Proof.
  induction l as [|r' l IH]; intros S; cbn.
  - repeat constructor.
  - destruct (value_leb (nth j r VNaN) (nth j r' VNaN)) eqn:E.
    + constructor; [exact S|]. now constructor.
    + apply Sorted_inv in S. destruct S as [S H]. constructor; [now apply IH|].
      apply value_leb_total in E.
      destruct l as [|r'' l]; cbn.
      * now constructor.
      * destruct (value_leb (nth j r VNaN) (nth j r'' VNaN)).
        -- now constructor.
        -- constructor. now apply HdRel_inv in H.
Qed.

Lemma sort_rows_sorted (j : nat) (l : list (list value)) :
  Sorted (fun a b => value_leb (nth j a VNaN) (nth j b VNaN) = true)
         (fold_right (insert_row j) [] l).
Proof.
  induction l as [|r l IH]; cbn; [constructor|]. now apply insert_row_sorted.
Qed.

Lemma Sorted_map {A B} (R : B -> B -> Prop) (f : A -> B) (l : list A) :
  Sorted (fun a b => R (f a) (f b)) l -> Sorted R (List.map f l).
Proof.
  induction 1 as [|a l S IH H]; cbn; constructor; [exact IH|].
  destruct H; cbn; now constructor.
Qed.

End FrameFacts.

(** ** What the output tables hold *)

Module SchemaContent.
Import FrameFacts.

Ltac fit :=
  repeat (apply Forall_cons; cbn [snd];
          [ first [ right; reflexivity
                  | left; cbn [entry_len]; f_equal;
                    eapply Schema.getitem_length; eassumption
                  | apply fits_get ] | ]);
  apply Forall_nil.

Ltac lookup :=
  rewrite getitem_built;
  cbn [dict_get String.eqb Ascii.eqb Bool.eqb option_map].

Ltac copied :=
  lookup; rewrite broadcast_col by (eapply Schema.getitem_length; eassumption);
  symmetry; assumption.

Ltac each_pair I :=
  cbn [In] in I;
  repeat (destruct I as [I | I];
          [injection I as <- <- | ]);
  [ .. | contradiction ].

(** X16 (create_schema_compliant_format of
    network_performance_parsing.py, health_privacy_protection.py and
    retail_pii_anonymization.py): a table that is returned holds, under
    each output name, the values of the working column it is built from,
    unchanged and in the same row order, and the placeholder text on every
    row of the three (retail: four) constant columns. *)
Theorem schema_mapper_copies_columns (raw_data out : DataFrame) :
  (Network.create_schema_compliant_format raw_data = Some out ->
   copies out raw_data
          [ ("device_id", "device_id"); ("timestamp", "timestamp_unix");
            ("application_type", "Application_Type");
            ("signal_strength_dbm", "signal_strength_dbm");
            ("latency_ms", "latency_ms");
            ("required_bandwidth_mbps", "required_bandwidth_mbps");
            ("allocated_bandwidth_mbps", "allocated_bandwidth_mbps");
            ("resource_utilization", "resource_utilization") ]
   /\ constant out (len raw_data)
               [ ("owner_address", VStr "PLACEHOLDER_FOR_CARTESI");
                 ("encrypted_data", VStr "CARTESI_GENERATED");
                 ("data_hash", VStr "CARTESI_GENERATED") ])
  /\ (Health.create_schema_compliant_format raw_data = Some out ->
      copies out raw_data
             [ ("device_id", "device_id"); ("timestamp", "timestamp_unix");
               ("steps_count", "Steps"); ("heart_rate", "Heart_Rate");
               ("calories_burned", "Calories_Burned");
               ("exercise_duration", "Exercise_Duration");
               ("activity_type", "Activity_Label");
               ("activity_confidence", "Activity_Confidence");
               ("ambient_temperature", "Temperature") ]
      /\ constant out (len raw_data)
                  [ ("owner_address", VStr "PLACEHOLDER_FOR_CARTESI");
                    ("encrypted_data", VStr "CARTESI_GENERATED");
                    ("data_hash", VStr "CARTESI_GENERATED") ])
  /\ (Retail.create_schema_compliant_format raw_data = Some out ->
      copies out raw_data
             [ ("device_id", "device_id"); ("timestamp", "timestamp_unix");
               ("transaction_id", "ORDERNUMBER");
               ("quantity_sold", "QUANTITYORDERED");
               ("unit_price", "PRICEEACH"); ("total_sales", "SALES");
               ("product_category", "PRODUCTLINE");
               ("store_region", "store_region");
               ("transaction_size", "DEALSIZE") ]
      /\ constant out (len raw_data)
                  [ ("owner_address", VStr "PLACEHOLDER_FOR_CARTESI");
                    ("store_country", VStr "USA");
                    ("encrypted_data", VStr "CARTESI_GENERATED");
                    ("data_hash", VStr "CARTESI_GENERATED") ]).
Proof.
  split; [|split].
  - unfold Network.create_schema_compliant_format, obind.
    Schema.read_columns raw_data. intros H.
    apply (pd_DataFrame_built (len raw_data)) in H; [|unfold fits; fit].
    subst out. split.
    + intros o i I. each_pair I; copied.
    + intros o v I. each_pair I; lookup; now rewrite broadcast_scalar.
  - unfold Health.create_schema_compliant_format, obind.
    Schema.read_columns raw_data. intros H.
    apply (pd_DataFrame_built (len raw_data)) in H; [|unfold fits; fit].
    subst out. split.
    + intros o i I. each_pair I; copied.
    + intros o v I. each_pair I; lookup; now rewrite broadcast_scalar.
  - unfold Retail.create_schema_compliant_format, obind.
    Schema.read_columns raw_data. intros H.
    apply (pd_DataFrame_built (len raw_data)) in H; [|unfold fits; fit].
    subst out. split.
    + intros o i I. each_pair I; copied.
    + intros o v I. each_pair I; lookup; now rewrite broadcast_scalar.
Qed.

Lemma schema_mapper_copies_columns_witness :
  exists out,
    Network.create_schema_compliant_format sample_network_table = Some out
    /\ getitem out "timestamp" = getitem sample_network_table "timestamp_unix"
    /\ getitem out "owner_address"
       = Some (repeat (VStr "PLACEHOLDER_FOR_CARTESI") 2).
Proof.
  destruct (Schema.pd_DataFrame_total
              "device_id"
              [VStr "did:lcore:cell-tower-tower-4";
               VStr "did:lcore:cell-tower-tower-8"]
              [ ("owner_address", Scalar (VStr "PLACEHOLDER_FOR_CARTESI"));
                ("timestamp", Col [VInt 1693526400; VInt 1693526460]);
                ("application_type", Col [VStr "Video_Call"; VStr "Streaming"]);
                ("signal_strength_dbm", Col [VFloat (-75); VNaN]);
                ("latency_ms", Col [VFloat 30; VFloat 20]);
                ("required_bandwidth_mbps", Col [VFloat 10; VFloat 0.1]);
                ("allocated_bandwidth_mbps", Col [VFloat 15; VFloat 0.2]);
                ("resource_utilization", Col [VFloat 70; VFloat 80]);
                ("encrypted_data", Scalar (VStr "CARTESI_GENERATED"));
                ("data_hash", Scalar (VStr "CARTESI_GENERATED")) ])
    as [out E].
  exists out.
  assert (E' : Network.create_schema_compliant_format sample_network_table
               = Some out) by exact E.
  split; [exact E'|].
  destruct (schema_mapper_copies_columns sample_network_table out) as (N & _).
  destruct (N E') as [C K]. split.
  - apply C. cbn. tauto.
  - apply (K "owner_address" (VStr "PLACEHOLDER_FOR_CARTESI")). cbn. tauto.
Defined.

(** X17 (weather_unit_conversion.py create_schema_compliant_format): a
    table that is returned holds the three Celsius columns of the working
    table where it has them and a column of NaN where it has not; the
    columns named humidity_percent, precipitation_mm, wind_speed_kmh,
    wind_direction_degrees and visibility_km hold the values of humidity,
    precip, windspeed, winddir and visibility unchanged; identifiers,
    timestamps and conditions are copied, and the three constant columns
    hold their placeholder on every row. *)
Theorem weather_mapper_columns (raw_data out : DataFrame) :
  Weather.create_schema_compliant_format raw_data = Some out ->
  copies_or out raw_data
            [ ("temperature_celsius", "temp_celsius", VNaN);
              ("feels_like_celsius", "feelslike_celsius", VNaN);
              ("dew_point_celsius", "dew_celsius", VNaN) ]
  /\ copies out raw_data
            [ ("device_id", "device_id"); ("timestamp", "timestamp_unix");
              ("humidity_percent", "humidity");
              ("precipitation_mm", "precip");
              ("wind_speed_kmh", "windspeed");
              ("wind_direction_degrees", "winddir");
              ("visibility_km", "visibility");
              ("conditions", "conditions") ]
  /\ constant out (len raw_data)
              [ ("owner_address", VStr "PLACEHOLDER_FOR_CARTESI");
                ("encrypted_data", VStr "CARTESI_GENERATED");
                ("data_hash", VStr "CARTESI_GENERATED") ].
Proof.
  unfold Weather.create_schema_compliant_format, obind.
  Schema.read_columns raw_data. cbv zeta. intros H.
  apply (pd_DataFrame_built (len raw_data)) in H; [|unfold fits; fit].
  subst out. split; [|split].
  - intros o i d I. cbn [In] in I.
    repeat (destruct I as [I | I]; [injection I as <- <- <- | ]);
      [ .. | contradiction ]; lookup; now rewrite broadcast_get.
  - intros o i I. each_pair I; copied.
  - intros o v I. each_pair I; lookup; now rewrite broadcast_scalar.
Qed.

Lemma weather_mapper_columns_witness :
  exists out,
    Weather.create_schema_compliant_format sample_weather_table = Some out
    /\ getitem out "temperature_celsius" = Some [VNaN]
    /\ getitem out "wind_speed_kmh" = Some [VFloat 5].
Proof.
  destruct (Schema.pd_DataFrame_total
              "device_id"
              [VStr "did:lcore:weather-station-oakland-1"]
              [ ("owner_address", Scalar (VStr "PLACEHOLDER_FOR_CARTESI"));
                ("timestamp", Col [VInt 1640995200]);
                ("temperature_celsius", Scalar VNaN);
                ("feels_like_celsius", Scalar VNaN);
                ("dew_point_celsius", Scalar VNaN);
                ("humidity_percent", Col [VFloat 80]);
                ("precipitation_mm", Col [VFloat 0]);
                ("wind_speed_kmh", Col [VFloat 5]);
                ("wind_direction_degrees", Col [VFloat 270]);
                ("visibility_km", Col [VFloat 10]);
                ("conditions", Col [VStr "Clear"]);
                ("encrypted_data", Scalar (VStr "CARTESI_GENERATED"));
                ("data_hash", Scalar (VStr "CARTESI_GENERATED")) ])
    as [out E].
  exists out.
  assert (E' : Weather.create_schema_compliant_format sample_weather_table
               = Some out) by exact E.
  split; [exact E'|].
  destruct (weather_mapper_columns sample_weather_table out E') as (D & C & _).
  split.
  - apply (D "temperature_celsius" "temp_celsius" VNaN). cbn. tauto.
  - rewrite (C "wind_speed_kmh" "windspeed"); [reflexivity | cbn; tauto].
Defined.

Ltac fit1 :=
  first [ right; reflexivity
        | left; cbn [entry_len]; f_equal; assumption
        | apply fits_get ].

Ltac assignments :=
  repeat (lazymatch goal with
          | |- reads _ (setitem empty_frame _ _) _ => fail
          | |- reads _ (setitem _ _ _) _ =>
              eapply reads_setitem; [unfold fits; fit1|]
          end).

Ltac compare_names := cbn [String.eqb Ascii.eqb Bool.eqb].

(** X18 (agriculture_transformation.py create_schema_compliant_format):
    the table built column by column holds the identifiers and the
    timestamps of the working table; each of the nine measurement columns
    holds the working column of the same name when there is one and NaN on
    every row otherwise; [plant_class] defaults to "unknown" on every row;
    the three constant columns hold their placeholder. *)
Theorem agriculture_mapper_columns (raw_data out : DataFrame) :
  Agriculture.create_schema_compliant_format raw_data = Some out ->
  copies out raw_data
         [ ("device_id", "device_id"); ("timestamp", "timestamp_unix") ]
  /\ copies_or out raw_data
               [ ("chlorophyll_avg", "chlorophyll_avg", VNaN);
                 ("height_rate", "height_rate", VNaN);
                 ("wet_weight_vegetative", "wet_weight_vegetative", VNaN);
                 ("leaf_area_avg", "leaf_area_avg", VNaN);
                 ("leaf_count_avg", "leaf_count_avg", VNaN);
                 ("root_diameter_avg", "root_diameter_avg", VNaN);
                 ("root_dry_weight", "root_dry_weight", VNaN);
                 ("dry_matter_vegetative", "dry_matter_vegetative", VNaN);
                 ("root_length_avg", "root_length_avg", VNaN);
                 ("plant_class", "plant_class", VStr "unknown") ]
  /\ constant out (len raw_data)
              [ ("owner_address", VStr "PLACEHOLDER_FOR_CARTESI");
                ("encrypted_data", VStr "CARTESI_GENERATED");
                ("data_hash", VStr "CARTESI_GENERATED") ].
Proof.
  unfold Agriculture.create_schema_compliant_format, obind.
  Schema.read_columns raw_data. cbv beta zeta. intros [= <-].
  pose proof (Schema.getitem_length _ _ _ E) as L.
  pose proof (Schema.getitem_length _ _ _ E0) as L0.
  match goal with
  | |- copies ?o _ _ /\ _ => eassert (R : reads (len raw_data) o _)
  end.
  { assignments. rewrite <- L. apply reads_first. }
  destruct R as (_ & _ & G). split; [|split].
  - intros o i I. each_pair I; rewrite G; compare_names;
      rewrite ?broadcast_col by assumption; congruence.
  - intros o i d I. cbn [In] in I.
    repeat (destruct I as [I | I]; [injection I as <- <- <- | ]);
      [ .. | contradiction ]; rewrite G; compare_names;
      now rewrite broadcast_get.
  - intros o v I. each_pair I; rewrite G; compare_names;
      now rewrite broadcast_scalar.
Qed.

Lemma agriculture_mapper_columns_witness :
  exists out,
    Agriculture.create_schema_compliant_format
      {| columns := ["device_id"; "timestamp_unix"; "height_rate"];
         rows := [[VStr "did:lcore:agri-R1"; VInt 1709251200; VFloat 2]] |}
    = Some out
    /\ getitem out "height_rate" = Some [VFloat 2]
    /\ getitem out "plant_class" = Some [VStr "unknown"].
Proof.
  eexists. split; [reflexivity|].
  match goal with
  | |- getitem ?o _ = _ /\ _ =>
      destruct (agriculture_mapper_columns
                  {| columns := ["device_id"; "timestamp_unix"; "height_rate"];
                     rows := [[VStr "did:lcore:agri-R1"; VInt 1709251200;
                               VFloat 2]] |} o eq_refl) as (_ & D & _)
  end.
  split.
  - apply (D "height_rate" "height_rate" VNaN). cbn. tauto.
  - apply (D "plant_class" "plant_class" (VStr "unknown")). cbn. tauto.
Defined.

Ltac column_of G L :=
  rewrite getitem_reindex by (cbn; tauto);
  unfold column_or; rewrite G; compare_names;
  rewrite ?Schema.reindex_columns_len, ?L;
  rewrite ?broadcast_scalar, ?broadcast_col by assumption.

Lemma sort_values_timestamp (a b : DataFrame) :
  sort_values (concat (reindex_columns a Environmental.common_columns)
                      (reindex_columns b Environmental.common_columns))
              "timestamp"
  = Some {| columns := Environmental.common_columns;
            rows := fold_right
                      (insert_row 1) []
                      (rows (reindex_columns a Environmental.common_columns)
                       ++ rows (reindex_columns b Environmental.common_columns)) |}.
Proof. reflexivity. Qed.

(** X19 (environmental_fusion.py combine_datasets): on rectangular air
    and water tables, a combined table that is returned has the sixteen
    common columns, one value per column on every row, and its
    [timestamp] column is in ascending order; its rows are those of an
    air part and a water part, reordered.  The air part has the rows of
    the air table: its ten shared and air columns hold the air column of
    that name (NaN where the air table has none) and its six water
    columns are empty, whatever the air table held under those names.
    The water part has the rows of the water table: [temperature_celsius]
    holds the water temperature, the five air-only columns are empty, and
    the other ten hold the water column of that name (NaN where there is
    none). *)
Theorem combined_table (air_data water_data out : DataFrame) :
  rectangular air_data -> rectangular water_data ->
  Environmental.combine_datasets air_data water_data = Some out ->
  columns out = Environmental.common_columns
  /\ rectangular out
  /\ (exists ts, getitem out "timestamp" = Some ts
                 /\ Sorted (fun x y => value_leb x y = true) ts)
  /\ exists air_part water_part,
       Permutation (rows out) (rows air_part ++ rows water_part)
       /\ len air_part = len air_data /\ len water_part = len water_data
       /\ copies_or air_part air_data
                    [ ("device_id", "device_id", VNaN);
                      ("timestamp", "timestamp", VNaN);
                      ("location_id", "location_id", VNaN);
                      ("sensor_type", "sensor_type", VNaN);
                      ("temperature_celsius", "temperature_celsius", VNaN);
                      ("humidity_percent", "humidity_percent", VNaN);
                      ("air_quality_index", "air_quality_index", VNaN);
                      ("noise_level_db", "noise_level_db", VNaN);
                      ("lighting_lux", "lighting_lux", VNaN);
                      ("crowd_density", "crowd_density", VNaN) ]
       /\ constant air_part (len air_data)
                   [ ("water_temperature", VNaN); ("ph_level", VNaN);
                     ("turbidity_ntu", VNaN); ("bod_mgl", VNaN);
                     ("dissolved_oxygen_mgl", VNaN); ("conductivity", VNaN) ]
       /\ copies water_part water_data
                 [ ("temperature_celsius", "water_temperature") ]
       /\ copies_or water_part water_data
                    [ ("device_id", "device_id", VNaN);
                      ("timestamp", "timestamp", VNaN);
                      ("location_id", "location_id", VNaN);
                      ("sensor_type", "sensor_type", VNaN);
                      ("water_temperature", "water_temperature", VNaN);
                      ("ph_level", "ph_level", VNaN);
                      ("turbidity_ntu", "turbidity_ntu", VNaN);
                      ("bod_mgl", "bod_mgl", VNaN);
                      ("dissolved_oxygen_mgl", "dissolved_oxygen_mgl", VNaN);
                      ("conductivity", "conductivity", VNaN) ]
       /\ constant water_part (len water_data)
                   [ ("humidity_percent", VNaN); ("air_quality_index", VNaN);
                     ("noise_level_db", VNaN); ("lighting_lux", VNaN);
                     ("crowd_density", VNaN) ].
Proof.
  intros RA RW. unfold Environmental.combine_datasets, obind.
  destruct (getitem water_data "water_temperature") as [wt|] eqn:E;
    [|discriminate].
  pose proof (Schema.getitem_length _ _ _ E) as LW.
  cbv zeta.
  match goal with
  | |- sort_values (concat (reindex_columns ?a _) (reindex_columns ?w _)) _
       = _ -> _ =>
      eassert (GA : reads (len air_data) a _)
        by (assignments; apply reads_self; exact RA);
      eassert (GW : reads (len water_data) w _)
        by (assignments; apply reads_self; exact RW);
      set (air_combined := a) in *; set (water_combined := w) in *
  end.
  destruct GA as (_ & LA' & GA). destruct GW as (_ & LW' & GW).
  intros H.
  assert (O : out = {| columns := Environmental.common_columns;
                       rows := fold_right
                                 (insert_row 1) []
                                 (rows (reindex_columns
                                          air_combined
                                          Environmental.common_columns)
                                  ++ rows (reindex_columns
                                             water_combined
                                             Environmental.common_columns)) |})
    by (rewrite sort_values_timestamp in H; congruence).
  clear H. subst out.
  split; [reflexivity|]. split; [|split].
  - unfold rectangular. cbn [rows columns].
    eapply Permutation_Forall; [symmetry; apply sort_rows_perm|].
    apply Forall_app. split.
    + apply (rectangular_reindex _ Environmental.common_columns).
    + apply (rectangular_reindex _ Environmental.common_columns).
  - eexists. unfold getitem.
    cbn [columns column_index Environmental.common_columns
         String.eqb Ascii.eqb Bool.eqb option_map rows].
    split; [reflexivity|]. apply Sorted_map. apply sort_rows_sorted.
  - exists (reindex_columns air_combined Environmental.common_columns),
      (reindex_columns water_combined Environmental.common_columns).
    split; [cbn [rows]; apply sort_rows_perm|].
    split; [now rewrite Schema.reindex_columns_len|].
    split; [now rewrite Schema.reindex_columns_len|].
    split; [|split; [|split; [|split]]].
    + intros o i d I. cbn [In] in I.
      repeat (destruct I as [I | I]; [injection I as <- <- <- | ]);
        [ .. | contradiction ]; column_of GA LA'; reflexivity.
    + intros o v I. each_pair I; column_of GA LA'; reflexivity.
    + intros o i I. each_pair I. column_of GW LW'. now rewrite E.
    + intros o i d I. cbn [In] in I.
      repeat (destruct I as [I | I]; [injection I as <- <- <- | ]);
        [ .. | contradiction ]; column_of GW LW'; reflexivity.
    + intros o v I. each_pair I; column_of GW LW'; reflexivity.
Qed.

Lemma combined_table_witness :
  rectangular {| columns := ["device_id"; "timestamp"; "humidity_percent"];
                 rows := [[VStr "did:lcore:env-101-air"; VInt 2000; VFloat 40]] |}
  /\ rectangular {| columns := ["device_id"; "timestamp"; "water_temperature"];
                    rows := [[VStr "did:lcore:env-101-water"; VInt 1000;
                              VFloat 18]] |}
  /\ exists out,
       Environmental.combine_datasets
         {| columns := ["device_id"; "timestamp"; "humidity_percent"];
            rows := [[VStr "did:lcore:env-101-air"; VInt 2000; VFloat 40]] |}
         {| columns := ["device_id"; "timestamp"; "water_temperature"];
            rows := [[VStr "did:lcore:env-101-water"; VInt 1000; VFloat 18]] |}
       = Some out
       /\ columns out = Environmental.common_columns
       /\ rectangular out.
Proof.
  assert (RA : rectangular
                 {| columns := ["device_id"; "timestamp"; "humidity_percent"];
                    rows := [[VStr "did:lcore:env-101-air"; VInt 2000;
                              VFloat 40]] |})
    by (repeat constructor).
  assert (RW : rectangular
                 {| columns := ["device_id"; "timestamp"; "water_temperature"];
                    rows := [[VStr "did:lcore:env-101-water"; VInt 1000;
                              VFloat 18]] |})
    by (repeat constructor).
  split; [exact RA|]. split; [exact RW|].
  eexists. split; [reflexivity|].
  match goal with
  | |- columns ?o = _ /\ _ =>
      destruct (combined_table _ _ o RA RW eq_refl) as (C & R & _)
  end.
  split; [exact C | exact R].
Defined.

End SchemaContent.

(** ** The columns of the agriculture table *)

Module AgricultureColumns.
Import DropFacts.

Lemma existsb_flat_map_const (name : string) (l : list string) :
  existsb (String.eqb name)
          (List.flat_map (fun _ : string => l) Agriculture.discard_columns)
  = existsb (String.eqb name) l.
Proof.
  cbn [Agriculture.discard_columns List.flat_map].
  rewrite !existsb_app. cbn [existsb].
  destruct (existsb (String.eqb name) l); reflexivity.
Qed.

Lemma existsb_filter (p : string -> bool) (name : string) (l : list string) :
  existsb (String.eqb name) (List.filter p l)
  = existsb (String.eqb name) l && p name.
Proof.
  induction l as [|c l IH]; [reflexivity|]. cbn [List.filter existsb].
  destruct (String.eqb name c) eqn:E.
  - apply String.eqb_eq in E. subst c. destruct (p name) eqn:P; cbn.
    + now rewrite String.eqb_refl.
    + rewrite IH. apply andb_false_r.
  - destruct (p c); cbn; [rewrite E|]; exact IH.
Qed.

(** X20 (agriculture_transformation.py remove_redundant_variables): the
    step is total; it keeps the rows; the table it returns has a column
    exactly when the working table has it and its name contains none of
    the three marker texts; every column whose name contains none of them
    reads as before.  The three columns listed for discarding contain a
    marker, and none of the eleven columns that the renaming step looks
    for does. *)
Theorem redundant_variables_removed (raw_data : DataFrame) :
  let out := Agriculture.remove_redundant_variables raw_data in
  len out = len raw_data
  /\ (forall name,
         has_column out name
         = has_column raw_data name && negb (Agriculture.matches_discard name))
  /\ (forall name, Agriculture.matches_discard name = false ->
                   getitem out name = getitem raw_data name)
  /\ (forall c, In c Agriculture.discard_columns ->
                Agriculture.matches_discard c = true)
  /\ (forall old new, In (old, new) Agriculture.column_mapping ->
                      Agriculture.matches_discard old = false).
Proof.
  cbv zeta.
  assert (X : forall name,
             existsb (String.eqb name)
                     (List.flat_map
                        (fun _ : string =>
                           List.filter Agriculture.matches_discard
                                       (columns raw_data))
                        Agriculture.discard_columns)
             = has_column raw_data name && Agriculture.matches_discard name).
  { intros name. rewrite existsb_flat_map_const. apply existsb_filter. }
  unfold Agriculture.remove_redundant_variables. cbv zeta.
  destruct (List.flat_map _ Agriculture.discard_columns) as [|l ls] eqn:F.
  - split; [reflexivity|]. split; [|split; [reflexivity|]].
    + intros name. specialize (X name). cbn [existsb] in X.
      destruct (has_column raw_data name), (Agriculture.matches_discard name);
        try reflexivity; discriminate.
    + split.
      * intros c I. cbn in I.
        destruct I as [<- | [<- | [<- | []]]]; vm_compute; reflexivity.
      * intros old new I. cbn in I.
        repeat (destruct I as [I | I]; [injection I as <- <- | ]);
          [ .. | contradiction ]; vm_compute; reflexivity.
  - rewrite <- F in *. split; [apply len_drop_ignore|]. split; [|split].
    + intros name. rewrite has_column_drop_ignore, X.
      destruct (has_column raw_data name), (Agriculture.matches_discard name);
        reflexivity.
    + intros name M. apply getitem_drop_ignore. rewrite X, M.
      apply andb_false_r.
    + split.
      * intros c I. cbn in I.
        destruct I as [<- | [<- | [<- | []]]]; vm_compute; reflexivity.
      * intros old new I. cbn in I.
        repeat (destruct I as [I | I]; [injection I as <- <- | ]);
          [ .. | contradiction ]; vm_compute; reflexivity.
Qed.

Lemma redundant_variables_removed_witness :
  Agriculture.matches_discard "Class" = false
  /\ getitem (Agriculture.remove_redundant_variables
                {| columns := ["Average wet weight of the root (AWWR)"; "Class"];
                   rows := [[VFloat 1; VStr "SA"]] |}) "Class"
     = Some [VStr "SA"]
  /\ has_column (Agriculture.remove_redundant_variables
                   {| columns := ["Average wet weight of the root (AWWR)";
                                  "Class"];
                      rows := [[VFloat 1; VStr "SA"]] |})
                "Average wet weight of the root (AWWR)" = false.
Proof.
  assert (M : Agriculture.matches_discard "Class" = false) by reflexivity.
  split; [exact M|].
  destruct (redundant_variables_removed
              {| columns := ["Average wet weight of the root (AWWR)"; "Class"];
                 rows := [[VFloat 1; VStr "SA"]] |}) as (_ & H & G & _).
  split.
  - rewrite (G "Class" M). reflexivity.
  - rewrite H. reflexivity.
Defined.

(** One round of the loop leaves alone a name that is not the one looked
    for and does not contain its first 20 characters. *)
Lemma mapping_step_other (cols : list string) (actual : dict string)
      (old new c : string) :
  String.eqb old c = false ->
  contains (Str.take 20 old) c = false ->
  dict_get (Agriculture.actual_mapping_loop [(old, new)] cols actual) c
  = dict_get actual c.
Proof.
  intros N P. cbn [Agriculture.actual_mapping_loop].
  destruct (existsb (String.eqb old) cols).
  - now rewrite DictFacts.dict_get_set, N.
  - destruct (List.filter (contains (Str.take 20 old)) cols) as [|m ms] eqn:F;
      [reflexivity|].
    rewrite DictFacts.dict_get_set.
    destruct (String.eqb m c) eqn:E; [|reflexivity].
    apply String.eqb_eq in E. subst m.
    assert (I : In c (List.filter (contains (Str.take 20 old)) cols))
      by (rewrite F; now left).
    apply filter_In in I. destruct I as [_ I]. congruence.
Qed.

Lemma mapping_loop_cons (item : string * string) (items : dict string)
      (cols : list string) (actual : dict string) :
  Agriculture.actual_mapping_loop (item :: items) cols actual
  = Agriculture.actual_mapping_loop
      items cols (Agriculture.actual_mapping_loop [item] cols actual).
Proof. destruct item as [old new]. reflexivity. Qed.

Lemma mapping_loop_other (items : dict string) (cols : list string)
      (actual : dict string) (c : string) :
  Forall (fun item => String.eqb (fst item) c = false
                      /\ contains (Str.take 20 (fst item)) c = false) items ->
  dict_get (Agriculture.actual_mapping_loop items cols actual) c
  = dict_get actual c.
Proof.
  intros F. revert actual.
  induction F as [|[old new] items [N P] F IH]; intros actual; [reflexivity|].
  rewrite mapping_loop_cons, IH. now apply mapping_step_other.
Qed.

Lemma mapping_loop_present (items : dict string) (cols : list string)
      (actual : dict string) (old new : string) :
  existsb (String.eqb old) cols = true ->
  NoDup (List.map fst items) ->
  Forall (fun item => String.eqb (fst item) old = true
                      \/ contains (Str.take 20 (fst item)) old = false) items ->
  In (old, new) items ->
  dict_get (Agriculture.actual_mapping_loop items cols actual) old = Some new.
Proof.
  intros C D F. revert actual.
  induction F as [|[o n] items H F IH]; intros actual I; [contradiction|].
  cbn [List.map fst] in D. apply NoDup_cons_iff in D. destruct D as [D1 D2].
  rewrite mapping_loop_cons. destruct (String.eqb o old) eqn:E.
  - apply String.eqb_eq in E. subst o.
    assert (n = new).
    { destruct I as [I | I]; [congruence|].
      exfalso. apply D1. apply in_map_iff. now exists (old, new). }
    subst n. rewrite mapping_loop_other.
    + cbn [Agriculture.actual_mapping_loop]. rewrite C, DictFacts.dict_get_set.
      now rewrite String.eqb_refl.
    + apply Forall_forall. intros [o' n'] I'. cbn [fst].
      rewrite Forall_forall in F. specialize (F _ I'). cbn [fst] in F.
      assert (N : String.eqb o' old = false).
      { apply String.eqb_neq. intros ->. apply D1. apply in_map_iff.
        now exists (old, n'). }
      split; [exact N|]. destruct F as [F | F]; [congruence | exact F].
  - destruct I as [I | I]; [injection I as -> _; now rewrite String.eqb_refl in E|].
    apply (IH D2). exact I.
Qed.

Lemma column_mapping_separate :
  NoDup (List.map fst Agriculture.column_mapping)
  /\ forall old,
       In old (List.map fst Agriculture.column_mapping) ->
       Forall (fun item => String.eqb (fst item) old = true
                           \/ contains (Str.take 20 (fst item)) old = false)
              Agriculture.column_mapping.
Proof.
  split.
  - cbn. repeat (constructor; [cbn; intuition discriminate|]). constructor.
  - intros old I. cbn in I.
    repeat (destruct I as [<- | I]; [| ]); [ .. | contradiction ];
      repeat (constructor; [vm_compute; tauto|]); constructor.
Qed.

(** X21 (agriculture_transformation.py standardize_column_names): the
    step only renames: rows, number and order of the columns stay.  A
    column that bears one of the eleven names of the mapping gets the
    schema name of that entry, whatever other columns the table has; a
    column whose name is none of the eleven and contains the first 20
    characters of none of them keeps its name. *)
Theorem standardized_column_names (raw_data : DataFrame) :
  let out := Agriculture.standardize_column_names raw_data in
  rows out = rows raw_data
  /\ List.length (columns out) = List.length (columns raw_data)
  /\ (forall old new j,
         In (old, new) Agriculture.column_mapping ->
         nth_error (columns raw_data) j = Some old ->
         nth_error (columns out) j = Some new)
  /\ (forall c j,
         (forall old new, In (old, new) Agriculture.column_mapping ->
                          c <> old /\ contains (Str.take 20 old) c = false) ->
         nth_error (columns raw_data) j = Some c ->
         nth_error (columns out) j = Some c).
Proof.
  cbv zeta. unfold Agriculture.standardize_column_names, rename. cbv zeta.
  cbn [rows columns]. split; [reflexivity|]. split; [apply length_map|].
  destruct column_mapping_separate as [D S]. split.
  - intros old new j I N. rewrite nth_error_map, N. cbn [option_map].
    rewrite (mapping_loop_present _ _ _ old new); [reflexivity| | | |].
    + apply existsb_eqb_In. eapply nth_error_In; eassumption.
    + exact D.
    + apply S. apply in_map_iff. now exists (old, new).
    + exact I.
  - intros c j H N. rewrite nth_error_map, N. cbn [option_map].
    rewrite mapping_loop_other; [reflexivity|].
    apply Forall_forall. intros [old new] I. cbn [fst].
    destruct (H old new I) as [A B]. split; [|exact B].
    apply String.eqb_neq. congruence.
Qed.

Lemma standardized_column_names_witness :
  In ("Class", "plant_class") Agriculture.column_mapping
  /\ nth_error (columns {| columns := ["Random"; "Note"; "Class"];
                           rows := [[VStr "R1"; VStr "x"; VStr "SA"]] |}) 2
     = Some "Class"
  /\ nth_error (columns (Agriculture.standardize_column_names
                           {| columns := ["Random"; "Note"; "Class"];
                              rows := [[VStr "R1"; VStr "x"; VStr "SA"]] |})) 2
     = Some "plant_class".
Proof.
  assert (I : In ("Class", "plant_class") Agriculture.column_mapping)
    by (cbn; tauto).
  split; [exact I|]. split; [reflexivity|].
  destruct (standardized_column_names
              {| columns := ["Random"; "Note"; "Class"];
                 rows := [[VStr "R1"; VStr "x"; VStr "SA"]] |})
    as (_ & _ & H & _).
  apply (H "Class" "plant_class" 2%nat I). reflexivity.
Defined.

End AgricultureColumns.

(** ** Timestamps of the water rows *)

Module WaterTimestamps.
Import Identifiers.
Local Open Scope Z_scope.

Lemma diff_nil_iff (l : list Z) : diff l = [] <-> (List.length l < 2)%nat.
Proof.
  destruct l as [|x [|y l]]; cbn; split; intros H; try reflexivity;
    try lia; discriminate.
Qed.

Lemma diff_length (l : list Z) :
  List.length (diff l) = (List.length l - 1)%nat.
Proof.
  induction l as [|x [|y l] IH]; try reflexivity.
  cbn [diff List.length] in *. rewrite IH. lia.
Qed.

Lemma before_in_mode_false (l : list Z) (a b : Z) :
  before_in_mode l a b = false
  <-> (count a l <= count b l)%nat /\ (count a l = count b l -> b <= a).
Proof.
  unfold before_in_mode.
  destruct (Nat.ltb_spec (count b l) (count a l)),
    (Nat.eqb_spec (count b l) (count a l)), (Z.ltb_spec a b); cbn;
    split; try discriminate; try reflexivity; lia.
Qed.

Lemma before_in_mode_true (l : list Z) (a b : Z) :
  before_in_mode l a b = true
  <-> (count b l < count a l)%nat \/ (count a l = count b l /\ a < b).
Proof.
  unfold before_in_mode.
  destruct (Nat.ltb_spec (count b l) (count a l)),
    (Nat.eqb_spec (count b l) (count a l)), (Z.ltb_spec a b); cbn;
    split; try discriminate; try reflexivity; lia.
Qed.

(** The value chosen among the modes is in the list, and nothing in the
    list comes before it. *)
Lemma fold_mode (l l' : list Z) (x : Z) :
  let r := fold_left (fun best y => if before_in_mode l y best then y else best)
                     l' x in
  In r (x :: l')
  /\ forall y, In y (x :: l') -> before_in_mode l y r = false.
Proof.
  cbv zeta. revert x. induction l' as [|y l' IH]; intros x.
  - cbn. split; [now left|]. intros y [<- | []].
    apply before_in_mode_false. lia.
  - cbn [fold_left]. destruct (before_in_mode l y x) eqn:B.
    + destruct (IH y) as [I N]. split.
      * destruct I as [I | I]; [right; left; exact I | right; right; exact I].
      * intros z [<- | Z]; [|now apply N].
        pose proof (N y (or_introl eq_refl)) as Ny.
        apply before_in_mode_false in Ny. apply before_in_mode_true in B.
        apply before_in_mode_false. lia.
    + destruct (IH x) as [I N]. split.
      * destruct I as [I | I]; [left; exact I | right; right; exact I].
      * intros z [<- | [<- | Z]].
        -- apply N. now left.
        -- pose proof (N x (or_introl eq_refl)) as Nx.
           apply before_in_mode_false in B, Nx.
           apply before_in_mode_false. lia.
        -- apply N. now right.
Qed.

Lemma mode_first_spec (l : list Z) (m : Z) :
  mode_first l = Some m ->
  In m l
  /\ forall y, In y l ->
               (count y l <= count m l)%nat
               /\ (count y l = count m l -> m <= y).
Proof.
  destruct l as [|x l']; [discriminate|]. cbn [mode_first]. intros H.
  apply some_inj in H. subst m.
  destruct (fold_mode (x :: l') l' x) as [I N]. split; [exact I|].
  intros y Y. apply before_in_mode_false. now apply N.
Qed.

Lemma minimum_spec (x : Z) (l : list Z) :
  In (minimum x l) (x :: l) /\ forall t, In t (x :: l) -> minimum x l <= t.
Proof.
  unfold minimum. revert x. induction l as [|y l IH]; intros x.
  - cbn. split; [now left|]. intros t [<- | []]. lia.
  - cbn [fold_left]. destruct (IH (Z.min x y)) as [I N]. split.
    + destruct I as [I | I]; [|right; right; exact I].
      rewrite <- I. destruct (Z.min_spec x y) as [[_ ->] | [_ ->]];
        [now left | right; now left].
    + intros t [<- | [<- | T]].
      * pose proof (N (Z.min x y) (or_introl eq_refl)). lia.
      * pose proof (N (Z.min x y) (or_introl eq_refl)). lia.
      * apply N. now right.
Qed.

Lemma diff_regular (t d : Z) (n : nat) :
  diff (List.map (fun i => t + Z.of_nat i * d) (seq 0 (S n))) = repeat d n.
Proof.
  generalize 0%nat. induction n as [|n IH]; intros k; [reflexivity|].
  cbn [seq List.map diff repeat] in *. rewrite IH. f_equal. lia.
Qed.

Lemma mode_first_repeat (d : Z) (n : nat) :
  mode_first (repeat d (S n)) = Some d.
Proof.
  cbn [repeat mode_first]. f_equal.
  generalize (d :: repeat d n). intros l.
  induction n as [|n IH]; [reflexivity|]. cbn [repeat fold_left].
  assert (B : before_in_mode l d d = false).
  { unfold before_in_mode. rewrite Nat.ltb_irrefl, Z.ltb_irrefl.
    now rewrite andb_false_r. }
  rewrite B. exact IH.
Qed.

Lemma minimum_regular (t d : Z) (n : nat) :
  0 <= d ->
  minimum t (List.map (fun i => t + Z.of_nat i * d) (seq 1 n)) = t.
Proof.
  intros D. destruct (minimum_spec t (List.map (fun i => t + Z.of_nat i * d)
                                               (seq 1 n))) as [I N].
  pose proof (N t (or_introl eq_refl)) as U.
  destruct I as [I | I]; [now symmetry|].
  apply in_map_iff in I. destruct I as (i & E & _). nia.
Qed.

(** X24 (environmental_fusion.py generate_timestamps_for_water): the
    step fails exactly when the air data have fewer than two rows.
    Otherwise it gives one timestamp per water row, in equal steps from
    the earliest air timestamp; the step is a difference between two
    consecutive air timestamps, none of the differences is more frequent,
    and of the most frequent ones it is the smallest.  When the air rows
    are evenly spaced in time, in ascending order, water row [i] gets the
    timestamp of air row [i]. *)
Theorem water_timestamps_follow_air (air_timestamp : list Z)
        (water_data : DataFrame) :
  (Environmental.generate_timestamps_for_water air_timestamp water_data = None
   <-> (List.length air_timestamp < 2)%nat)
  /\ (forall water_timestamp,
         Environmental.generate_timestamps_for_water air_timestamp water_data
         = Some water_timestamp ->
         exists start_time time_interval,
           In start_time air_timestamp
           /\ (forall t, In t air_timestamp -> start_time <= t)
           /\ In time_interval (diff air_timestamp)
           /\ (forall d, In d (diff air_timestamp) ->
                         (count d (diff air_timestamp)
                          <= count time_interval (diff air_timestamp))%nat
                         /\ (count d (diff air_timestamp)
                             = count time_interval (diff air_timestamp) ->
                             time_interval <= d))
           /\ water_timestamp
              = List.map (fun i => start_time + Z.of_nat i * time_interval)
                         (seq 0 (len water_data)))
  /\ (forall t d n,
         0 <= d ->
         air_timestamp
         = List.map (fun i => t + Z.of_nat i * d) (seq 0 (S (S n))) ->
         Environmental.generate_timestamps_for_water air_timestamp water_data
         = Some (List.map (fun i => t + Z.of_nat i * d)
                          (seq 0 (len water_data)))).
Proof.
  unfold Environmental.generate_timestamps_for_water. cbv zeta.
  split; [|split].
  - rewrite <- diff_nil_iff.
    destruct (diff air_timestamp) as [|x l]; cbn; split; intros H;
      try reflexivity; discriminate.
  - intros ws. destruct (mode_first (diff air_timestamp)) as [m|] eqn:M;
      cbn [obind]; [|discriminate].
    intros H. apply some_inj in H. subst ws.
    destruct (mode_first_spec _ _ M) as [I C].
    destruct air_timestamp as [|t ts]; [contradiction|].
    destruct (minimum_spec t ts) as [I' N'].
    exists (minimum t ts), m. auto.
  - intros t d n D ->. rewrite diff_regular, mode_first_repeat. cbn [obind].
    change (seq 0 (S (S n))) with (0%nat :: seq 1 (S n)). cbn [List.map].
    replace (t + Z.of_nat 0 * d) with t by (cbn; lia).
    rewrite (minimum_regular t d (S n) D). reflexivity.
Qed.

Lemma water_timestamps_follow_air_witness :
  (0 <= 900)%Z
  /\ Environmental.generate_timestamps_for_water
       (List.map (fun i => 1000 + Z.of_nat i * 900) (seq 0 3))
       {| columns := ["pH"]; rows := [[VInt 7]; [VInt 6]] |}
     = Some [1000; 1900].
Proof.
  assert (D : (0 <= 900)%Z) by lia.
  split; [exact D|].
  destruct (water_timestamps_follow_air
              (List.map (fun i => 1000 + Z.of_nat i * 900) (seq 0 3))
              {| columns := ["pH"]; rows := [[VInt 7]; [VInt 6]] |})
    as (_ & _ & R).
  exact (R 1000 900 1%nat D eq_refl).
Defined.

End WaterTimestamps.

(** ** Identifiers as the later steps see them *)

Module IdentifierUse.
Import TextFacts Identifiers.

Lemma contains_fresh (a : ascii) (sub s t : string) :
  Str.all (fun c => negb (Ascii.eqb a c)) s = true ->
  contains (String a sub) (s ++ t) = contains (String a sub) t.
Proof.
  induction s as [|c s IH]; [reflexivity|]. cbn [Str.all append].
  intros H. apply andb_prop in H. destruct H as [N H].
  cbn [contains String.prefix].
  destruct (ascii_dec a c) as [E | E].
  - subst c. now rewrite Ascii.eqb_refl in N.
  - cbn [orb]. now apply IH.
Qed.

Lemma uint_chars (d : Decimal.uint) :
  Str.all is_digit (NilEmpty.string_of_uint d) = true.
Proof. induction d; cbn; auto. Qed.

(** A numeral has digits, and maybe a minus sign. *)
Lemma str_int_chars (z : Z) :
  Str.all (fun c => is_digit c || Ascii.eqb c "-") (str_int z) = true.
Proof.
  assert (W : forall s, Str.all is_digit s = true ->
                        Str.all (fun c => is_digit c || Ascii.eqb c "-") s
                        = true).
  { induction s as [|c s IH]; [reflexivity|]. cbn. intros H.
    apply andb_prop in H. destruct H as [-> H]. now apply IH. }
  assert (U : forall d, Str.all is_digit (NilZero.string_of_uint d) = true).
  { intros d. destruct d; try reflexivity; apply (uint_chars _). }
  unfold str_int. destruct (Z.to_int z) as [d|d]; cbn [NilZero.string_of_int].
  - apply W, U.
  - cbn [Str.all]. apply W, U.
Qed.

Lemma str_int_without (a : ascii) (z : Z) :
  is_digit a || Ascii.eqb a "-" = false ->
  Str.all (fun c => negb (Ascii.eqb a c)) (str_int z) = true.
Proof.
  intros A. pose proof (str_int_chars z) as H.
  induction (str_int z) as [|c s IH]; [reflexivity|]. cbn in *.
  apply andb_prop in H. destruct H as [C H]. rewrite (IH H), andb_true_r.
  destruct (Ascii.eqb a c) eqn:E; [|reflexivity].
  apply Ascii.eqb_eq in E. subst c. congruence.
Qed.

Lemma contains_in_device_id (a : ascii) (sub suffix : string) (z : Z) :
  is_digit a || Ascii.eqb a "-" = false ->
  Str.all (fun c => negb (Ascii.eqb a c)) "did:lcore:env-" = true ->
  contains (String a sub) ("did:lcore:env-" ++ str_int z ++ suffix)
  = contains (String a sub) suffix.
Proof.
  intros A P. rewrite (contains_fresh a sub _ _ P).
  apply contains_fresh. now apply str_int_without.
Qed.

(** X22 (environmental_fusion.py validate_fusion_results, on the
    identifiers of create_device_ids): the validation tells the two kinds
    of sensor apart by looking for "air" and for "water" in the
    identifier.  On the identifiers that the script builds this is exact:
    an air identifier contains "air" and not "water", a water identifier
    contains "water" and not "air"; so the two lists of the report are
    the air identifiers and the water identifiers. *)
Theorem validation_tells_sensor_kinds
        (air_location_id water_location_id : list Z) :
  let (air_ids, water_ids) :=
    Environmental.create_device_ids air_location_id water_location_id in
  (forall id, In id air_ids ->
              contains "air" id = true /\ contains "water" id = false)
  /\ (forall id, In id water_ids ->
                 contains "water" id = true /\ contains "air" id = false)
  /\ Environmental.air_dids (air_ids ++ water_ids) = air_ids
  /\ Environmental.water_dids (air_ids ++ water_ids) = water_ids.
Proof.
  unfold Environmental.create_device_ids.
  assert (A : forall l, contains "air" (Environmental.air_device_id l) = true
                        /\ contains "water" (Environmental.air_device_id l)
                           = false).
  { intros l. unfold Environmental.air_device_id.
    rewrite !contains_in_device_id by reflexivity. split; reflexivity. }
  assert (W : forall l, contains "water" (Environmental.water_device_id l) = true
                        /\ contains "air" (Environmental.water_device_id l)
                           = false).
  { intros l. unfold Environmental.water_device_id.
    rewrite !contains_in_device_id by reflexivity. split; reflexivity. }
  split; [|split; [|split]].
  - intros id I. apply in_map_iff in I. destruct I as (l & <- & _). apply A.
  - intros id I. apply in_map_iff in I. destruct I as (l & <- & _). apply W.
  - unfold Environmental.air_dids. rewrite filter_app.
    replace (List.filter (contains "air")
                         (List.map Environmental.water_device_id
                                   water_location_id)) with (@nil string).
    + rewrite app_nil_r. induction air_location_id as [|l ls IH];
        [reflexivity|]. cbn [List.map List.filter].
      rewrite (proj1 (A l)). now rewrite IH.
    + induction water_location_id as [|l ls IH]; [reflexivity|].
      cbn [List.map List.filter]. now rewrite (proj2 (W l)).
  - unfold Environmental.water_dids. rewrite filter_app.
    replace (List.filter (contains "water")
                         (List.map Environmental.air_device_id
                                   air_location_id)) with (@nil string).
    + cbn [app]. induction water_location_id as [|l ls IH];
        [reflexivity|]. cbn [List.map List.filter].
      rewrite (proj1 (W l)). now rewrite IH.
    + induction air_location_id as [|l ls IH]; [reflexivity|].
      cbn [List.map List.filter]. now rewrite (proj2 (A l)).
Qed.

Lemma retail_form_in_roster (region : string) (n : Z) :
  In region Retail.kc_neighborhoods -> (1 <= n <= 3)%Z ->
  exists devices,
    dict_get Wallet.get_actual_device_ids "retail" = Some devices
    /\ In ("did:lcore:retail-" ++ Retail.region_clean region ++ "-store-"
             ++ str_int n) devices.
Proof.
  intros R N. eexists. split; [reflexivity|].
  assert (C : (n = 1 \/ n = 2 \/ n = 3)%Z) by lia.
  cbn in R.
  repeat (destruct R as [<- | R]; [| ]); [ .. | contradiction ];
    destruct C as [-> | [-> | ->]]; vm_compute; tauto.
Qed.

(** X23 (the roster of create_wallet_device_mapping.py against the
    generators of the transformation scripts): whatever the table and the
    state of the generator, every identifier that the network, weather
    and retail generators assign is listed in the roster under its
    category, the retail regions being the ten neighbourhoods of the
    script; and the roster lists 9, 5 and 30 identifiers there, pairwise
    distinct, so it lists no device that these generators cannot
    assign. *)
Theorem roster_covers_generators :
  (exists network weather retail,
      dict_get Wallet.get_actual_device_ids "network" = Some network
      /\ dict_get Wallet.get_actual_device_ids "weather" = Some weather
      /\ dict_get Wallet.get_actual_device_ids "retail" = Some retail
      /\ (forall i signal, In (Network.cell_tower_device_id i signal) network)
      /\ (forall id, In id network ->
                     exists i signal,
                       Network.cell_tower_device_id i signal = id)
      /\ (forall i, In (Weather.station_device_id i) weather)
      /\ (forall id, In id weather ->
                     exists i, Weather.station_device_id i = id)
      /\ (forall fuel region st id st',
             In region Retail.kc_neighborhoods ->
             Retail.create_store_device_id fuel region st = Some (id, st') ->
             In id retail)
      /\ (forall id, In id retail ->
                     exists region n,
                       In region Retail.kc_neighborhoods /\ (1 <= n <= 3)%Z
                       /\ id = "did:lcore:retail-"
                                 ++ Retail.region_clean region ++ "-store-"
                                 ++ str_int n)
      /\ NoDup network /\ NoDup weather /\ NoDup retail).
Proof.
  do 3 eexists. split; [reflexivity|]. split; [reflexivity|].
  split; [reflexivity|].
  split; [|split; [|split; [|split; [|split; [|split]]]]].
  - intros i signal. apply (CellTower.device_id_in_towers i signal).
  - intros id I. cbn in I.
    repeat (destruct I as [<- | I]; [| ]); [ .. | contradiction ].
    + exists 0%Z, (Num 0). reflexivity.
    + exists 1%Z, (Num 0). reflexivity.
    + exists 2%Z, (Num 0). reflexivity.
    + exists 0%Z, (Num (-80)). reflexivity.
    + exists 1%Z, (Num (-80)). reflexivity.
    + exists 2%Z, (Num (-80)). reflexivity.
    + exists 0%Z, NaN. reflexivity.
    + exists 1%Z, NaN. reflexivity.
    + exists 2%Z, NaN. reflexivity.
  - intros i. apply (station_device_id_in i).
  - intros id I. cbn in I.
    destruct I as [<- | [<- | [<- | [<- | [<- | []]]]]];
      [exists 0%nat | exists 1%nat | exists 2%nat | exists 3%nat
       | exists 4%nat]; reflexivity.
  - intros fuel region st id st' R E.
    apply Identity.create_store_device_id_form in E.
    destruct E as (n & N & ->).
    destruct (retail_form_in_roster region n R N) as (devices & D & I).
    cbn in D. apply some_inj in D. now subst devices.
  - intros id I.
    assert (B : forallb
                  (fun id =>
                     existsb
                       (fun region =>
                          existsb
                            (fun n => String.eqb id
                                        ("did:lcore:retail-"
                                           ++ Retail.region_clean region
                                           ++ "-store-" ++ str_int n))
                            [1; 2; 3]%Z)
                       Retail.kc_neighborhoods)
                  [ "did:lcore:retail-39th-street-district-store-1";
                    "did:lcore:retail-39th-street-district-store-2";
                    "did:lcore:retail-39th-street-district-store-3";
                    "did:lcore:retail-brookside-store-1";
                    "did:lcore:retail-brookside-store-2";
                    "did:lcore:retail-brookside-store-3";
                    "did:lcore:retail-country-club-plaza-store-1";
                    "did:lcore:retail-country-club-plaza-store-2";
                    "did:lcore:retail-country-club-plaza-store-3";
                    "did:lcore:retail-crossroads-arts-district-store-1";
                    "did:lcore:retail-crossroads-arts-district-store-2";
                    "did:lcore:retail-crossroads-arts-district-store-3";
                    "did:lcore:retail-crown-center-store-1";
                    "did:lcore:retail-crown-center-store-2";
                    "did:lcore:retail-crown-center-store-3";
                    "did:lcore:retail-midtown-store-1";
                    "did:lcore:retail-midtown-store-2";
                    "did:lcore:retail-midtown-store-3";
                    "did:lcore:retail-power-and-light-district-store-1";
                    "did:lcore:retail-power-and-light-district-store-2";
                    "did:lcore:retail-power-and-light-district-store-3";
                    "did:lcore:retail-river-market-store-1";
                    "did:lcore:retail-river-market-store-2";
                    "did:lcore:retail-river-market-store-3";
                    "did:lcore:retail-west-bottoms-store-1";
                    "did:lcore:retail-west-bottoms-store-2";
                    "did:lcore:retail-west-bottoms-store-3";
                    "did:lcore:retail-westport-store-1";
                    "did:lcore:retail-westport-store-2";
                    "did:lcore:retail-westport-store-3" ] = true)
      by (vm_compute; reflexivity).
    rewrite forallb_forall in B. specialize (B id I).
    apply existsb_exists in B. destruct B as (region & R & B).
    apply existsb_exists in B. destruct B as (n & N & B).
    apply String.eqb_eq in B. exists region, n.
    split; [exact R|]. split; [|exact B].
    cbn in N. destruct N as [<- | [<- | [<- | []]]]; lia.
  - split; [|split];
      match goal with
      | |- NoDup ?l =>
          let E := fresh "E" in
          assert (E : nodup string_dec l = l) by (vm_compute; reflexivity);
          rewrite <- E; apply NoDup_nodup
      end.
Qed.

(** X25 (the identity generators of the six scripts): the character
    after "did:lcore:" names the data set: a for agriculture, h for
    health, e for the environmental sensors, c for the cell towers, r for
    retail and w for weather, whatever the key.  So no identifier of one
    data set is ever an identifier of another. *)
Theorem device_ids_name_their_dataset :
  (forall plot_id,
      dataset_letter (Agriculture.device_id plot_id) = Some "a"%char)
  /\ (forall x, dataset_letter (Health.device_id x) = Some "h"%char)
  /\ (forall location_id,
         dataset_letter (Environmental.air_device_id location_id)
         = Some "e"%char
         /\ dataset_letter (Environmental.water_device_id location_id)
            = Some "e"%char)
  /\ (forall i signal,
         dataset_letter (Network.cell_tower_device_id i signal)
         = Some "c"%char)
  /\ (forall fuel region st id st',
         Retail.create_store_device_id fuel region st = Some (id, st') ->
         dataset_letter id = Some "r"%char)
  /\ (forall i, dataset_letter (Weather.station_device_id i) = Some "w"%char)
  /\ (forall id1 id2, dataset_letter id1 <> dataset_letter id2 -> id1 <> id2).
Proof.
  split; [reflexivity|]. split; [reflexivity|].
  split; [split; reflexivity|]. split; [|split; [|split]].
  - intros i signal. unfold Network.cell_tower_device_id.
    destruct (float_ge signal (-70)); [reflexivity|].
    destruct (float_ge signal (-85)); reflexivity.
  - intros fuel region st id st' E.
    apply Identity.create_store_device_id_form in E.
    destruct E as (n & _ & ->). reflexivity.
  - reflexivity.
  - intros id1 id2 N E. apply N. now rewrite E.
Qed.

Lemma device_ids_name_their_dataset_witness :
  dataset_letter (Agriculture.device_id "R1")
  <> dataset_letter (Health.device_id "Device_1")
  /\ Agriculture.device_id "R1" <> Health.device_id "Device_1".
Proof.
  assert (N : dataset_letter (Agriculture.device_id "R1")
              <> dataset_letter (Health.device_id "Device_1"))
    by (vm_compute; discriminate).
  split; [exact N|].
  destruct device_ids_name_their_dataset as (_ & _ & _ & _ & _ & _ & D).
  exact (D _ _ N).
Defined.

End IdentifierUse.
